(** * pytest-gcppubsub: the emulator lifecycle coordinator

    A shallow embedding of [pytest_gcppubsub/_emulator.py] and the
    properties of its shared (pytest-xdist) mode.

    The Python code talks to the operating system: processes, signals,
    a monotonic clock, TCP connects and one JSON file per coordination
    directory.  The embedding threads an explicit [World] through every
    call and reads everything the program cannot decide itself from an
    [Env] of oracles indexed by the number of system interactions made
    so far, so a fixed [Env] is one complete behaviour of the machine.

    Conventions.
    - Python [int] is [Z].  Durations and clock readings (Python
      [float] seconds) are integer milliseconds in [Z]: [0.2] is [200],
      [5.0] is [5000].  Only finite durations exist in the model: a
      timeout of [float("inf")] or [float("nan")] is outside it, and
      every statement about a timeout is one about a finite timeout.
    - A value decoded from JSON is a [pyval]; Python [None] is [PNone].
    - The content of a file is a JSON text that [json.loads] decodes,
      represented by the value it decodes to, or one of the contents
      on which reading or decoding fails.
    - [with FileLock(...)] serialises the critical sections of the
      workers; a critical section is one uninterrupted call here.  The
      lock file itself, which [FileLock] creates empty and leaves in
      the directory, is read and written by the lock alone and is not
      among the [files] of the model: a statement about [files] is one
      about the files other than lock files. *)

From Stdlib Require Import ZArith NArith List Ascii String Bool Lia.
Import ListNotations.
Open Scope Z_scope.
Set Warnings "-register-all".

(* ================================================================= *)
(** ** Python values, exceptions and the effect monad *)

Module Py.

(** Values that [json.loads] can produce (numbers restricted to
    integers, the only numbers the coordinator writes). *)
Inductive pyval : Type :=
| PNone
| PBool (b : bool)
| PInt (n : Z)
| PStr (s : string)
| PList (l : list pyval)
| PDict (d : list (string * pyval)).

(** An f-string: literal text and the values interpolated into it
    ([FSeconds]: a [float] number of seconds, held in milliseconds). *)
Inductive fpart : Type :=
| Lit (s : string)
| FStr (s : string)
| FInt (n : Z)
| FSeconds (ms : Z).

Definition fstring := list fpart.

Inductive exn : Type :=
| AssertionError
| KeyError (key : string)
| TypeError
| OverflowError
| RuntimeError (msg : fstring)
| JSONDecodeError
| OSError
| FileNotFoundError
| PermissionError
| ProcessLookupError
| ConnectionRefusedError
| TimeoutError (msg : fstring)
| ValueError
| UnicodeError
| UnicodeDecodeError
| RecursionError.

(** [isinstance(e, OSError)] in Python's exception hierarchy. *)
Definition isinstance_OSError (e : exn) : bool :=
  match e with
  | OSError | FileNotFoundError | PermissionError | ProcessLookupError
  | ConnectionRefusedError | TimeoutError _ => true
  | _ => false
  end.

(** The outcome of a call.  [Diverge] is not a Python outcome: it marks
    a loop of the model that used up its iteration budget, and the
    theorems show it is never produced. *)
Inductive result (A : Type) : Type :=
| Ok (a : A)
| Raise (e : exn)
| Diverge.
Arguments Ok {A} a.
Arguments Raise {A} e.
Arguments Diverge {A}.

(** Stateful, fallible computations over a state [S].  State changes
    made before an exception is raised are kept. *)
Definition M (S A : Type) : Type := S -> S * result A.

Definition ret {S A} (a : A) : M S A := fun s => (s, Ok a).
Definition raise {S A} (e : exn) : M S A := fun s => (s, Raise e).
Definition diverge {S A} : M S A := fun s => (s, Diverge).

Definition bind {S A B} (m : M S A) (k : A -> M S B) : M S B :=
  fun s =>
    match m s with
    | (s', Ok a) => k a s'
    | (s', Raise e) => (s', Raise e)
    | (s', Diverge) => (s', Diverge)
    end.

(** [try: m  except <classes>: h].  The handler table [h] answers
    [None] for an exception that no [except] clause matches. *)
Definition try_except {S A} (m : M S A) (h : exn -> option (M S A)) : M S A :=
  fun s =>
    match m s with
    | (s', Raise e) =>
        match h e with
        | Some k => k s'
        | None => (s', Raise e)
        end
    | r => r
    end.

Definition lift_result {S A} (r : result A) : M S A := fun s => (s, r).

(** *** Dictionaries as ordered association lists *)

Fixpoint dict_get (k : string) (d : list (string * pyval)) : option pyval :=
  match d with
  | [] => None
  | (k', v) :: d' => if String.eqb k k' then Some v else dict_get k d'
  end.

Fixpoint dict_set (k : string) (v : pyval) (d : list (string * pyval))
  : list (string * pyval) :=
  match d with
  | [] => [(k, v)]
  | (k', v') :: d' =>
      if String.eqb k k' then (k', v) :: d' else (k', v') :: dict_set k v d'
  end.

(** [obj[key]] for a string key. *)
Definition getitem (obj : pyval) (key : string) : result pyval :=
  match obj with
  | PDict d =>
      match dict_get key d with
      | Some v => Ok v
      | None => Raise (KeyError key)
      end
  | _ => Raise TypeError
  end.

(** [obj[key] = v]; the object is mutated in place, the model returns
    the object after the assignment. *)
Definition setitem (obj : pyval) (key : string) (v : pyval) : result pyval :=
  match obj with
  | PDict d => Ok (PDict (dict_set key v d))
  | _ => Raise TypeError
  end.

(** [v + n] for an integer literal [n]. *)
Definition py_add (v : pyval) (n : Z) : result pyval :=
  match v with
  | PInt z => Ok (PInt (z + n))
  | PBool b => Ok (PInt (Z.b2z b + n))
  | _ => Raise TypeError
  end.

(** [v <= 0]. *)
Definition py_le0 (v : pyval) : result bool :=
  match v with
  | PInt z => Ok (z <=? 0)
  | PBool b => Ok (Z.b2z b <=? 0)
  | _ => Raise TypeError
  end.

(** A dynamically typed value passed where the callee hands it straight
    to a C function that wants an integer ([os.kill]): anything that
    is not an integer is rejected with [TypeError]. *)
Definition as_int (v : pyval) : result Z :=
  match v with
  | PInt z => Ok z
  | PBool b => Ok (Z.b2z b)
  | _ => Raise TypeError
  end.

Definition is_none (v : pyval) : bool :=
  match v with PNone => true | _ => false end.

End Py.
Import Py.

Declare Scope py_scope.
Delimit Scope py_scope with py.
Notation "x <- m ;; k" := (bind m (fun x => k))
  (at level 100, m at next level, right associativity) : py_scope.
Notation "m ;;; k" := (bind m (fun _ => k))
  (at level 100, right associativity) : py_scope.
Open Scope py_scope.

(* ================================================================= *)
(** ** The operating system *)

Module OS.

(** The signals the coordinator sends: [0] (existence probe),
    [signal.SIGTERM], [signal.SIGKILL]. *)
Inductive signal : Type := SIG0 | SIGTERM | SIGKILL.

(** What [kill(2)] answers for a valid signal. *)
Inductive kres : Type :=
| Delivered
| ESRCH      (* no such process *)
| EPERM.     (* the process exists, the caller may not signal it *)

(** The content of a file, by what reading and decoding make of it:
    - [NotJson]: text that is not JSON ([json.loads] raises
      [JSONDecodeError]), the empty text for one;
    - [Doc v]: a JSON text that [json.loads] decodes, to [v];
    - [NotUtf8]: bytes that are not UTF-8 ([read_text] raises
      [UnicodeDecodeError]);
    - [LongInteger]: JSON with an integer literal of more digits than
      the interpreter converts (4300), on which [json.loads] raises
      [ValueError];
    - [DeepNesting]: JSON nested deeper than the interpreter recurses,
      on which [json.loads] raises [RecursionError]. *)
Inductive text : Type :=
| NotJson (raw : string)
| Doc (v : pyval)
| NotUtf8 (raw : string)
| LongInteger (raw : string)
| DeepNesting (raw : string).

(** One behaviour of the machine.  The first argument of an oracle
    that answers for one interaction with the system is the number of
    interactions made before it.  [idna_refuses] is no such oracle: it
    says which host names the idna codec of the interpreter rejects, a
    matter of the name alone. *)
Record Env : Type := {
  latency : nat -> N;                       (* time the interaction takes, ms *)
  sys_kill : nat -> Z -> signal -> kres;
  tcp_accepts : nat -> string -> Z -> bool; (* does the connect succeed *)
  idna_refuses : string -> bool;            (* host names the idna codec rejects *)
  ephemeral_port : nat -> Z;                (* port the kernel picks for bind(0) *)
  sys_spawn : nat -> list fstring -> exn + Z (* pid of the child, or why not *)
}.

Record World : Type := {
  events : nat;                        (* interactions so far *)
  clock : Z;                           (* [time.monotonic()], ms *)
  files : string -> option text;       (* the files, lock files aside *)
  spawned : list (Z * list fstring);   (* children started: pid, argv *)
  signalled : list (Z * signal);       (* arguments of the [os.kill] calls
                                          that succeeded *)
  dialled : list (string * Z)          (* connection attempts *)
}.

Definition with_clock (t : Z) (w : World) : World :=
  {| events := events w; clock := t; files := files w;
     spawned := spawned w; signalled := signalled w; dialled := dialled w |}.

Definition with_files (f : string -> option text) (w : World) : World :=
  {| events := events w; clock := clock w; files := f;
     spawned := spawned w; signalled := signalled w; dialled := dialled w |}.

Definition log_spawn (pid : Z) (argv : list fstring) (w : World) : World :=
  {| events := events w; clock := clock w; files := files w;
     spawned := spawned w ++ [(pid, argv)];
     signalled := signalled w; dialled := dialled w |}.

Definition log_signal (pid : Z) (sig : signal) (w : World) : World :=
  {| events := events w; clock := clock w; files := files w;
     spawned := spawned w; signalled := signalled w ++ [(pid, sig)];
     dialled := dialled w |}.

Definition log_dial (host : string) (port : Z) (w : World) : World :=
  {| events := events w; clock := clock w; files := files w;
     spawned := spawned w; signalled := signalled w;
     dialled := dialled w ++ [(host, port)] |}.

(** Does [pid] fit the C [int] that [os.kill] converts it to? *)
Definition fits_c_int (pid : Z) : bool :=
  (- 2 ^ 31 <=? pid) && (pid <? 2 ^ 31).

(** Does [port] fit the C [long] that [socket.getaddrinfo] converts it
    to? *)
Definition fits_c_long (port : Z) : bool :=
  (- 2 ^ 63 <=? port) && (port <? 2 ^ 63).

Section Primitives.
Variable env : Env.

(** One interaction with the system: it is counted and it takes the
    time the environment says. *)
Definition step (w : World) : World :=
  {| events := S (events w);
     clock := clock w + Z.of_N (latency env (events w));
     files := files w; spawned := spawned w;
     signalled := signalled w; dialled := dialled w |}.

(** [time.monotonic()] *)
Definition monotonic : M World Z :=
  fun w => let w1 := step w in (w1, Ok (clock w1)).

(** [time.sleep(d)]: at least [d] milliseconds pass. *)
Definition sleep (d : Z) : M World unit :=
  fun w => let w1 := step w in (with_clock (clock w1 + d) w1, Ok tt).

(** [os.kill(pid, sig)].  A [pid] that does not fit a C [int] is
    refused by the argument conversion before any system call is made;
    otherwise [ESRCH] becomes [ProcessLookupError] and [EPERM] becomes
    [PermissionError].  The log keeps the arguments of a call that
    succeeded; which processes [kill(2)] addressed is the system's
    matter: the process [pid] for a positive [pid], a process group or
    every process the caller may signal for a [pid] of 0 or below. *)
Definition os_kill (pid : Z) (sig : signal) : M World unit :=
  fun w =>
    if fits_c_int pid then
      let w1 := step w in
      match sys_kill env (events w) pid sig with
      | Delivered => (log_signal pid sig w1, Ok tt)
      | ESRCH => (w1, Raise ProcessLookupError)
      | EPERM => (w1, Raise PermissionError)
      end
    else (w, Raise OverflowError).

(** [socket.create_connection((host, port), timeout=1.0)], used as a
    context manager that closes the socket at once.  The call first
    converts its arguments, [socket.getaddrinfo] encoding the host name
    with the idna codec ([UnicodeError] for a name the codec rejects, a
    label of more than 63 characters for one) and then turning the port
    into a C [long] ([OverflowError]); neither exception is an
    [OSError] and no system call has been made when they are raised.
    After that, a failed attempt (name resolution, refusal, the one
    second passing) raises a subclass of [OSError]. *)
Definition create_connection (host : string) (port : Z) : M World unit :=
  fun w =>
    if idna_refuses env host then (w, Raise UnicodeError)
    else if fits_c_long port then
      let w1 := log_dial host port (step w) in
      if tcp_accepts env (events w) host port
      then (w1, Ok tt)
      else (w1, Raise ConnectionRefusedError)
    else (w, Raise OverflowError).

(** [subprocess.Popen(cmd, stdout=PIPE, stderr=PIPE)]; the result is
    the child's pid. *)
Definition popen (cmd : list fstring) : M World Z :=
  fun w =>
    let w1 := step w in
    match sys_spawn env (events w) cmd with
    | inl e => (w1, Raise e)
    | inr pid => (log_spawn pid cmd w1, Ok pid)
    end.

End Primitives.

(** [Path / name] *)
Definition path_join (dir name : string) : string :=
  (dir ++ "/" ++ name)%string.

(** [path.read_text()]: the bytes of the file, decoded as UTF-8. *)
Definition read_text (path : string) : M World text :=
  fun w =>
    match files w path with
    | Some (NotUtf8 _) => (w, Raise UnicodeDecodeError)
    | Some t => (w, Ok t)
    | None => (w, Raise FileNotFoundError)
    end.

(** [path.write_text(t)]: the file holds exactly [t] afterwards. *)
Definition write_text (path : string) (t : text) : M World unit :=
  fun w =>
    (with_files (fun p => if String.eqb p path then Some t else files w p) w,
     Ok tt).

(** [path.unlink(missing_ok=True)] *)
Definition unlink (path : string) : M World unit :=
  fun w =>
    (with_files (fun p => if String.eqb p path then None else files w p) w,
     Ok tt).

(** [json.loads] and [json.dumps] through the document they denote.
    [JSONDecodeError] is a [ValueError]; the [ValueError] for a long
    integer is no [JSONDecodeError]. *)
Definition json_loads (t : text) : result pyval :=
  match t with
  | Doc v => Ok v
  | NotJson _ => Raise JSONDecodeError
  | NotUtf8 _ => Raise UnicodeDecodeError
  | LongInteger _ => Raise ValueError
  | DeepNesting _ => Raise RecursionError
  end.

Definition json_dumps (v : pyval) : text := Doc v.

End OS.
Import OS.

(* ================================================================= *)
(** ** [_emulator.py] *)

(** [EmulatorInfo]: a frozen dataclass.  The annotations ([str], [int],
    [str]) are not enforced when an instance is built, and the join
    path builds one from decoded JSON, so the fields hold Python
    values. *)
Record EmulatorInfo : Type := {
  host : pyval;
  port : pyval;
  project : pyval
}.

(** The instance attributes of [PubSubEmulator]; [_process] keeps the
    pid of the [Popen] object. *)
Record PubSubEmulator : Type := {
  _host : string;
  _port : Z;
  _project : string;
  _timeout : Z;
  _shared_dir : option string;
  _process : option Z;
  _info : option EmulatorInfo;
  _is_owner : bool
}.

(** [PubSubEmulator.__init__] *)
Definition init (host : string) (port : Z) (project : string) (timeout : Z)
    (shared_dir : option string) : PubSubEmulator :=
  {| _host := host; _port := port; _project := project;
     _timeout := timeout; _shared_dir := shared_dir;
     _process := None; _info := None; _is_owner := false |}.

Definition set_process (p : option Z) (o : PubSubEmulator) : PubSubEmulator :=
  {| _host := _host o; _port := _port o; _project := _project o;
     _timeout := _timeout o; _shared_dir := _shared_dir o;
     _process := p; _info := _info o; _is_owner := _is_owner o |}.

Definition set_info (i : option EmulatorInfo) (o : PubSubEmulator)
  : PubSubEmulator :=
  {| _host := _host o; _port := _port o; _project := _project o;
     _timeout := _timeout o; _shared_dir := _shared_dir o;
     _process := _process o; _info := i; _is_owner := _is_owner o |}.

Definition set_is_owner (b : bool) (o : PubSubEmulator) : PubSubEmulator :=
  {| _host := _host o; _port := _port o; _project := _project o;
     _timeout := _timeout o; _shared_dir := _shared_dir o;
     _process := _process o; _info := _info o; _is_owner := b |}.

(** A method runs on the instance and the world. *)
Definition Method (A : Type) : Type := M (PubSubEmulator * World) A.

Definition in_world {A} (m : M World A) : Method A :=
  fun s => let (w1, r) := m (snd s) in ((fst s, w1), r).

Definition self : Method PubSubEmulator := fun s => (s, Ok (fst s)).

Definition assign (f : PubSubEmulator -> PubSubEmulator) : Method unit :=
  fun s => ((f (fst s), snd s), Ok tt).

(** The polling interval, [time.sleep(0.2)]. *)
Definition POLL : Z := 200.

(** Iterations granted to a polling loop that runs until
    [time.monotonic()] passes a deadline [timeout] from now: every
    iteration that does not leave the loop sleeps [POLL], so this is
    more than the loop can use (see [poll_connect_budget] and
    [poll_exit_budget]). *)
Definition poll_budget (timeout : Z) : nat :=
  S (Z.to_nat (timeout / POLL + 1)).

Definition timeout_msg (timeout : Z) (host : string) (port : Z) : fstring :=
  [Lit "Emulator did not start within "; FSeconds timeout; Lit "s on ";
   FStr host; Lit ":"; FInt port].

Section Emulator.
Variable env : Env.

(** [_find_free_port]: bind to port 0 and read the port back. *)
Definition _find_free_port : M World Z :=
  fun w => let w1 := step env w in (w1, Ok (ephemeral_port env (events w))).

(** [_is_pid_alive] *)
Definition _is_pid_alive (pid : Z) : M World bool :=
  try_except
    (os_kill env pid SIG0 ;;; ret true)
    (fun e =>
       match e with
       | ProcessLookupError => Some (ret false)
       | PermissionError => Some (ret true)
       | _ => None
       end).

(** The [while] loop of [_wait_for_port]: [true] when the function
    returned from inside the loop, [false] when the loop condition
    failed. *)
Fixpoint poll_connect (host : string) (port : Z) (deadline : Z) (budget : nat)
  : M World bool :=
  match budget with
  | O => diverge
  | S budget' =>
      now <- monotonic env ;;
      if now <? deadline then
        connected <-
          try_except
            (create_connection env host port ;;; ret true)
            (fun e =>
               if isinstance_OSError e
               then Some (sleep env POLL ;;; ret false)
               else None) ;;
        if connected : bool then ret true
        else poll_connect host port deadline budget'
      else ret false
  end.

(** [_wait_for_port] *)
Definition _wait_for_port (host : string) (port : Z) (timeout : Z)
  : M World unit :=
  now <- monotonic env ;;
  let deadline := now + timeout in
  returned <- poll_connect host port deadline (poll_budget timeout) ;;
  if returned : bool then ret tt
  else raise (TimeoutError (timeout_msg timeout host port)).

(** The [while] loop of [_terminate_process]: [true] when the function
    returned from inside the loop. *)
Fixpoint poll_exit (pid : Z) (deadline : Z) (budget : nat) : M World bool :=
  match budget with
  | O => diverge
  | S budget' =>
      now <- monotonic env ;;
      if now <? deadline then
        alive <- _is_pid_alive pid ;;
        if negb alive then ret true
        else (sleep env POLL ;;; poll_exit pid deadline budget')
      else ret false
  end.

(** [_terminate_process] *)
Definition _terminate_process (pid : Z) (timeout : Z) : M World unit :=
  gone <-
    try_except
      (os_kill env pid SIGTERM ;;; ret false)
      (fun e =>
         match e with
         | ProcessLookupError => Some (ret true)
         | _ => None
         end) ;;
  if gone : bool then ret tt
  else
    now <- monotonic env ;;
    let deadline := now + timeout in
    returned <- poll_exit pid deadline (poll_budget timeout) ;;
    if returned : bool then ret tt
    else
      try_except
        (os_kill env pid SIGKILL)
        (fun e =>
           match e with
           | ProcessLookupError => Some (ret tt)
           | _ => None
           end).

(** The default of [_terminate_process]'s [timeout], [5.0]. *)
Definition TERMINATE_TIMEOUT : Z := 5000.

(** [PubSubEmulator._launch] *)
Definition launch_cmd (host : string) (port : Z) (project : string)
  : list fstring :=
  [[Lit "gcloud"]; [Lit "beta"]; [Lit "emulators"]; [Lit "pubsub"];
   [Lit "start"];
   [Lit "--host-port="; FStr host; Lit ":"; FInt port];
   [Lit "--project="; FStr project]].

Definition _launch (host : string) (port : Z) (project : string) : M World Z :=
  popen env (launch_cmd host port project).

(** [PubSubEmulator._read_state] *)
Definition _read_state (path : string) : M World pyval :=
  try_except
    (t <- read_text path ;; lift_result (json_loads t))
    (fun e =>
       match e with
       | FileNotFoundError | JSONDecodeError => Some (ret PNone)
       | _ => None
       end).

(** [PubSubEmulator._write_state] *)
Definition _write_state (path : string) (state : pyval) : M World unit :=
  write_text path (json_dumps state).

(** The dictionary literal that the owner writes. *)
Definition owner_record (pid : Z) (host : string) (port : Z)
    (project : string) (worker_count : Z) : pyval :=
  PDict [("pid", PInt pid); ("host", PStr host); ("port", PInt port);
         ("project", PStr project); ("worker_count", PInt worker_count)]%string.

Definition LOCK_NAME : string := "pubsub_emulator.lock".
Definition STATE_NAME : string := "pubsub_emulator.json".

(** [with lock: body].  The lock only orders the critical sections of
    different workers, and a critical section is one call here; the
    lock file at [lock_path] is not among the [files] of the model. *)
Definition with_lock {A} (lock_path : string) (body : Method A) : Method A :=
  body.

End Emulator.

Section Coordinator.
Variable env : Env.

(** [PubSubEmulator._start_standalone] *)
Definition _start_standalone : Method EmulatorInfo :=
  o <- self ;;
  port <- (if _port o =? 0 then in_world (_find_free_port env)
           else ret (_port o)) ;;
  proc <- in_world (_launch env (_host o) port (_project o)) ;;
  assign (set_process (Some proc)) ;;;
  assign (set_is_owner true) ;;;
  in_world (_wait_for_port env (_host o) port (_timeout o)) ;;;
  let info := {| host := PStr (_host o); port := PInt port;
                 project := PStr (_project o) |} in
  assign (set_info (Some info)) ;;;
  ret info.

(** [PubSubEmulator._stop_standalone] *)
Definition _stop_standalone : Method unit :=
  o <- self ;;
  match _process o with
  | Some pid =>
      in_world (_terminate_process env pid TERMINATE_TIMEOUT) ;;;
      assign (set_process None)
  | None => ret tt
  end.

(** [PubSubEmulator._start_shared] *)
Definition _start_shared : Method EmulatorInfo :=
  o <- self ;;
  match _shared_dir o with
  | None => raise AssertionError
  | Some shared_dir =>
      let lock_path := path_join shared_dir LOCK_NAME in
      let state_path := path_join shared_dir STATE_NAME in
      with_lock lock_path (
        state <- in_world (_read_state state_path) ;;
        join <-
          (if is_none state then ret false
           else
             pid <- lift_result (getitem state "pid") ;;
             pid <- lift_result (as_int pid) ;;
             in_world (_is_pid_alive env pid)) ;;
        if join : bool then
          (* Join existing emulator *)
          n <- lift_result (getitem state "worker_count") ;;
          n <- lift_result (py_add n 1) ;;
          state <- lift_result (setitem state "worker_count" n) ;;
          in_world (_write_state state_path state) ;;;
          h <- lift_result (getitem state "host") ;;
          p <- lift_result (getitem state "port") ;;
          pr <- lift_result (getitem state "project") ;;
          let info := {| host := h; port := p; project := pr |} in
          assign (set_info (Some info)) ;;;
          ret info
        else
          (* Start new emulator (first worker or stale state) *)
          port <- (if _port o =? 0 then in_world (_find_free_port env)
                   else ret (_port o)) ;;
          proc <- in_world (_launch env (_host o) port (_project o)) ;;
          assign (set_process (Some proc)) ;;;
          assign (set_is_owner true) ;;;
          in_world (_wait_for_port env (_host o) port (_timeout o)) ;;;
          let info := {| host := PStr (_host o); port := PInt port;
                         project := PStr (_project o) |} in
          assign (set_info (Some info)) ;;;
          in_world
            (_write_state state_path
               (owner_record proc (_host o) port (_project o) 1)) ;;;
          ret info)
  end.

(** The three parts of the critical section of [_start_shared], named
    so that lemmas can speak about them ([start_shared_parts] shows
    they are the parts of the definition above): the test of the [if],
    the branch that joins and the branch that launches. *)
Definition live_owner (state : pyval) : Method bool :=
  if is_none state then ret false
  else
    pid <- lift_result (getitem state "pid") ;;
    pid <- lift_result (as_int pid) ;;
    in_world (_is_pid_alive env pid).

Definition join_existing (state_path : string) (state : pyval)
  : Method EmulatorInfo :=
  n <- lift_result (getitem state "worker_count") ;;
  n <- lift_result (py_add n 1) ;;
  state <- lift_result (setitem state "worker_count" n) ;;
  in_world (_write_state state_path state) ;;;
  h <- lift_result (getitem state "host") ;;
  p <- lift_result (getitem state "port") ;;
  pr <- lift_result (getitem state "project") ;;
  let info := {| host := h; port := p; project := pr |} in
  assign (set_info (Some info)) ;;;
  ret info.

Definition start_new (o : PubSubEmulator) (state_path : string)
  : Method EmulatorInfo :=
  port <- (if _port o =? 0 then in_world (_find_free_port env)
           else ret (_port o)) ;;
  proc <- in_world (_launch env (_host o) port (_project o)) ;;
  assign (set_process (Some proc)) ;;;
  assign (set_is_owner true) ;;;
  in_world (_wait_for_port env (_host o) port (_timeout o)) ;;;
  let info := {| host := PStr (_host o); port := PInt port;
                 project := PStr (_project o) |} in
  assign (set_info (Some info)) ;;;
  in_world
    (_write_state state_path
       (owner_record proc (_host o) port (_project o) 1)) ;;;
  ret info.

(** [PubSubEmulator._stop_shared] *)
Definition _stop_shared : Method unit :=
  o <- self ;;
  match _shared_dir o with
  | None => raise AssertionError
  | Some shared_dir =>
      let lock_path := path_join shared_dir LOCK_NAME in
      let state_path := path_join shared_dir STATE_NAME in
      with_lock lock_path (
        state <- in_world (_read_state state_path) ;;
        if is_none state then ret tt
        else
          n <- lift_result (getitem state "worker_count") ;;
          n <- lift_result (py_add n (-1)) ;;
          state <- lift_result (setitem state "worker_count" n) ;;
          n <- lift_result (getitem state "worker_count") ;;
          last <- lift_result (py_le0 n) ;;
          if last : bool then
            pid <- lift_result (getitem state "pid") ;;
            pid <- lift_result (as_int pid) ;;
            in_world (_terminate_process env pid TERMINATE_TIMEOUT) ;;;
            in_world (unlink state_path)
          else in_world (_write_state state_path state))
  end.

(** [PubSubEmulator.start] *)
Definition start : Method EmulatorInfo :=
  o <- self ;;
  match _shared_dir o with
  | Some _ => _start_shared
  | None => _start_standalone
  end.

(** [PubSubEmulator.stop] *)
Definition stop : Method unit :=
  o <- self ;;
  match _shared_dir o with
  | Some _ => _stop_shared
  | None => _stop_standalone
  end.

(** [PubSubEmulator.info] *)
Definition info : Method EmulatorInfo :=
  o <- self ;;
  match _info o with
  | None => raise (RuntimeError [Lit "Emulator has not been started"])
  | Some i => ret i
  end.

(** *** Workers *)

(** What one worker's session fixture does to the shared world: build
    a coordinator, [start()] it; later, [stop()] it.  Only the world is
    shared between workers. *)
Definition acquire (o : PubSubEmulator) (w : World)
  : World * result EmulatorInfo :=
  let (s, r) := start (o, w) in (snd s, r).

Definition release (o : PubSubEmulator) (w : World) : World * result unit :=
  let (s, r) := stop (o, w) in (snd s, r).

(** Workers acquiring one after the other, as the lock orders them. *)
Fixpoint acquire_all (os : list PubSubEmulator) (w : World)
  : World * list (result EmulatorInfo) :=
  match os with
  | [] => (w, [])
  | o :: os' =>
      let (w1, r) := acquire o w in
      let (w2, rs) := acquire_all os' w1 in
      (w2, r :: rs)
  end.

(** Any interleaving of acquires and releases by any workers. *)
Inductive call : Type :=
| Acquire (o : PubSubEmulator)
| Release (o : PubSubEmulator).

Definition run_call (c : call) (w : World) : World :=
  match c with
  | Acquire o => fst (acquire o w)
  | Release o => fst (release o w)
  end.

Definition run_calls (cs : list call) (w : World) : World :=
  fold_left (fun w c => run_call c w) cs w.

End Coordinator.

(* ================================================================= *)
(** ** Concrete machines, used to run the code *)

Definition empty_world : World :=
  {| events := 0; clock := 0; files := fun _ => None;
     spawned := []; signalled := []; dialled := [] |}.

(** The idna codec on an ASCII host name: no label but the last may be
    empty, and no label may have more than 63 characters.  [len] is the
    length of the label being read. *)
Fixpoint labels_fit (host : string) (len : nat) : bool :=
  match host with
  | EmptyString => Nat.ltb len 64
  | String c host' =>
      if Ascii.eqb c "."%char
      then Nat.ltb 0 len && Nat.ltb len 64 && labels_fit host' 0
      else labels_fit host' (S len)
  end.

Definition bad_label (host : string) : bool := negb (labels_fit host 0).

(** A machine on which [gcloud] starts as process 4242 and listens at
    once; no other process exists. *)
Definition good_env : Env :=
  {| latency := fun _ => 1%N;
     sys_kill := fun _ pid _ => if pid =? 4242 then Delivered else ESRCH;
     tcp_accepts := fun _ _ _ => true;
     idna_refuses := bad_label;
     ephemeral_port := fun _ => 40123;
     sys_spawn := fun _ _ => inr 4242 |}.

(** A machine on which the child starts but never listens. *)
Definition deaf_env : Env :=
  {| latency := fun _ => 1%N;
     sys_kill := fun _ pid _ => if pid =? 4242 then Delivered else ESRCH;
     tcp_accepts := fun _ _ _ => false;
     idna_refuses := bad_label;
     ephemeral_port := fun _ => 40123;
     sys_spawn := fun _ _ => inr 4242 |}.

Definition with_state_file (dir : string) (t : text) (w : World) : World :=
  with_files
    (fun p => if String.eqb p (path_join dir STATE_NAME) then Some t
              else files w p) w.

Definition worker (dir : string) : PubSubEmulator :=
  init "localhost" 0 "test-project" 15000 (Some dir).

(** Two workers of one session, the second configured differently. *)
Definition worker_a : PubSubEmulator := worker "/tmp/x".
Definition worker_b : PubSubEmulator :=
  init "elsewhere" 9999 "other-project" 1000 (Some "/tmp/x"%string).

Definition info_a : EmulatorInfo :=
  {| host := PStr "localhost"; port := PInt 40123;
     project := PStr "test-project" |}.

(** The world after [worker_a] started on a clean machine, and after
    [worker_b] started as well. *)
Definition world_1 : World := fst (acquire good_env worker_a empty_world).
Definition world_2 : World := fst (acquire good_env worker_b world_1).

(** ... and after [worker_a] stopped. *)
Definition world_3 : World := fst (release good_env worker_a world_2).

(** A stale record: its owner, pid 777, is gone. *)
Definition stale_world : World :=
  with_state_file "/tmp/x"
    (Doc (owner_record 777 "old-host" 1 "old-project" 3)) empty_world.

(** A worker without a coordination directory. *)
Definition loner : PubSubEmulator :=
  init "localhost" 0 "test-project" 15000 None.

(** A machine whose process 1 belongs to someone else, and on which
    [gcloud] is not installed. *)
Definition guarded_env : Env :=
  {| latency := fun _ => 1%N;
     sys_kill := fun _ pid _ => if pid =? 1 then EPERM else ESRCH;
     tcp_accepts := fun _ _ _ => false;
     idna_refuses := bad_label;
     ephemeral_port := fun _ => 40123;
     sys_spawn := fun _ _ => inl FileNotFoundError |}.

(** A record of the live owner that lacks its ["host"], and a record
    that names process 1. *)
Definition hostless_world : World :=
  with_state_file "/tmp/x"
    (Doc (PDict [("pid", PInt 4242); ("worker_count", PInt 1)]%string))
    empty_world.

Definition guarded_world : World :=
  with_state_file "/tmp/x"
    (Doc (owner_record 1 "localhost" 8085 "test-project" 1)) empty_world.

(* ================================================================= *)
(** ** Predicates of the statements *)

(** The state file and the lock file of a coordination directory. *)
Definition state_path (dir : string) : string := path_join dir STATE_NAME.
Definition lock_path (dir : string) : string := path_join dir LOCK_NAME.

(** A file that holds a JSON object holds one whose ["worker_count"]
    is an integer and at least 1. *)
Definition counted (t : option text) : Prop :=
  match t with
  | Some (Doc (PDict d)) =>
      exists n, dict_get "worker_count" d = Some (PInt n) /\ 1 <= n
  | _ => True
  end.

Definition all_counted (w : World) : Prop :=
  forall path, counted (files w path).

(** [_start_shared] finds no live owner in the state file of [dir]:
    the record is absent, or it names a pid whose probe says the
    process is gone.  [w0] is the world once that is known. *)
Definition no_live_owner (env : Env) (dir : string) (w w0 : World) : Prop :=
  (_read_state (state_path dir) w = (w, Ok PNone) /\ w0 = w)
  \/ (exists d opid,
        files w (state_path dir) = Some (Doc (PDict d))
        /\ dict_get "pid" d = Some (PInt opid)
        /\ _is_pid_alive env opid w = (w0, Ok false)).

(** The process [pid] is there whenever it is probed. *)
Definition stays_alive (env : Env) (pid : Z) : Prop :=
  fits_c_int pid = true /\ forall n, sys_kill env n pid SIG0 <> ESRCH.

(** The worker that makes a call, and the calls of the workers of one
    coordination directory. *)
Definition caller (c : call) : PubSubEmulator :=
  match c with Acquire o => o | Release o => o end.

Definition on_dir (dir : string) (c : call) : Prop :=
  _shared_dir (caller c) = Some dir.

(** The count that a stored count [n] becomes when every acquire adds
    one and every release takes one off. *)
Fixpoint balance (cs : list call) (n : Z) : Z :=
  match cs with
  | [] => n
  | Acquire _ :: cs' => balance cs' (n + 1)
  | Release _ :: cs' => balance cs' (n - 1)
  end.

(** The count never falls below 1 on the way. *)
Fixpoint stays_held (cs : list call) (n : Z) : Prop :=
  match cs with
  | [] => True
  | Acquire _ :: cs' => stays_held cs' (n + 1)
  | Release _ :: cs' => 1 <= n - 1 /\ stays_held cs' (n - 1)
  end.

(** [os.kill] never refuses [pid] for lack of permission. *)
Definition never_refused (env : Env) (pid : Z) : Prop :=
  fits_c_int pid = true /\ forall n sig, sys_kill env n pid sig <> EPERM.

(** A method that neither reads nor changes the instance: it is a
    computation on the world alone. *)
Definition instance_blind {A} (m : Method A) : Type :=
  { mw : M World A |
    forall o w, m (o, w) = ((o, fst (mw w)), snd (mw w)) }.

(** A computation that writes no file; one that starts no process. *)
Definition keeps_files {A} (m : M World A) : Prop :=
  forall w w' r, m w = (w', r) -> files w' = files w.

Definition keeps_spawned {A} (m : M World A) : Prop :=
  forall w w' r, m w = (w', r) -> spawned w' = spawned w.

(** The dynamically typed operations never run out of budget, and the
    exceptions they raise are no [TimeoutError]. *)
Definition plain {A} (r : result A) : Prop :=
  match r with
  | Ok _ => True
  | Raise e => forall msg, e <> TimeoutError msg
  | Diverge => False
  end.

(* ================================================================= *)
(** ** The process handle: [_is_pid_alive] *)

(** C8 (as the code has it).  For every pid that fits a C [int],
    [_is_pid_alive] returns [False] exactly when the probe reports "no
    such process" and [True] both when it reports "no permission" and
    when it succeeds.  The only other outcome of the probe, the
    [OverflowError] that [os.kill] raises for a pid that does not fit a
    C [int], is not caught: it is raised to the caller. *)
Theorem is_pid_alive_outcomes (env : Env) (pid : Z) (w : World) :
  snd (_is_pid_alive env pid w) =
    if fits_c_int pid then
      match sys_kill env (events w) pid SIG0 with
      | ESRCH => Ok false
      | EPERM => Ok true
      | Delivered => Ok true
      end
    else Raise OverflowError.
Proof.
  unfold _is_pid_alive, try_except, bind, os_kill, ret.
  destruct (fits_c_int pid); [|reflexivity].
  destruct (sys_kill env (events w) pid SIG0); reflexivity.
Qed.

(** C8 (as the spec states it) fails: a pid of [2^31] makes the probe
    raise [OverflowError], and [_is_pid_alive] raises it too instead of
    answering [True]. *)
Lemma is_pid_alive_raises :
  _is_pid_alive good_env (2 ^ 31) empty_world
  = (empty_world, Raise OverflowError).
Proof. reflexivity. Qed.

(* ================================================================= *)
(** ** The state store: [_read_state] *)

(** What [_read_state] does, in one equation. *)
Lemma read_state_cases (path : string) (w : World) :
  _read_state path w =
    (w, match files w path with
        | None => Ok PNone
        | Some (NotJson _) => Ok PNone
        | Some (Doc v) => Ok v
        | Some (NotUtf8 _) => Raise UnicodeDecodeError
        | Some (LongInteger _) => Raise ValueError
        | Some (DeepNesting _) => Raise RecursionError
        end).
Proof.
  unfold _read_state, try_except, bind, read_text, lift_result, json_loads, ret.
  destruct (files w path) as [[raw|v|raw|raw|raw]|]; reflexivity.
Qed.

(** [_read_state] changes nothing, comes back, and raises no
    [TimeoutError]. *)
Lemma read_state_plain (path : string) (w : World) :
  exists r, _read_state path w = (w, r) /\ plain r.
Proof.
  rewrite read_state_cases.
  destruct (files w path) as [[raw|v|raw|raw|raw]|];
    eexists; (split; [reflexivity|]); cbn [plain]; auto; discriminate.
Qed.

(** C6 (as the code has it).  [_read_state] changes nothing.  It
    answers [None] when the file is missing and when its text is not
    JSON; a text that [json.loads] decodes is returned as decoded,
    whatever its shape.  The other failures of reading and decoding are
    not caught and are raised: [UnicodeDecodeError] for bytes that are
    not UTF-8, [ValueError] for an integer literal too long to convert,
    [RecursionError] for JSON nested too deep. *)
Theorem read_state_outcomes (path : string) (w : World) :
  match files w path with
  | None => _read_state path w = (w, Ok PNone)
  | Some (NotJson _) => _read_state path w = (w, Ok PNone)
  | Some (Doc v) => _read_state path w = (w, Ok v)
  | Some (NotUtf8 _) => _read_state path w = (w, Raise UnicodeDecodeError)
  | Some (LongInteger _) => _read_state path w = (w, Raise ValueError)
  | Some (DeepNesting _) => _read_state path w = (w, Raise RecursionError)
  end.
Proof.
  unfold _read_state, try_except, bind, read_text, lift_result, json_loads, ret.
  destruct (files w path) as [[raw|v|raw|raw|raw]|]; reflexivity.
Qed.

(** C6 (as the spec states it) fails: a state file holding the JSON
    array [[1]], which is no state record, is not read as absent, and
    the next [start()] raises [TypeError] instead of launching. *)
Lemma read_state_not_a_record :
  let w := with_state_file "/tmp/x" (Doc (PList [PInt 1])) empty_world in
  _read_state (path_join "/tmp/x" STATE_NAME) w = (w, Ok (PList [PInt 1]))
  /\ snd (acquire good_env (worker "/tmp/x") w) = Raise TypeError.
Proof. split; reflexivity. Qed.

(* ================================================================= *)
(** ** The port prober: [_wait_for_port] *)

Section Polling.
Variable env : Env.

Lemma clock_step (w : World) : clock w <= clock (step env w).
Proof. unfold step; simpl. lia. Qed.

Lemma poll_budget_covers (timeout : Z) :
  timeout <= POLL * Z.of_nat (Z.to_nat (timeout / POLL + 1)).
Proof.
  unfold POLL.
  destruct (Z.le_gt_cases 0 timeout) as [Hpos|Hneg].
  - assert (0 <= timeout / 200) by (apply Z.div_pos; lia).
    rewrite Z2Nat.id by lia.
    pose proof (Z.mod_pos_bound timeout 200 ltac:(lia)).
    pose proof (Z.div_mod timeout 200 ltac:(lia)). lia.
  - lia.
Qed.

(** One iteration of the connect loop, with the effects written out. *)
Lemma poll_connect_S (host : string) (port deadline : Z) (b : nat) (w : World) :
  poll_connect env host port deadline (S b) w =
    let w1 := step env w in
    if clock w1 <? deadline then
      if idna_refuses env host then (w1, Raise UnicodeError)
      else if fits_c_long port then
        let w2 := log_dial host port (step env w1) in
        if tcp_accepts env (events w1) host port then (w2, Ok true)
        else poll_connect env host port deadline b
               (with_clock (clock (step env w2) + POLL) (step env w2))
      else (w1, Raise OverflowError)
    else (w1, Ok false).
Proof.
  cbn [poll_connect]. unfold bind at 1, monotonic. cbv zeta.
  destruct (clock (step env w) <? deadline); [|reflexivity].
  unfold bind at 1, try_except, bind at 1, create_connection. cbv zeta.
  destruct (idna_refuses env host); [reflexivity|].
  destruct (fits_c_long port); [|reflexivity].
  destruct (tcp_accepts env (events (step env w)) host port); reflexivity.
Qed.

(** The budget of the connect loop is never used up: once the time
    left is covered by the remaining iterations, the loop gives the
    same, proper outcome under any larger budget. *)
Lemma poll_connect_budget (host : string) (port deadline : Z) (b : nat) :
  forall w, deadline - clock w <= POLL * Z.of_nat b ->
  snd (poll_connect env host port deadline (S b) w) <> Diverge
  /\ forall k, poll_connect env host port deadline (S b + k) w
               = poll_connect env host port deadline (S b) w.
Proof.
  induction b as [|b IH]; intros w Hw.
  - assert (Hexit : (clock (step env w) <? deadline) = false).
    { apply Z.ltb_ge. pose proof (clock_step w). lia. }
    split; [|intros k; change (1 + k)%nat with (S k)];
      rewrite !poll_connect_S; cbv zeta; rewrite Hexit;
      [discriminate|reflexivity].
  - split; [|intros k; change (S (S b) + k)%nat with (S (S b + k))];
      rewrite !poll_connect_S; cbv zeta;
      destruct (clock (step env w) <? deadline); try discriminate;
        try reflexivity;
      destruct (idna_refuses env host); try discriminate; try reflexivity;
      destruct (fits_c_long port); try discriminate; try reflexivity;
      destruct (tcp_accepts env (events (step env w)) host port);
        try discriminate; try reflexivity;
      apply IH; unfold POLL in *;
      cbn [clock step with_clock log_dial events]; lia.
Qed.

(** The arguments are converted and nothing ever accepts: every
    attempt fails with an [OSError], and the loop ends by failing its
    condition. *)
Lemma poll_connect_deaf (host : string) (port deadline : Z) (b : nat) :
  idna_refuses env host = false ->
  fits_c_long port = true ->
  (forall n, tcp_accepts env n host port = false) ->
  forall w, deadline - clock w <= POLL * Z.of_nat b ->
  exists w', poll_connect env host port deadline (S b) w = (w', Ok false).
Proof.
  intros Hhost Hport Hdeaf. induction b as [|b IH]; intros w Hw;
    rewrite poll_connect_S; cbv zeta.
  - assert (Hexit : (clock (step env w) <? deadline) = false).
    { apply Z.ltb_ge. pose proof (clock_step w). lia. }
    rewrite Hexit. eauto.
  - destruct (clock (step env w) <? deadline); [|eauto].
    rewrite Hhost, Hport, Hdeaf. apply IH. unfold POLL in *.
    cbn [clock step with_clock log_dial events]. lia.
Qed.

(** [_wait_for_port] always comes back: it returns or it raises. *)
Lemma wait_for_port_total (host : string) (port timeout : Z) (w : World) :
  snd (_wait_for_port env host port timeout w) <> Diverge.
Proof.
  unfold _wait_for_port, bind at 1, monotonic. cbv zeta.
  pose proof (poll_connect_budget host port
                (clock (step env w) + timeout)
                (Z.to_nat (timeout / POLL + 1)) (step env w)) as [Hd _].
  { pose proof (poll_budget_covers timeout). lia. }
  unfold bind, poll_budget.
  destruct (poll_connect env host port (clock (step env w) + timeout)
              (S (Z.to_nat (timeout / POLL + 1))) (step env w))
    as [w1 [[|]|e|]]; simpl in *; congruence.
Qed.

(** C9 (as the code has it).  For every host name that the idna codec
    accepts, every port that fits a C [long] and every finite timeout:
    when no connection attempt to (host, port) ever succeeds, so that
    every attempt fails with an [OSError], [_wait_for_port] ends, and it
    ends by raising [TimeoutError] with the message built from the
    timeout, the host and the port. *)
Theorem wait_for_port_times_out
    (host : string) (port timeout : Z) (w : World) :
  idna_refuses env host = false ->
  fits_c_long port = true ->
  (forall n, tcp_accepts env n host port = false) ->
  exists w',
    _wait_for_port env host port timeout w
    = (w', Raise (TimeoutError
                    [Lit "Emulator did not start within "; FSeconds timeout;
                     Lit "s on "; FStr host; Lit ":"; FInt port])).
Proof.
  intros Hhost Hport Hdeaf.
  unfold _wait_for_port, bind at 1, monotonic. cbv zeta.
  destruct (poll_connect_deaf host port (clock (step env w) + timeout)
              (Z.to_nat (timeout / POLL + 1)) Hhost Hport Hdeaf (step env w))
    as [w' Hloop].
  { pose proof (poll_budget_covers timeout). lia. }
  exists w'. unfold bind, poll_budget. rewrite Hloop. reflexivity.
Qed.

End Polling.

(** C9 (as the spec states it) fails: on a machine where nothing ever
    accepts a connection, a port of [2^64] makes the first connection
    attempt raise [OverflowError], which is no [OSError];
    [_wait_for_port] raises it at once instead of polling until the
    timeout and raising [TimeoutError]. *)
Lemma wait_for_port_overflow :
  (forall n, tcp_accepts deaf_env n "localhost" (2 ^ 64) = false)
  /\ _wait_for_port deaf_env "localhost" (2 ^ 64) 300 empty_world
     = (step deaf_env (step deaf_env empty_world), Raise OverflowError).
Proof. split; [reflexivity|]. vm_compute. reflexivity. Qed.

(* ================================================================= *)
(** ** The process handle: [_terminate_process] *)

Section Terminating.
Variable env : Env.

Lemma os_kill_cases (pid : Z) (sig : signal) (w : World) :
  os_kill env pid sig w =
    if fits_c_int pid then
      match sys_kill env (events w) pid sig with
      | Delivered => (log_signal pid sig (step env w), Ok tt)
      | ESRCH => (step env w, Raise ProcessLookupError)
      | EPERM => (step env w, Raise PermissionError)
      end
    else (w, Raise OverflowError).
Proof. reflexivity. Qed.

Lemma is_pid_alive_cases (pid : Z) (w : World) :
  _is_pid_alive env pid w =
    if fits_c_int pid then
      match sys_kill env (events w) pid SIG0 with
      | Delivered => (log_signal pid SIG0 (step env w), Ok true)
      | ESRCH => (step env w, Ok false)
      | EPERM => (step env w, Ok true)
      end
    else (w, Raise OverflowError).
Proof.
  unfold _is_pid_alive, try_except, bind, os_kill, ret.
  destruct (fits_c_int pid); [|reflexivity].
  destruct (sys_kill env (events w) pid SIG0); reflexivity.
Qed.

Lemma is_pid_alive_clock (pid : Z) (w w2 : World) (r : result bool) :
  _is_pid_alive env pid w = (w2, r) -> clock w <= clock w2 /\ r <> Diverge.
Proof.
  rewrite is_pid_alive_cases.
  destruct (fits_c_int pid);
    [destruct (sys_kill env (events w) pid SIG0)|];
    intros [= <- <-]; cbn [clock step log_signal]; split;
    try discriminate; lia.
Qed.

(** One iteration of the exit loop. *)
Lemma poll_exit_S (pid deadline : Z) (b : nat) (w : World) :
  poll_exit env pid deadline (S b) w =
    let w1 := step env w in
    if clock w1 <? deadline then
      match _is_pid_alive env pid w1 with
      | (w2, Ok true) =>
          poll_exit env pid deadline b
            (with_clock (clock (step env w2) + POLL) (step env w2))
      | (w2, Ok false) => (w2, Ok true)
      | (w2, Raise e) => (w2, Raise e)
      | (w2, Diverge) => (w2, Diverge)
      end
    else (w1, Ok false).
Proof.
  cbn [poll_exit]. unfold bind at 1, monotonic. cbv zeta.
  destruct (clock (step env w) <? deadline); [|reflexivity].
  unfold bind at 1.
  destruct (_is_pid_alive env pid (step env w)) as [w2 [[|]|e|]]; reflexivity.
Qed.

(** The budget of the exit loop is never used up. *)
Lemma poll_exit_budget (pid deadline : Z) (b : nat) :
  forall w, deadline - clock w <= POLL * Z.of_nat b ->
  snd (poll_exit env pid deadline (S b) w) <> Diverge
  /\ forall k, poll_exit env pid deadline (S b + k) w
               = poll_exit env pid deadline (S b) w.
Proof.
  induction b as [|b IH]; intros w Hw.
  - assert (Hexit : (clock (step env w) <? deadline) = false).
    { apply Z.ltb_ge. pose proof (clock_step env w). lia. }
    split; [|intros k; change (1 + k)%nat with (S k)];
      rewrite !poll_exit_S; cbv zeta; rewrite Hexit;
      [discriminate|reflexivity].
  - pose proof (clock_step env w) as Hc.
    split; [|intros k; change (S (S b) + k)%nat with (S (S b + k))];
      rewrite !poll_exit_S; cbv zeta;
      destruct (clock (step env w) <? deadline); try discriminate;
        try reflexivity;
      destruct (_is_pid_alive env pid (step env w)) as [w2 [[|]|e|]] eqn:E;
        try discriminate; try reflexivity;
      apply is_pid_alive_clock in E; destruct E as [E1 E2];
        try congruence;
      apply IH; unfold POLL in *;
      cbn [clock step with_clock events]; cbn [clock step] in Hc, E1; lia.
Qed.

(** With a pid that [os.kill] accepts the exit loop never raises. *)
Lemma poll_exit_returns (pid deadline : Z) (b : nat) :
  fits_c_int pid = true ->
  forall w, deadline - clock w <= POLL * Z.of_nat b ->
  exists w' r, poll_exit env pid deadline (S b) w = (w', Ok r).
Proof.
  intros Hfit. induction b as [|b IH]; intros w Hw;
    rewrite poll_exit_S; cbv zeta.
  - assert (Hexit : (clock (step env w) <? deadline) = false).
    { apply Z.ltb_ge. pose proof (clock_step env w). lia. }
    rewrite Hexit. eauto.
  - pose proof (clock_step env w) as Hc.
    destruct (clock (step env w) <? deadline); [|eauto].
    rewrite is_pid_alive_cases, Hfit.
    destruct (sys_kill env (events (step env w)) pid SIG0); eauto;
      apply IH; unfold POLL in *;
      cbn [clock step with_clock log_signal events]; cbn [clock step] in Hc;
      lia.
Qed.

(** [_terminate_process] always comes back. *)
Lemma terminate_process_total (pid timeout : Z) (w : World) :
  snd (_terminate_process env pid timeout w) <> Diverge.
Proof.
  unfold _terminate_process, bind at 1, try_except, bind at 1.
  rewrite os_kill_cases.
  destruct (fits_c_int pid); [|discriminate].
  destruct (sys_kill env (events w) pid SIGTERM); try discriminate.
  cbn [ret]. unfold bind at 1, monotonic. cbv zeta.
  set (w1 := step env (log_signal pid SIGTERM (step env w))).
  pose proof (poll_exit_budget pid (clock w1 + timeout)
                (Z.to_nat (timeout / POLL + 1)) w1) as [Hd _].
  { pose proof (poll_budget_covers timeout). lia. }
  unfold bind, poll_budget.
  destruct (poll_exit env pid (clock w1 + timeout)
              (S (Z.to_nat (timeout / POLL + 1))) w1)
    as [w2 [[|]|e|]]; cbn [snd] in *; try discriminate; try congruence.
  unfold try_except. rewrite os_kill_cases.
  destruct (fits_c_int pid); [|discriminate].
  destruct (sys_kill env (events w2) pid SIGKILL); discriminate.
Qed.

(** A pid that [os.kill] accepts and never refuses for lack of
    permission is terminated without an exception. *)
Lemma terminate_process_returns (pid timeout : Z) (w : World) :
  fits_c_int pid = true ->
  (forall n sig, sys_kill env n pid sig <> EPERM) ->
  exists w', _terminate_process env pid timeout w = (w', Ok tt).
Proof.
  intros Hfit Hperm.
  unfold _terminate_process, bind at 1, try_except, bind at 1.
  rewrite os_kill_cases, Hfit.
  pose proof (Hperm (events w) SIGTERM) as H1.
  destruct (sys_kill env (events w) pid SIGTERM); try congruence;
    cbn [ret]; [|eexists; reflexivity].
  unfold bind at 1, monotonic. cbv zeta.
  set (w1 := step env (log_signal pid SIGTERM (step env w))).
  destruct (poll_exit_returns pid (clock w1 + timeout)
              (Z.to_nat (timeout / POLL + 1)) Hfit w1) as (w2 & r & Hloop).
  { pose proof (poll_budget_covers timeout). lia. }
  unfold bind, poll_budget. rewrite Hloop.
  destruct r; [eexists; reflexivity|].
  unfold try_except. rewrite os_kill_cases, Hfit.
  pose proof (Hperm (events w2) SIGKILL) as H2.
  destruct (sys_kill env (events w2) pid SIGKILL); try congruence;
    eexists; reflexivity.
Qed.

(** A process that is gone when the graceful signal is sent: the call
    returns at once and nothing is signalled. *)
Lemma terminate_process_already_gone (pid timeout : Z) (w : World) :
  fits_c_int pid = true ->
  sys_kill env (events w) pid SIGTERM = ESRCH ->
  _terminate_process env pid timeout w = (step env w, Ok tt).
Proof.
  intros Hfit Hgone.
  unfold _terminate_process, bind at 1, try_except, bind at 1.
  rewrite os_kill_cases, Hfit, Hgone. reflexivity.
Qed.

(** C7 (as the code has it).  Take a pid that names one process to
    [os.kill], that is a positive one that fits a C [int], and for
    which [os.kill], whenever it is called, either delivers the signal
    or reports that the process is gone ([ProcessLookupError]); such a
    pid with no process is one.  Then [_terminate_process] returns
    normally, and so does a second call made after the first, for any
    timeouts: a process that is gone before the graceful signal,
    during the wait or at the forceful kill is a success. *)
Theorem terminate_process_idempotent (pid t1 t2 : Z) (w : World) :
  0 < pid ->
  fits_c_int pid = true ->
  (forall n sig, sys_kill env n pid sig <> EPERM) ->
  exists w1 w2,
    _terminate_process env pid t1 w = (w1, Ok tt)
    /\ _terminate_process env pid t2 w1 = (w2, Ok tt).
Proof.
  intros _ Hfit Hperm.
  destruct (terminate_process_returns pid t1 w Hfit Hperm) as [w1 H1].
  destruct (terminate_process_returns pid t2 w1 Hfit Hperm) as [w2 H2].
  eauto.
Qed.

End Terminating.

(** C7 (as the spec states it) fails: no process has the pid [2^31],
    and [_terminate_process] does not return normally for it: the
    graceful signal raises [OverflowError], which is not caught. *)
Lemma terminate_process_overflow :
  (forall n sig, sys_kill good_env n (2 ^ 31) sig = ESRCH)
  /\ _terminate_process good_env (2 ^ 31) TERMINATE_TIMEOUT empty_world
     = (empty_world, Raise OverflowError).
Proof. split; reflexivity. Qed.

(* ================================================================= *)
(** ** Dictionaries *)

Lemma dict_get_set_same (k : string) (v : pyval) (d : list (string * pyval)) :
  dict_get k (dict_set k v d) = Some v.
Proof.
  induction d as [|[k' v'] d IH]; simpl.
  - rewrite String.eqb_refl. reflexivity.
  - destruct (String.eqb k k') eqn:E; simpl; rewrite E; auto.
Qed.

Lemma dict_get_set_other (k k' : string) (v : pyval)
    (d : list (string * pyval)) :
  k' <> k -> dict_get k' (dict_set k v d) = dict_get k' d.
Proof.
  intros Hne. induction d as [|[k0 v0] d IH]; simpl.
  - apply String.eqb_neq in Hne. rewrite Hne. reflexivity.
  - destruct (String.eqb k k0) eqn:E; simpl.
    + apply String.eqb_eq in E. subst k0.
      apply String.eqb_neq in Hne. rewrite Hne. reflexivity.
    + rewrite IH. reflexivity.
Qed.

(* ================================================================= *)
(** ** What the helpers leave alone *)

Section Frames.
Variable env : Env.

Lemma poll_connect_frame (host : string) (port deadline : Z) (b : nat) :
  keeps_files (poll_connect env host port deadline b)
  /\ keeps_spawned (poll_connect env host port deadline b).
Proof.
  unfold keeps_files, keeps_spawned.
  induction b as [|b [IHf IHs]].
  - split; intros w w' r [= <- <-]; reflexivity.
  - split; intros w w' r; rewrite poll_connect_S; cbv zeta;
      destruct (clock (step env w) <? deadline);
      try (intros [= <- <-]; reflexivity);
      destruct (idna_refuses env host);
      try (intros [= <- <-]; reflexivity);
      destruct (fits_c_long port);
      try (intros [= <- <-]; reflexivity);
      destruct (tcp_accepts env (events (step env w)) host port);
      try (intros [= <- <-]; reflexivity);
      intros H; [apply IHf in H|apply IHs in H]; exact H.
Qed.

Lemma wait_for_port_frame (host : string) (port timeout : Z) :
  keeps_files (_wait_for_port env host port timeout)
  /\ keeps_spawned (_wait_for_port env host port timeout).
Proof.
  unfold keeps_files, keeps_spawned.
  split; intros w w' r; unfold _wait_for_port, bind at 1, monotonic;
    cbv zeta; unfold bind;
    destruct (poll_connect env host port (clock (step env w) + timeout)
                (poll_budget timeout) (step env w)) as [w1 [[|]|e|]] eqn:E;
    intros [= <- <-];
    [apply (proj1 (poll_connect_frame _ _ _ _)) in E
    |apply (proj1 (poll_connect_frame _ _ _ _)) in E
    |apply (proj1 (poll_connect_frame _ _ _ _)) in E
    |apply (proj1 (poll_connect_frame _ _ _ _)) in E
    |apply (proj2 (poll_connect_frame _ _ _ _)) in E
    |apply (proj2 (poll_connect_frame _ _ _ _)) in E
    |apply (proj2 (poll_connect_frame _ _ _ _)) in E
    |apply (proj2 (poll_connect_frame _ _ _ _)) in E]; exact E.
Qed.

Lemma is_pid_alive_frame (pid : Z) :
  keeps_files (_is_pid_alive env pid) /\ keeps_spawned (_is_pid_alive env pid).
Proof.
  unfold keeps_files, keeps_spawned.
  split; intros w w' r; rewrite is_pid_alive_cases;
    destruct (fits_c_int pid);
    [destruct (sys_kill env (events w) pid SIG0)| |
     destruct (sys_kill env (events w) pid SIG0)|];
    intros [= <- <-]; reflexivity.
Qed.

Lemma poll_exit_frame (pid deadline : Z) (b : nat) :
  keeps_files (poll_exit env pid deadline b)
  /\ keeps_spawned (poll_exit env pid deadline b).
Proof.
  unfold keeps_files, keeps_spawned.
  induction b as [|b [IHf IHs]].
  - split; intros w w' r [= <- <-]; reflexivity.
  - split; intros w w' r; rewrite poll_exit_S; cbv zeta;
      destruct (clock (step env w) <? deadline);
      try (intros [= <- <-]; reflexivity);
      destruct (_is_pid_alive env pid (step env w)) as [w2 [[|]|e|]] eqn:E;
      [apply (proj1 (is_pid_alive_frame pid)) in E
      |apply (proj1 (is_pid_alive_frame pid)) in E
      |apply (proj1 (is_pid_alive_frame pid)) in E
      |apply (proj1 (is_pid_alive_frame pid)) in E
      |apply (proj2 (is_pid_alive_frame pid)) in E
      |apply (proj2 (is_pid_alive_frame pid)) in E
      |apply (proj2 (is_pid_alive_frame pid)) in E
      |apply (proj2 (is_pid_alive_frame pid)) in E];
      try (intros [= <- <-]; exact E);
      intros H; [apply IHf in H|apply IHs in H]; rewrite H; exact E.
Qed.

Lemma terminate_process_frame (pid timeout : Z) :
  keeps_files (_terminate_process env pid timeout)
  /\ keeps_spawned (_terminate_process env pid timeout).
Proof.
  unfold keeps_files, keeps_spawned.
  split; intros w w' r;
    unfold _terminate_process, bind at 1, try_except, bind at 1;
    rewrite os_kill_cases;
    (destruct (fits_c_int pid); [|intros [= <- <-]; reflexivity]);
    (destruct (sys_kill env (events w) pid SIGTERM);
       try (intros [= <- <-]; reflexivity));
    cbn [ret]; unfold bind at 1, monotonic; cbv zeta; unfold bind;
    set (w1 := step env (log_signal pid SIGTERM (step env w)));
    destruct (poll_exit env pid (clock w1 + timeout) (poll_budget timeout) w1)
      as [w2 [[|]|e|]] eqn:E;
    [apply (proj1 (poll_exit_frame _ _ _)) in E
    |apply (proj1 (poll_exit_frame _ _ _)) in E
    |apply (proj1 (poll_exit_frame _ _ _)) in E
    |apply (proj1 (poll_exit_frame _ _ _)) in E
    |apply (proj2 (poll_exit_frame _ _ _)) in E
    |apply (proj2 (poll_exit_frame _ _ _)) in E
    |apply (proj2 (poll_exit_frame _ _ _)) in E
    |apply (proj2 (poll_exit_frame _ _ _)) in E];
    try (intros [= <- <-]; exact E);
    rewrite os_kill_cases;
    (destruct (fits_c_int pid); [|intros [= <- <-]; exact E]);
    destruct (sys_kill env (events w2) pid SIGKILL);
    intros [= <- <-]; exact E.
Qed.

End Frames.

(* ================================================================= *)
(** ** What the helpers do, step by step *)

Section Shapes.
Variable env : Env.

(** What one run of the connect loop does: it dials (host, port) and
    nothing else, a new attempt only after a sleep of [POLL].  It
    returns from inside the loop only after an accepted attempt, and it
    raises only what the conversion of the arguments raises, before any
    attempt is made. *)
Lemma poll_connect_shape (host : string) (port deadline : Z) (b : nat) :
  forall w w' r,
    poll_connect env host port deadline b w = (w', r) ->
    exists k,
      dialled w' = dialled w ++ repeat (host, port) k
      /\ (k = 0%nat \/ POLL * (Z.of_nat k - 1) < deadline - clock w)
      /\ match r with
         | Ok true =>
             (events w < events w')%nat
             /\ tcp_accepts env (pred (events w')) host port = true
             /\ clock w < deadline
             /\ k <> 0%nat
         | Ok false => deadline <= clock w'
         | Raise e =>
             k = 0%nat
             /\ ((idna_refuses env host = true /\ e = UnicodeError)
                 \/ (idna_refuses env host = false
                     /\ fits_c_long port = false /\ e = OverflowError))
         | Diverge => True
         end.
Proof.
  induction b as [|b IH]; intros w w' r.
  - intros [= <- <-]. exists 0%nat. cbn [repeat]. rewrite app_nil_r. auto.
  - rewrite poll_connect_S. cbv zeta.
    pose proof (clock_step env w) as Hc.
    destruct (clock (step env w) <? deadline) eqn:Hlt.
    + apply Z.ltb_lt in Hlt.
      destruct (idna_refuses env host) eqn:Hhost.
      { intros [= <- <-]. exists 0%nat. cbn [repeat]. rewrite app_nil_r.
        split; [reflexivity|]. split; [left; reflexivity|].
        split; [reflexivity|]. left. split; reflexivity. }
      destruct (fits_c_long port) eqn:Hport.
      2: { intros [= <- <-]. exists 0%nat. cbn [repeat]. rewrite app_nil_r.
           split; [reflexivity|]. split; [left; reflexivity|].
           split; [reflexivity|]. right. repeat split; reflexivity. }
      destruct (tcp_accepts env (events (step env w)) host port) eqn:Hacc.
      * intros [= <- <-]. exists 1%nat. repeat split.
        -- right. unfold POLL. cbn [Z.of_nat]. lia.
        -- cbn [events log_dial step]. lia.
        -- exact Hacc.
        -- lia.
        -- discriminate.
      * intros Hrun. apply IH in Hrun.
        destruct Hrun as (k & Hd & Hk & Hr).
        exists (S k). repeat split.
        -- rewrite Hd. cbn [dialled with_clock step log_dial repeat].
           rewrite <- app_assoc. reflexivity.
        -- right. unfold POLL in *.
           cbn [clock with_clock step log_dial events] in Hk.
           cbn [clock step] in Hlt, Hc.
           destruct Hk as [->|Hk]; [cbn [Z.of_nat]|]; lia.
        -- destruct r as [[|]|e|]; try exact Hr.
           ++ destruct Hr as (He & Ha & _).
              cbn [events with_clock step log_dial] in He.
              repeat split; [cbn [events]; lia|exact Ha|lia|discriminate].
           ++ destruct Hr as (_ & [(Hh & _)|(_ & Hp & _)]); congruence.
    + apply Z.ltb_ge in Hlt. intros [= <- <-]. exists 0%nat.
      cbn [repeat]. rewrite app_nil_r. auto.
Qed.

(** The same for [_wait_for_port]: it returns only after an accepted
    attempt, its last interaction; it raises its [TimeoutError] only
    once the timeout has passed; any other exception is the one that
    the conversion of the arguments raised, before any attempt. *)
Lemma wait_for_port_shape (host : string) (port timeout : Z) (w w' : World)
    (r : result unit) :
  _wait_for_port env host port timeout w = (w', r) ->
  exists k,
    dialled w' = dialled w ++ repeat (host, port) k
    /\ (k = 0%nat \/ POLL * (Z.of_nat k - 1) < timeout)
    /\ match r with
       | Ok _ =>
           (events w < pred (events w'))%nat
           /\ tcp_accepts env (pred (events w')) host port = true
           /\ 0 < timeout
           /\ k <> 0%nat
       | Raise e =>
           (e = TimeoutError (timeout_msg timeout host port)
            /\ clock w + timeout <= clock w')
           \/ (k = 0%nat
               /\ ((idna_refuses env host = true /\ e = UnicodeError)
                   \/ (idna_refuses env host = false
                       /\ fits_c_long port = false /\ e = OverflowError)))
       | Diverge => False
       end.
Proof.
  unfold _wait_for_port, bind at 1, monotonic. cbv zeta.
  pose proof (poll_connect_budget env host port
                (clock (step env w) + timeout)
                (Z.to_nat (timeout / POLL + 1)) (step env w)) as [Hnd _].
  { pose proof (poll_budget_covers timeout). lia. }
  fold (poll_budget timeout) in Hnd.
  unfold bind.
  destruct (poll_connect env host port (clock (step env w) + timeout)
              (poll_budget timeout) (step env w)) as [w1 r1] eqn:Eloop.
  cbn [snd] in Hnd.
  apply poll_connect_shape in Eloop. destruct Eloop as (k & Hd & Hk & Hr).
  pose proof (clock_step env w) as Hc.
  cbn [dialled step] in Hd.
  destruct r1 as [[|]|e|]; [| | |congruence]; intros [= <- <-];
    exists k; (split; [exact Hd|]); (split; [destruct Hk; [auto|right; lia]|]).
  - destruct Hr as (He & Ha & Hlt & Hk0). cbn [events step] in He.
    repeat split; [lia|exact Ha|lia|exact Hk0].
  - left. split; [reflexivity|lia].
  - right. exact Hr.
Qed.

Lemma poll_connect_signalled (host : string) (port deadline : Z) (b : nat) :
  forall w w' r,
    poll_connect env host port deadline b w = (w', r) ->
    signalled w' = signalled w.
Proof.
  induction b as [|b IH]; intros w w' r.
  - intros [= <- <-]. reflexivity.
  - rewrite poll_connect_S. cbv zeta.
    destruct (clock (step env w) <? deadline);
      [|intros [= <- <-]; reflexivity].
    destruct (idna_refuses env host); [intros [= <- <-]; reflexivity|].
    destruct (fits_c_long port); [|intros [= <- <-]; reflexivity].
    destruct (tcp_accepts env (events (step env w)) host port);
      [intros [= <- <-]; reflexivity|].
    intros H. apply IH in H. exact H.
Qed.

Lemma wait_for_port_signalled (host : string) (port timeout : Z)
    (w w' : World) (r : result unit) :
  _wait_for_port env host port timeout w = (w', r) ->
  signalled w' = signalled w.
Proof.
  unfold _wait_for_port, bind at 1, monotonic. cbv zeta. unfold bind.
  destruct (poll_connect env host port (clock (step env w) + timeout)
              (poll_budget timeout) (step env w)) as [w1 [[|]|e|]] eqn:E;
    apply poll_connect_signalled in E; intros [= <- <-]; exact E.
Qed.

(** What one run of the exit loop does: it probes [pid] and nothing
    else, and it raises only what the probe raises for a pid that is no
    C [int]. *)
Lemma poll_exit_shape (pid deadline : Z) (b : nat) :
  forall w w' r,
    poll_exit env pid deadline b w = (w', r) ->
    exists k,
      signalled w' = signalled w ++ repeat (pid, SIG0) k
      /\ match r with
         | Ok true => True
         | Ok false => deadline <= clock w'
         | Raise e => fits_c_int pid = false
         | Diverge => True
         end.
Proof.
  induction b as [|b IH]; intros w w' r.
  - intros [= <- <-]. exists 0%nat. cbn [repeat]. rewrite app_nil_r. auto.
  - rewrite poll_exit_S. cbv zeta.
    destruct (clock (step env w) <? deadline) eqn:Hlt.
    + rewrite is_pid_alive_cases.
      destruct (fits_c_int pid) eqn:Hfit.
      * destruct (sys_kill env (events (step env w)) pid SIG0).
        -- intros Hrun. apply IH in Hrun. destruct Hrun as (k & Hs & Hr).
           exists (S k). split; [|exact Hr].
           rewrite Hs. cbn [signalled with_clock step log_signal repeat].
           rewrite <- app_assoc. reflexivity.
        -- intros [= <- <-]. exists 0%nat. cbn [repeat].
           rewrite app_nil_r. auto.
        -- intros Hrun. apply IH in Hrun. exact Hrun.
      * intros [= <- <-]. exists 0%nat. cbn [repeat].
        rewrite app_nil_r. auto.
    + apply Z.ltb_ge in Hlt. intros [= <- <-]. exists 0%nat.
      cbn [repeat]. rewrite app_nil_r. auto.
Qed.

(** Every way [_terminate_process] can go, with the signals it has
    sent by then. *)
Lemma terminate_process_ways (pid timeout : Z) (w w' : World)
    (r : result unit) :
  _terminate_process env pid timeout w = (w', r) ->
  (fits_c_int pid = false /\ w' = w /\ r = Raise OverflowError)
  \/ (fits_c_int pid = true
      /\ ((sys_kill env (events w) pid SIGTERM = ESRCH
           /\ signalled w' = signalled w /\ r = Ok tt)
          \/ (sys_kill env (events w) pid SIGTERM = EPERM
              /\ w' = step env w /\ r = Raise PermissionError)
          \/ (exists k,
                signalled w'
                = signalled w ++ (pid, SIGTERM) :: repeat (pid, SIG0) k
                /\ (r = Ok tt
                    \/ (r = Raise PermissionError
                        /\ clock w + timeout <= clock w'
                        /\ sys_kill env (pred (events w')) pid SIGKILL
                           = EPERM)))
          \/ (exists k,
                signalled w'
                = signalled w ++ (pid, SIGTERM) :: repeat (pid, SIG0) k
                              ++ [(pid, SIGKILL)]
                /\ clock w + timeout <= clock w' /\ r = Ok tt))).
Proof.
  unfold _terminate_process, bind at 1, try_except, bind at 1.
  rewrite os_kill_cases.
  destruct (fits_c_int pid) eqn:Hfit.
  2: { intros [= <- <-]. left. auto. }
  destruct (sys_kill env (events w) pid SIGTERM) eqn:Hterm.
  2: { cbn [ret]. intros [= <- <-]. right. split; [reflexivity|].
       left. auto. }
  2: { intros [= <- <-]. right. split; [reflexivity|]. right. left. auto. }
  cbn [ret]. unfold bind at 1, monotonic. cbv zeta.
  set (w1 := step env (log_signal pid SIGTERM (step env w))).
  assert (Hc1 : clock w <= clock w1).
  { unfold w1. cbn [clock step log_signal]. lia. }
  unfold bind.
  destruct (poll_exit env pid (clock w1 + timeout) (poll_budget timeout) w1)
    as [w2 r2] eqn:Eloop.
  pose proof (poll_exit_budget env pid (clock w1 + timeout)
                (Z.to_nat (timeout / POLL + 1)) w1) as [Hnd _].
  { pose proof (poll_budget_covers timeout). lia. }
  fold (poll_budget timeout) in Hnd. rewrite Eloop in Hnd. cbn [snd] in Hnd.
  apply poll_exit_shape in Eloop. destruct Eloop as (k & Hs & Hr).
  assert (Hs2 : signalled w2
                = signalled w ++ (pid, SIGTERM) :: repeat (pid, SIG0) k).
  { rewrite Hs. unfold w1. cbn [signalled step log_signal].
    rewrite <- app_assoc. reflexivity. }
  destruct r2 as [[|]|e|]; try congruence.
  - intros [= <- <-]. right. split; [reflexivity|].
    right. right. left. exists k. auto.
  - unfold try_except. rewrite os_kill_cases, Hfit.
    destruct (sys_kill env (events w2) pid SIGKILL) eqn:Hkill;
      intros [= <- <-]; right; (split; [reflexivity|]); right; right.
    + right. exists k. cbn [signalled log_signal step clock].
      rewrite Hs2. rewrite <- app_assoc. cbn [app].
      repeat split. pose proof (clock_step env w2).
      cbn [clock step] in *. lia.
    + left. exists k. cbn [signalled step]. split; [exact Hs2|]. left.
      reflexivity.
    + left. exists k. cbn [signalled step]. split; [exact Hs2|]. right.
      cbn [events step pred clock]. repeat split; [|exact Hkill].
      pose proof (clock_step env w2). cbn [clock step] in *. lia.
Qed.

End Shapes.

(* ================================================================= *)
(** ** The shared mode *)

Lemma getitem_plain (v : pyval) (k : string) : plain (getitem v k).
Proof.
  unfold plain, getitem.
  destruct v; try discriminate. destruct (dict_get k d); [exact I|discriminate].
Qed.

Lemma setitem_plain (v : pyval) (k : string) (x : pyval) :
  plain (setitem v k x).
Proof. destruct v; simpl; try discriminate; exact I. Qed.

Lemma py_add_plain (v : pyval) (n : Z) : plain (py_add v n).
Proof. destruct v; simpl; try discriminate; exact I. Qed.

Lemma py_le0_plain (v : pyval) : plain (py_le0 v).
Proof. destruct v; simpl; try discriminate; exact I. Qed.

Lemma as_int_plain (v : pyval) : plain (as_int v).
Proof. destruct v; simpl; try discriminate; exact I. Qed.

Lemma plain_raise {A} (e : exn) (msg : fstring) :
  (forall m, e <> TimeoutError m) -> @Raise A e <> Raise (TimeoutError msg).
Proof. intros H [= ->]. exact (H msg eq_refl). Qed.

Section Coordination.
Variable env : Env.

Lemma start_shared_parts (o : PubSubEmulator) (dir : string) (w : World) :
  _shared_dir o = Some dir ->
  _start_shared env (o, w) =
    (state <- in_world (_read_state (state_path dir)) ;;
     join <- live_owner env state ;;
     if join : bool then join_existing (state_path dir) state
     else start_new env o (state_path dir)) (o, w).
Proof.
  intros Hdir. unfold _start_shared, bind at 1, self. cbn [fst].
  rewrite Hdir. reflexivity.
Qed.

(** What [_read_state] returned is [None] or what the file holds. *)
Lemma read_state_ok (path : string) (w w' : World) (v : pyval) :
  _read_state path w = (w', Ok v) ->
  w' = w /\ (v = PNone \/ files w path = Some (Doc v)).
Proof.
  rewrite read_state_cases.
  destruct (files w path) as [[raw|v0|raw|raw|raw]|];
    intros [= <- <-]; auto.
Qed.

(** A method that begins by reading the state file: the exception of
    the read reaches the caller with nothing done, or the rest runs on
    what was read. *)
Lemma bind_read_state {A} (path : string) (k : pyval -> Method A)
    (o : PubSubEmulator) (w : World) :
  (exists e,
      _read_state path w = (w, Raise e)
      /\ (forall msg, e <> TimeoutError msg)
      /\ bind (in_world (_read_state path)) k (o, w) = ((o, w), Raise e))
  \/ (exists state,
        _read_state path w = (w, Ok state)
        /\ (state = PNone \/ files w path = Some (Doc state))
        /\ bind (in_world (_read_state path)) k (o, w) = k state (o, w)).
Proof.
  destruct (read_state_plain path w) as (rs & Hread & Hplain).
  destruct rs as [state|e|]; cbn [plain] in Hplain; [| |contradiction].
  - right. exists state. split; [exact Hread|]. split.
    + apply read_state_ok in Hread. tauto.
    + unfold bind at 1, in_world at 1. cbn [fst snd].
      rewrite Hread. reflexivity.
  - left. exists e. split; [exact Hread|]. split; [exact Hplain|].
    unfold bind at 1, in_world at 1. cbn [fst snd].
    rewrite Hread. reflexivity.
Qed.

(** [_start_shared] after its read: the exception of the read reaches
    the caller with nothing done, or the test and one of the branches
    run on what was read. *)
Lemma start_shared_steps (o : PubSubEmulator) (dir : string) (w : World) :
  _shared_dir o = Some dir ->
  (exists e,
      _read_state (state_path dir) w = (w, Raise e)
      /\ (forall msg, e <> TimeoutError msg)
      /\ _start_shared env (o, w) = ((o, w), Raise e))
  \/ (exists state,
        _read_state (state_path dir) w = (w, Ok state)
        /\ (state = PNone \/ files w (state_path dir) = Some (Doc state))
        /\ _start_shared env (o, w) =
             (join <- live_owner env state ;;
              if join : bool then join_existing (state_path dir) state
              else start_new env o (state_path dir)) (o, w)).
Proof.
  intros Hdir.
  destruct (read_state_plain (state_path dir) w) as (rs & Hread & Hplain).
  destruct rs as [state|e|]; cbn [plain] in Hplain; [| |contradiction].
  - right. exists state. split; [exact Hread|]. split.
    + apply read_state_ok in Hread. tauto.
    + rewrite (start_shared_parts o dir w Hdir).
      unfold bind at 1, in_world at 1. cbn [fst snd].
      rewrite Hread. reflexivity.
  - left. exists e. split; [exact Hread|]. split; [exact Hplain|].
    rewrite (start_shared_parts o dir w Hdir).
    unfold bind at 1, in_world at 1. cbn [fst snd].
    rewrite Hread. reflexivity.
Qed.

Lemma start_new_cases (o : PubSubEmulator) (path : string) (w : World) :
  start_new env o path (o, w) =
    let w1 := if _port o =? 0 then step env w else w in
    let port := if _port o =? 0 then ephemeral_port env (events w)
                else _port o in
    let cmd := launch_cmd (_host o) port (_project o) in
    match sys_spawn env (events w1) cmd with
    | inl e => ((o, step env w1), Raise e)
    | inr pid =>
        let o1 := set_is_owner true (set_process (Some pid) o) in
        let info := {| host := PStr (_host o); port := PInt port;
                       project := PStr (_project o) |} in
        match _wait_for_port env (_host o) port (_timeout o)
                (log_spawn pid cmd (step env w1)) with
        | (w3, Ok _) =>
            ((set_info (Some info) o1,
              fst (write_text path
                     (Doc (owner_record pid (_host o) port (_project o) 1))
                     w3)),
             Ok info)
        | (w3, Raise e) => ((o1, w3), Raise e)
        | (w3, Diverge) => ((o1, w3), Diverge)
        end
    end.
Proof.
  unfold start_new. cbv zeta.
  destruct (_port o =? 0).
  - unfold bind at 1, in_world at 1, _find_free_port. cbn [fst snd].
    unfold bind at 1, in_world at 1, _launch, popen. cbn [fst snd events].
    destruct (sys_spawn env _ _) as [e|pid]; [reflexivity|].
    unfold bind, assign, in_world, ret. cbn [fst snd].
    destruct (_wait_for_port env (_host o) (ephemeral_port env (events w))
                (_timeout o) _) as [w3 [[]|e|]]; reflexivity.
  - unfold bind at 1, ret at 1.
    unfold bind at 1, in_world at 1, _launch, popen. cbn [fst snd events].
    destruct (sys_spawn env _ _) as [e|pid]; [reflexivity|].
    unfold bind, assign, in_world, ret. cbn [fst snd].
    destruct (_wait_for_port env (_host o) (_port o) (_timeout o) _)
      as [w3 [[]|e|]]; reflexivity.
Qed.

(** The test of the [if]: it changes no file and starts no process, it
    leaves the instance alone, and it never raises [TimeoutError]. *)
Lemma live_owner_frame (state : pyval) (o o' : PubSubEmulator)
    (w w' : World) (r : result bool) :
  live_owner env state (o, w) = ((o', w'), r) ->
  o' = o /\ files w' = files w /\ spawned w' = spawned w
  /\ (forall msg, r <> Raise (TimeoutError msg)) /\ r <> Diverge.
Proof.
  unfold live_owner.
  destruct (is_none state).
  - intros [= <- <- <-]. repeat split; discriminate.
  - unfold bind at 1, lift_result at 1.
    pose proof (getitem_plain state "pid") as Hg.
    destruct (getitem state "pid") as [v|e|]; cbn [plain] in Hg;
      [| intros [= <- <- <-]; repeat split; try reflexivity;
         try discriminate; intros msg; apply plain_raise, Hg
       | contradiction].
    unfold bind at 1, lift_result at 1.
    pose proof (as_int_plain v) as Ha.
    destruct (as_int v) as [pid|e|]; cbn [plain] in Ha;
      [| intros [= <- <- <-]; repeat split; try reflexivity;
         try discriminate; intros msg; apply plain_raise, Ha
       | contradiction].
    unfold in_world. cbn [fst snd].
    destruct (_is_pid_alive env pid w) as [w1 r1] eqn:Ep.
    intros [= <- <- <-].
    pose proof (proj1 (is_pid_alive_frame env pid) _ _ _ Ep).
    pose proof (proj2 (is_pid_alive_frame env pid) _ _ _ Ep).
    repeat split; try assumption.
    + intros msg ->. rewrite is_pid_alive_cases in Ep.
      destruct (fits_c_int pid);
        [destruct (sys_kill env (events w) pid SIG0)|]; discriminate Ep.
    + apply is_pid_alive_clock in Ep. tauto.
Qed.

(** What the joining branch can do: raise a plain error before or after
    its one write, or return; the write stores the record with the
    count replaced by the incremented one. *)
Lemma join_existing_writes (path : string) (state : pyval)
    (o o' : PubSubEmulator) (w w' : World) (r : result EmulatorInfo) :
  join_existing path state (o, w) = ((o', w'), r) ->
  plain r /\ spawned w' = spawned w /\ dialled w' = dialled w
  /\ (w' = w
      \/ exists d v m,
           state = PDict d /\ dict_get "worker_count" d = Some v
           /\ py_add v 1 = Ok (PInt m)
           /\ w' = fst (write_text path
                          (Doc (PDict (dict_set "worker_count" (PInt m) d)))
                          w)).
Proof.
  unfold join_existing.
  unfold bind at 1, lift_result at 1.
  pose proof (getitem_plain state "worker_count") as Hg.
  destruct (getitem state "worker_count") as [v|e|] eqn:Eg; cbn [plain] in Hg;
    [| intros [= <- <- <-]; cbn [plain]; auto | contradiction].
  unfold bind at 1, lift_result at 1.
  pose proof (py_add_plain v 1) as Hp.
  destruct (py_add v 1) as [v1|e|] eqn:Ep; cbn [plain] in Hp;
    [| intros [= <- <- <-]; cbn [plain]; auto | contradiction].
  destruct state as [| | | | |d]; try discriminate Eg.
  cbn [getitem] in Eg.
  destruct (dict_get "worker_count" d) as [v0|] eqn:Ed; [|discriminate Eg].
  injection Eg as ->.
  assert (exists m, v1 = PInt m) as [m ->].
  { destruct v; try discriminate Ep; injection Ep as <-; eauto. }
  cbn [setitem]. unfold bind at 1, lift_result at 1.
  unfold bind at 1, in_world at 1, _write_state, json_dumps. cbn [fst snd].
  set (d' := dict_set "worker_count" (PInt m) d).
  set (w1 := fst (write_text path (Doc (PDict d')) w)).
  assert (Hw1 : w1 = w \/ exists d0 v0 m0,
             PDict d = PDict d0 /\ dict_get "worker_count" d0 = Some v0
             /\ py_add v0 1 = Ok (PInt m0)
             /\ w1 = fst (write_text path
                            (Doc (PDict (dict_set "worker_count" (PInt m0) d0)))
                            w)).
  { right. exists d, v, m. auto. }
  change (write_text path (Doc (PDict d')) w) with (w1, @Ok unit tt).
  cbn iota.
  unfold bind at 1, lift_result at 1.
  pose proof (getitem_plain (PDict d') "host") as Hh.
  destruct (getitem (PDict d') "host") as [h|e|]; cbn [plain] in Hh;
    [| intros [= <- <- <-]; cbn [plain]; auto | contradiction].
  unfold bind at 1, lift_result at 1.
  pose proof (getitem_plain (PDict d') "port") as Hpo.
  destruct (getitem (PDict d') "port") as [p|e|]; cbn [plain] in Hpo;
    [| intros [= <- <- <-]; cbn [plain]; auto | contradiction].
  unfold bind at 1, lift_result at 1.
  pose proof (getitem_plain (PDict d') "project") as Hpr.
  destruct (getitem (PDict d') "project") as [pr|e|]; cbn [plain] in Hpr;
    [| intros [= <- <- <-]; cbn [plain]; auto | contradiction].
  intros [= <- <- <-]. cbn [plain]. auto.
Qed.

(** The run of [_start_shared] that joins. *)
Lemma start_shared_join_run
    (o : PubSubEmulator) (dir : string) (w w1 : World)
    (d : list (string * pyval)) (pid n : Z) (h p pr : pyval) :
  _shared_dir o = Some dir ->
  files w (state_path dir) = Some (Doc (PDict d)) ->
  dict_get "pid" d = Some (PInt pid) ->
  dict_get "worker_count" d = Some (PInt n) ->
  dict_get "host" d = Some h ->
  dict_get "port" d = Some p ->
  dict_get "project" d = Some pr ->
  _is_pid_alive env pid w = (w1, Ok true) ->
  let joined := {| host := h; port := p; project := pr |} in
  let d' := dict_set "worker_count" (PInt (n + 1)) d in
  _start_shared env (o, w)
  = ((set_info (Some joined) o,
      fst (write_text (state_path dir) (Doc (PDict d')) w1)),
     Ok joined).
Proof.
  intros Hdir Hfile Hpid Hn Hh Hp Hpr Halive joined d'.
  rewrite (start_shared_parts o dir w Hdir).
  unfold bind at 1, in_world at 1. cbn [fst snd].
  rewrite read_state_cases, Hfile.
  unfold bind at 1, live_owner. cbn [is_none].
  unfold bind at 1, lift_result at 1. cbn [getitem]. rewrite Hpid.
  unfold bind at 1, lift_result at 1. cbn [as_int].
  unfold in_world at 1. cbn [fst snd]. rewrite Halive.
  unfold join_existing.
  unfold bind at 1, lift_result at 1. cbn [getitem]. rewrite Hn.
  unfold bind at 1, lift_result at 1. cbn [py_add].
  unfold bind at 1, lift_result at 1. cbn [setitem].
  unfold bind at 1, in_world at 1, _write_state, json_dumps. cbn [fst snd].
  fold d'.
  change (write_text (state_path dir) (Doc (PDict d')) w1)
    with (fst (write_text (state_path dir) (Doc (PDict d')) w1),
          @Ok unit tt).
  cbn iota.
  unfold bind at 1, lift_result at 1. cbn [getitem].
  unfold d' at 1. rewrite dict_get_set_other by discriminate. rewrite Hh.
  unfold bind at 1, lift_result at 1. cbn [getitem].
  unfold d' at 1. rewrite dict_get_set_other by discriminate. rewrite Hp.
  unfold bind at 1, lift_result at 1. cbn [getitem].
  unfold d' at 1. rewrite dict_get_set_other by discriminate. rewrite Hpr.
  reflexivity.
Qed.

Lemma is_pid_alive_dialled (pid : Z) (w w1 : World) (r : result bool) :
  _is_pid_alive env pid w = (w1, r) -> dialled w1 = dialled w.
Proof.
  rewrite is_pid_alive_cases.
  destruct (fits_c_int pid);
    [destruct (sys_kill env (events w) pid SIG0)|];
    intros [= <- <-]; reflexivity.
Qed.

(** C2.  When the state file holds a record whose owner pid is alive,
    [_start_shared] joins: the record is stored again with its
    ["worker_count"] one higher and every other field as it was, no
    process is started, no connection is attempted, and the result is
    built from the stored host, port and project, whatever the caller
    was configured with. *)
Theorem start_shared_joins
    (o : PubSubEmulator) (dir : string) (w w1 : World)
    (d : list (string * pyval)) (pid n : Z) (h p pr : pyval) :
  _shared_dir o = Some dir ->
  files w (state_path dir) = Some (Doc (PDict d)) ->
  dict_get "pid" d = Some (PInt pid) ->
  dict_get "worker_count" d = Some (PInt n) ->
  dict_get "host" d = Some h ->
  dict_get "port" d = Some p ->
  dict_get "project" d = Some pr ->
  _is_pid_alive env pid w = (w1, Ok true) ->
  let joined := {| host := h; port := p; project := pr |} in
  let d' := dict_set "worker_count" (PInt (n + 1)) d in
  exists w2,
    _start_shared env (o, w) = ((set_info (Some joined) o, w2), Ok joined)
    /\ files w2 (state_path dir) = Some (Doc (PDict d'))
    /\ dict_get "worker_count" d' = Some (PInt (n + 1))
    /\ (forall k, k <> "worker_count"%string -> dict_get k d' = dict_get k d)
    /\ (forall path, path <> state_path dir -> files w2 path = files w path)
    /\ spawned w2 = spawned w
    /\ dialled w2 = dialled w.
Proof.
  intros Hdir Hfile Hpid Hn Hh Hp Hpr Halive joined d'.
  pose proof (proj1 (is_pid_alive_frame env pid) _ _ _ Halive) as Hf1.
  pose proof (proj2 (is_pid_alive_frame env pid) _ _ _ Halive) as Hs1.
  pose proof (is_pid_alive_dialled _ _ _ _ Halive) as Hd1.
  exists (fst (write_text (state_path dir) (Doc (PDict d')) w1)).
  split; [|repeat split].
  - exact (start_shared_join_run o dir w w1 d pid n h p pr
             Hdir Hfile Hpid Hn Hh Hp Hpr Halive).
  - cbn. rewrite String.eqb_refl. reflexivity.
  - apply dict_get_set_same.
  - intros k Hk. apply dict_get_set_other. exact Hk.
  - intros path Hne. cbn. apply String.eqb_neq in Hne. rewrite Hne.
    rewrite Hf1. reflexivity.
  - exact Hs1.
  - exact Hd1.
Qed.

Lemma live_owner_none (o : PubSubEmulator) (w : World) :
  live_owner env PNone (o, w) = ((o, w), Ok false).
Proof. reflexivity. Qed.

Lemma live_owner_record (o : PubSubEmulator) (w : World)
    (d : list (string * pyval)) (pid : Z) :
  dict_get "pid" d = Some (PInt pid) ->
  live_owner env (PDict d) (o, w) =
    let (w1, r) := _is_pid_alive env pid w in ((o, w1), r).
Proof.
  intros Hpid. unfold live_owner. cbn [is_none].
  unfold bind at 1, lift_result at 1. cbn [getitem]. rewrite Hpid.
  unfold bind at 1, lift_result at 1. cbn [as_int].
  reflexivity.
Qed.

(** C3.  When the state record is absent, or names an owner pid that
    is dead, [_start_shared] makes the caller the owner.  The port is
    the configured one, or the one the port prober finds when the
    configured port is 0; the emulator is launched with that port;
    readiness is waited for: connections to the caller's host and that
    port are attempted, and nothing else is dialled, until one is
    accepted, and that accepted attempt is the last interaction with
    the system before the write; then the state file is overwritten
    with a record made of the new pid, the caller's host, port and
    project and a count of 1, nothing of the old record remaining; the
    result is the new connection info. *)
Theorem start_shared_becomes_owner
    (o : PubSubEmulator) (dir : string) (w w0 w3 : World) (pid : Z) :
  _shared_dir o = Some dir ->
  no_live_owner env dir w w0 ->
  let new_port := if _port o =? 0 then ephemeral_port env (events w0)
                  else _port o in
  let w1 := if _port o =? 0 then step env w0 else w0 in
  let cmd := launch_cmd (_host o) new_port (_project o) in
  sys_spawn env (events w1) cmd = inr pid ->
  _wait_for_port env (_host o) new_port (_timeout o)
    (log_spawn pid cmd (step env w1)) = (w3, Ok tt) ->
  let fresh := {| host := PStr (_host o); port := PInt new_port;
                  project := PStr (_project o) |} in
  let record := owner_record pid (_host o) new_port (_project o) 1 in
  exists o' w4,
    _start_shared env (o, w) = ((o', w4), Ok fresh)
    /\ w4 = fst (write_text (state_path dir) (Doc record) w3)
    /\ files w4 (state_path dir) = Some (Doc record)
    /\ (forall path, path <> state_path dir -> path <> lock_path dir ->
                     files w4 path = files w path)
    /\ spawned w4 = spawned w ++ [(pid, cmd)]
    /\ (exists k,
          dialled w4 = dialled w ++ repeat (_host o, new_port) (S k))
    /\ tcp_accepts env (pred (events w4)) (_host o) new_port = true
    /\ _process o' = Some pid /\ _is_owner o' = true /\ _info o' = Some fresh.
Proof.
  intros Hdir Hdead new_port w1 cmd Hspawn Hwait fresh record.
  assert (Hcheck :
    (state <- in_world (_read_state (state_path dir)) ;;
     live_owner env state) (o, w) = ((o, w0), Ok false)
    /\ files w0 = files w /\ spawned w0 = spawned w
    /\ dialled w0 = dialled w).
  { destruct Hdead as [[Habsent ->]|(d & opid & Hfile & Hpid & Hprobe)].
    - unfold bind, in_world. cbn [fst snd]. rewrite Habsent. auto.
    - unfold bind, in_world. cbn [fst snd].
      rewrite read_state_cases, Hfile.
      rewrite (live_owner_record o w d opid Hpid), Hprobe.
      pose proof (proj1 (is_pid_alive_frame env opid) _ _ _ Hprobe).
      pose proof (proj2 (is_pid_alive_frame env opid) _ _ _ Hprobe).
      pose proof (is_pid_alive_dialled _ _ _ _ Hprobe).
      auto. }
  destruct Hcheck as (Hcheck & Hf0 & Hs0 & Hd0).
  pose proof (proj1 (wait_for_port_frame env _ _ _) _ _ _ Hwait) as Hf3.
  pose proof (proj2 (wait_for_port_frame env _ _ _) _ _ _ Hwait) as Hs3.
  destruct (wait_for_port_shape env _ _ _ _ _ _ Hwait)
    as (k & Hd3 & _ & _ & Hacc & _ & Hk).
  exists (set_info (Some fresh)
            (set_is_owner true (set_process (Some pid) o))),
         (fst (write_text (state_path dir) (Doc record) w3)).
  split; [|split; [|split; [|split; [|split; [|split; [|split]]]]]].
  - rewrite (start_shared_parts o dir w Hdir).
    unfold bind at 1.
    unfold bind in Hcheck.
    destruct (in_world (_read_state (state_path dir)) (o, w))
      as [s1 [state| |]]; try discriminate Hcheck.
    unfold bind at 1. rewrite Hcheck.
    rewrite start_new_cases. cbv zeta.
    fold new_port w1 cmd. rewrite Hspawn, Hwait. reflexivity.
  - reflexivity.
  - cbn. rewrite String.eqb_refl. reflexivity.
  - intros path Hne _. cbn. apply String.eqb_neq in Hne. rewrite Hne.
    rewrite Hf3. cbn [files log_spawn]. unfold w1.
    destruct (_port o =? 0); cbn [files step]; rewrite Hf0; reflexivity.
  - cbn [write_text fst with_files spawned]. rewrite Hs3.
    cbn [spawned log_spawn]. unfold w1.
    destruct (_port o =? 0); cbn [spawned step]; rewrite Hs0; reflexivity.
  - destruct k as [|k]; [congruence|]. exists k.
    cbn [write_text fst with_files dialled]. rewrite Hd3.
    cbn [dialled log_spawn]. unfold w1.
    destruct (_port o =? 0); cbn [dialled step]; rewrite Hd0; reflexivity.
  - exact Hacc.
  - repeat split.
Qed.

Lemma stop_shared_parts (o : PubSubEmulator) (dir : string) (w : World) :
  _shared_dir o = Some dir ->
  _stop_shared env (o, w) =
    (state <- in_world (_read_state (state_path dir)) ;;
     if is_none state then ret tt
     else
       n <- lift_result (getitem state "worker_count") ;;
       n <- lift_result (py_add n (-1)) ;;
       state <- lift_result (setitem state "worker_count" n) ;;
       n <- lift_result (getitem state "worker_count") ;;
       last <- lift_result (py_le0 n) ;;
       if last : bool then
         pid <- lift_result (getitem state "pid") ;;
         pid <- lift_result (as_int pid) ;;
         in_world (_terminate_process env pid TERMINATE_TIMEOUT) ;;;
         in_world (unlink (state_path dir))
       else in_world (_write_state (state_path dir) state)) (o, w).
Proof.
  intros Hdir. unfold _stop_shared, bind at 1, self. cbn [fst].
  rewrite Hdir. reflexivity.
Qed.

(** C4.  [_stop_shared] in three cases.  When the state record is
    absent it returns, and it has changed no file but the lock file
    and touched no process.
    Otherwise it takes one off ["worker_count"].  If what is left is
    [<= 0] it terminates the process named by the stored pid: unless
    the system reports at once that the process is gone, [SIGTERM] is
    sent to that pid, then come existence probes of that pid and at
    most one [SIGKILL] to it, and nothing else is signalled; when that
    has returned, the state file is deleted.  If what is left is
    positive it stores the record with the lower count, every other
    field as it was, and touches no process. *)
Theorem stop_shared_outcomes (o : PubSubEmulator) (dir : string) (w : World) :
  _shared_dir o = Some dir ->
  (_read_state (state_path dir) w = (w, Ok PNone) ->
   exists w2,
     _stop_shared env (o, w) = ((o, w2), Ok tt)
     /\ (forall path, path <> lock_path dir -> files w2 path = files w path)
     /\ signalled w2 = signalled w
     /\ events w2 = events w)
  /\ (forall d n pid w1,
        files w (state_path dir) = Some (Doc (PDict d)) ->
        dict_get "worker_count" d = Some (PInt n) ->
        n - 1 <= 0 ->
        dict_get "pid" d = Some (PInt pid) ->
        _terminate_process env pid TERMINATE_TIMEOUT w = (w1, Ok tt) ->
        exists w2,
          _stop_shared env (o, w) = ((o, w2), Ok tt)
          /\ w2 = fst (unlink (state_path dir) w1)
          /\ files w2 (state_path dir) = None
          /\ (forall path, path <> state_path dir -> path <> lock_path dir ->
                           files w2 path = files w path)
          /\ ((sys_kill env (events w) pid SIGTERM = ESRCH
               /\ signalled w2 = signalled w)
              \/ exists k,
                   signalled w2
                   = signalled w ++ (pid, SIGTERM) :: repeat (pid, SIG0) k
                   \/ signalled w2
                      = signalled w ++ (pid, SIGTERM) :: repeat (pid, SIG0) k
                                    ++ [(pid, SIGKILL)]))
  /\ (forall d n,
        files w (state_path dir) = Some (Doc (PDict d)) ->
        dict_get "worker_count" d = Some (PInt n) ->
        0 < n - 1 ->
        let d' := dict_set "worker_count" (PInt (n - 1)) d in
        exists w2,
          _stop_shared env (o, w) = ((o, w2), Ok tt)
          /\ files w2 (state_path dir) = Some (Doc (PDict d'))
          /\ dict_get "worker_count" d' = Some (PInt (n - 1))
          /\ (forall k, k <> "worker_count"%string ->
                        dict_get k d' = dict_get k d)
          /\ (forall path, path <> state_path dir -> path <> lock_path dir ->
                           files w2 path = files w path)
          /\ signalled w2 = signalled w
          /\ events w2 = events w).
Proof.
  intros Hdir.
  rewrite (stop_shared_parts o dir w Hdir).
  split; [|split].
  - intros Habsent. exists w. unfold bind, in_world. cbn [fst snd].
    rewrite Habsent. repeat split.
  - intros d n pid w1 Hfile Hn Hlast Hpid Hterm.
    pose proof (proj1 (terminate_process_frame env _ _) _ _ _ Hterm) as Hf1.
    exists (fst (unlink (state_path dir) w1)).
    split; [|split; [|split; [|split]]].
    + unfold bind at 1, in_world at 1. cbn [fst snd].
      rewrite read_state_cases, Hfile. cbn [is_none].
      unfold bind at 1, lift_result at 1. cbn [getitem]. rewrite Hn.
      unfold bind at 1, lift_result at 1. cbn [py_add].
      unfold bind at 1, lift_result at 1. cbn [setitem].
      unfold bind at 1, lift_result at 1. cbn [getitem].
      rewrite dict_get_set_same.
      unfold bind at 1, lift_result at 1. cbn [py_le0].
      replace (n + -1 <=? 0) with true by (symmetry; apply Z.leb_le; lia).
      unfold bind at 1, lift_result at 1. cbn [getitem].
      rewrite dict_get_set_other by discriminate. rewrite Hpid.
      unfold bind at 1, lift_result at 1. cbn [as_int].
      unfold bind at 1, in_world at 1. cbn [fst snd]. rewrite Hterm.
      reflexivity.
    + reflexivity.
    + cbn. rewrite String.eqb_refl. reflexivity.
    + intros path Hne _. cbn. apply String.eqb_neq in Hne. rewrite Hne.
      rewrite Hf1. reflexivity.
    + cbn [unlink fst with_files signalled].
      apply terminate_process_ways in Hterm.
      destruct Hterm as [(_ & _ & [=])|(_ & [(Hg & Hs & _)|[(_ & _ & [=])|
                          [(k & Hs & _)|(k & Hs & _)]]])].
      * left. auto.
      * right. exists k. left. exact Hs.
      * right. exists k. right. exact Hs.
  - intros d n Hfile Hn Hmore d'.
    exists (fst (write_text (state_path dir) (Doc (PDict d')) w)).
    split; [|repeat split].
    + unfold bind at 1, in_world at 1. cbn [fst snd].
      rewrite read_state_cases, Hfile. cbn [is_none].
      unfold bind at 1, lift_result at 1. cbn [getitem]. rewrite Hn.
      unfold bind at 1, lift_result at 1. cbn [py_add].
      unfold bind at 1, lift_result at 1. cbn [setitem].
      unfold bind at 1, lift_result at 1. cbn [getitem].
      rewrite dict_get_set_same.
      unfold bind at 1, lift_result at 1. cbn [py_le0].
      replace (n + -1 <=? 0) with false by (symmetry; apply Z.leb_gt; lia).
      replace (n + -1) with (n - 1) by lia.
      reflexivity.
    + cbn. rewrite String.eqb_refl. reflexivity.
    + apply dict_get_set_same.
    + intros k Hk. apply dict_get_set_other. exact Hk.
    + intros path Hne _. cbn. apply String.eqb_neq in Hne. rewrite Hne.
      reflexivity.
Qed.

(** C5.  When [_start_shared] ends with the [TimeoutError] of
    [_wait_for_port], it has written nothing: every file, the state
    file among them, is as it was before the call, so a record that
    was absent is still absent. *)
Theorem start_shared_timeout_writes_nothing
    (o o' : PubSubEmulator) (w w' : World) (msg : fstring) :
  _start_shared env (o, w) = ((o', w'), Raise (TimeoutError msg)) ->
  files w' = files w
  /\ (forall dir, files w (state_path dir) = None ->
                  files w' (state_path dir) = None).
Proof.
  intros Hrun.
  enough (Hfiles : files w' = files w).
  { split; [exact Hfiles|]. intros dir Hnone. rewrite Hfiles. exact Hnone. }
  destruct (_shared_dir o) as [dir|] eqn:Hdir.
  2: { unfold _start_shared, bind at 1, self in Hrun. cbn [fst] in Hrun.
       rewrite Hdir in Hrun. discriminate Hrun. }
  destruct (start_shared_steps o dir w Hdir)
    as [(e0 & _ & _ & Heq)|(state & _ & _ & Heq)]; rewrite Heq in Hrun.
  { injection Hrun as <- <- _. reflexivity. }
  unfold bind at 1 in Hrun.
  destruct (live_owner env _ (o, w)) as [[o1 w1] [[|]|e|]] eqn:El;
    apply live_owner_frame in El;
    destruct El as (-> & Hf1 & Hs1 & Hnt & Hnd).
  - (* joined *)
    apply join_existing_writes in Hrun. destruct Hrun as [Hplain _].
    exfalso. exact (Hplain msg eq_refl).
  - (* launched *)
    rewrite start_new_cases in Hrun. cbv zeta in Hrun.
    destruct (sys_spawn env _ _) as [e|pid].
    + injection Hrun as <- <- ->.
      destruct (_port o =? 0); cbn [files step]; exact Hf1.
    + destruct (_wait_for_port env _ _ _ _) as [w3 [[]|e|]] eqn:Ew;
        [discriminate Hrun| |discriminate Hrun].
      injection Hrun as <- <- ->.
      apply (proj1 (wait_for_port_frame env _ _ _)) in Ew.
      rewrite Ew. cbn [files log_spawn].
      destruct (_port o =? 0); cbn [files step]; exact Hf1.
  - injection Hrun as <- <- ->. exfalso. exact (Hnt msg eq_refl).
  - discriminate Hrun.
Qed.

(** *** The count of a stored record is never below 1 *)

Lemma all_counted_same_files (w w' : World) :
  files w' = files w -> all_counted w -> all_counted w'.
Proof. unfold all_counted. intros -> H. exact H. Qed.

Lemma all_counted_write (path : string) (t : text) (w : World) :
  counted (Some t) -> all_counted w ->
  all_counted (fst (write_text path t w)).
Proof.
  unfold all_counted. intros Ht Hw p. cbn.
  destruct (String.eqb p path); [exact Ht|apply Hw].
Qed.

Lemma all_counted_unlink (path : string) (w : World) :
  all_counted w -> all_counted (fst (unlink path w)).
Proof.
  unfold all_counted. intros Hw p. cbn.
  destruct (String.eqb p path); [exact I|apply Hw].
Qed.

Lemma counted_set (d : list (string * pyval)) (m : Z) :
  1 <= m ->
  counted (Some (Doc (PDict (dict_set "worker_count" (PInt m) d)))).
Proof.
  intros Hm. cbn [counted]. exists m. split; [apply dict_get_set_same|exact Hm].
Qed.

Lemma start_shared_counted (o o' : PubSubEmulator) (w w' : World)
    (r : result EmulatorInfo) :
  all_counted w ->
  _start_shared env (o, w) = ((o', w'), r) ->
  all_counted w'.
Proof.
  intros Hinv Hrun.
  destruct (_shared_dir o) as [dir|] eqn:Hdir.
  2: { unfold _start_shared, bind at 1, self in Hrun. cbn [fst] in Hrun.
       rewrite Hdir in Hrun. injection Hrun as <- <- <-. exact Hinv. }
  pose proof (Hinv (state_path dir)) as Hstored.
  destruct (start_shared_steps o dir w Hdir)
    as [(e0 & _ & _ & Heq)|(state & _ & Hread & Heq)]; rewrite Heq in Hrun.
  { injection Hrun as <- <- <-. exact Hinv. }
  assert (Hstate : forall d, state = PDict d ->
            exists n, dict_get "worker_count" d = Some (PInt n) /\ 1 <= n).
  { intros d Hd. subst state. destruct Hread as [Hd|Hd]; [discriminate Hd|].
    rewrite Hd in Hstored. exact Hstored. }
  unfold bind at 1 in Hrun.
  destruct (live_owner env state (o, w)) as [[o1 w1] [[|]|e|]] eqn:El;
    apply live_owner_frame in El;
    destruct El as (-> & Hf1 & Hs1 & Hnt & Hnd).
  - (* joined *)
    apply join_existing_writes in Hrun.
    destruct Hrun as (_ & _ & _ & [->|(d & v & m & Hd & Hv & Hadd & ->)]).
    + exact (all_counted_same_files _ _ Hf1 Hinv).
    + destruct (Hstate d Hd) as (n & Hn & Hpos).
      rewrite Hn in Hv. injection Hv as <-.
      cbn [py_add] in Hadd. injection Hadd as <-.
      apply all_counted_write;
        [apply counted_set; lia|exact (all_counted_same_files _ _ Hf1 Hinv)].
  - (* launched *)
    rewrite start_new_cases in Hrun. cbv zeta in Hrun.
    assert (Hinv1 : all_counted (if _port o =? 0 then step env w1 else w1)).
    { apply (all_counted_same_files w); [|exact Hinv].
      destruct (_port o =? 0); cbn [files step]; exact Hf1. }
    destruct (sys_spawn env _ _) as [e|pid].
    + injection Hrun as <- <- <-.
      exact (all_counted_same_files _ _ eq_refl Hinv1).
    + destruct (_wait_for_port env _ _ _ _) as [w3 [[]|e|]] eqn:Ew;
        apply (proj1 (wait_for_port_frame env _ _ _)) in Ew;
        injection Hrun as <- <- <-.
      * apply all_counted_write.
        -- cbn. exists 1. split; [reflexivity|lia].
        -- exact (all_counted_same_files _ _ Ew Hinv1).
      * exact (all_counted_same_files _ _ Ew Hinv1).
      * exact (all_counted_same_files _ _ Ew Hinv1).
  - injection Hrun as <- <- <-.
    exact (all_counted_same_files _ _ Hf1 Hinv).
  - injection Hrun as <- <- <-.
    exact (all_counted_same_files _ _ Hf1 Hinv).
Qed.

Lemma stop_shared_counted (o o' : PubSubEmulator) (w w' : World)
    (r : result unit) :
  all_counted w ->
  _stop_shared env (o, w) = ((o', w'), r) ->
  all_counted w'.
Proof.
  intros Hinv Hrun.
  destruct (_shared_dir o) as [dir|] eqn:Hdir.
  2: { unfold _stop_shared, bind at 1, self in Hrun. cbn [fst] in Hrun.
       rewrite Hdir in Hrun. injection Hrun as <- <- <-. exact Hinv. }
  rewrite (stop_shared_parts o dir w Hdir) in Hrun.
  match type of Hrun with
  | bind _ ?k _ = _ =>
      destruct (bind_read_state (state_path dir) k o w)
        as [(e0 & _ & _ & Heq)|(state & _ & _ & Heq)]
  end; rewrite Heq in Hrun; cbv beta in Hrun.
  { injection Hrun as <- <- <-. exact Hinv. }
  destruct (is_none state).
  { injection Hrun as <- <- <-. exact Hinv. }
  unfold bind at 1, lift_result at 1 in Hrun.
  destruct (getitem state "worker_count") as [v| |] eqn:Eg;
    [|injection Hrun as <- <- <-; exact Hinv
     |injection Hrun as <- <- <-; exact Hinv].
  unfold bind at 1, lift_result at 1 in Hrun.
  destruct (py_add v (-1)) as [v1| |] eqn:Ea;
    [|injection Hrun as <- <- <-; exact Hinv
     |injection Hrun as <- <- <-; exact Hinv].
  assert (exists m, v1 = PInt m) as [m ->].
  { destruct v; try discriminate Ea; injection Ea as <-; eauto. }
  destruct state as [| | | | |d]; try discriminate Eg.
  cbn [setitem] in Hrun.
  unfold bind at 1, lift_result at 1 in Hrun.
  unfold bind at 1, lift_result at 1 in Hrun.
  cbn [getitem] in Hrun. rewrite dict_get_set_same in Hrun.
  unfold bind at 1, lift_result at 1 in Hrun. cbn [py_le0] in Hrun.
  destruct (m <=? 0) eqn:Hm.
  - (* the last user: terminate, then delete *)
    unfold bind at 1, lift_result at 1 in Hrun.
    destruct (dict_get "pid" _) as [pv|];
      [|injection Hrun as <- <- <-; exact Hinv].
    unfold bind at 1, lift_result at 1 in Hrun.
    destruct (as_int pv) as [pid| |];
      [|injection Hrun as <- <- <-; exact Hinv
       |injection Hrun as <- <- <-; exact Hinv].
    unfold bind at 1, in_world at 1 in Hrun. cbn [fst snd] in Hrun.
    destruct (_terminate_process env pid TERMINATE_TIMEOUT w)
      as [w1 [[]| |]] eqn:Et;
      apply (proj1 (terminate_process_frame env _ _)) in Et;
      injection Hrun as <- <- <-.
    + apply all_counted_unlink. exact (all_counted_same_files _ _ Et Hinv).
    + exact (all_counted_same_files _ _ Et Hinv).
    + exact (all_counted_same_files _ _ Et Hinv).
  - (* users remain: store the lower count *)
    injection Hrun as <- <- <-.
    apply all_counted_write; [|exact Hinv].
    apply counted_set. apply Z.leb_gt in Hm. lia.
Qed.

Lemma start_standalone_files (o o' : PubSubEmulator) (w w' : World)
    (r : result EmulatorInfo) :
  _start_standalone env (o, w) = ((o', w'), r) -> files w' = files w.
Proof.
  unfold _start_standalone, bind at 1, self. cbn [fst].
  assert (Hport : forall k : Z -> Method EmulatorInfo,
    (forall z w0 o1 w1 r1, files w0 = files w ->
        k z (o, w0) = ((o1, w1), r1) -> files w1 = files w) ->
    bind (if _port o =? 0 then in_world (_find_free_port env)
          else ret (_port o)) k (o, w) = ((o', w'), r) ->
    files w' = files w).
  { intros k Hk. destruct (_port o =? 0).
    - unfold bind, in_world, _find_free_port. cbn [fst snd].
      apply Hk. reflexivity.
    - unfold bind, ret. apply Hk. reflexivity. }
  apply Hport. clear Hport. intros z w0 o1 w1 r1 Hf0.
  unfold bind at 1, in_world at 1, _launch, popen. cbn [fst snd].
  destruct (sys_spawn env _ _) as [e|pid].
  - intros [= <- <- <-]. exact Hf0.
  - unfold bind, assign, in_world, ret. cbn [fst snd].
    destruct (_wait_for_port env _ _ _ _) as [w3 [[]|e|]] eqn:Ew;
      apply (proj1 (wait_for_port_frame env _ _ _)) in Ew;
      intros [= <- <- <-]; rewrite Ew; exact Hf0.
Qed.

Lemma stop_standalone_files (o o' : PubSubEmulator) (w w' : World)
    (r : result unit) :
  _stop_standalone env (o, w) = ((o', w'), r) -> files w' = files w.
Proof.
  unfold _stop_standalone, bind at 1, self. cbn [fst].
  destruct (_process o) as [pid|].
  - unfold bind, in_world, assign. cbn [fst snd].
    destruct (_terminate_process env pid TERMINATE_TIMEOUT w)
      as [w1 [[]|e|]] eqn:Et;
      apply (proj1 (terminate_process_frame env _ _)) in Et;
      intros [= <- <- <-]; exact Et.
  - intros [= <- <- <-]. reflexivity.
Qed.

Lemma run_call_counted (c : call) (w : World) :
  all_counted w -> all_counted (run_call env c w).
Proof.
  intros Hinv. destruct c as [o|o]; unfold run_call.
  - unfold acquire, start, bind, self. cbn [fst].
    destruct (_shared_dir o).
    + destruct (_start_shared env (o, w)) as [[o' w'] r] eqn:E.
      exact (start_shared_counted _ _ _ _ _ Hinv E).
    + destruct (_start_standalone env (o, w)) as [[o' w'] r] eqn:E.
      exact (all_counted_same_files _ _ (start_standalone_files _ _ _ _ _ E)
               Hinv).
  - unfold release, stop, bind, self. cbn [fst].
    destruct (_shared_dir o).
    + destruct (_stop_shared env (o, w)) as [[o' w'] r] eqn:E.
      exact (stop_shared_counted _ _ _ _ _ Hinv E).
    + destruct (_stop_standalone env (o, w)) as [[o' w'] r] eqn:E.
      exact (all_counted_same_files _ _ (stop_standalone_files _ _ _ _ _ E)
               Hinv).
Qed.

(** C10.  Start where every stored record has a count of at least 1
    (no stored record at all is such a start).  After any sequence of
    [start()] and [stop()] calls, by any workers in any order, every
    stored record still has a count of at least 1: joining stores a
    count above the stored one, launching stores 1, and leaving stores
    the lower count only when it is positive and deletes the file
    otherwise. *)
Theorem stored_count_at_least_one (cs : list call) (w : World) :
  all_counted w -> all_counted (run_calls env cs w).
Proof.
  unfold run_calls. revert w.
  induction cs as [|c cs IH]; intros w Hinv; cbn [fold_left].
  - exact Hinv.
  - apply IH. apply run_call_counted. exact Hinv.
Qed.

(** *** One owner *)

Lemma acquire_shared (o : PubSubEmulator) (dir : string) (w : World) :
  _shared_dir o = Some dir ->
  acquire env o w = let (s, r) := _start_shared env (o, w) in (snd s, r).
Proof.
  intros Hdir. unfold acquire, start, bind, self. cbn [fst].
  rewrite Hdir. reflexivity.
Qed.

(** A worker that launched left the owner's record behind, and got
    the connection info that the record holds. *)
Lemma acquire_launched (o : PubSubEmulator) (dir : string) (w w1 : World)
    (first : EmulatorInfo) (pid : Z) (cmd : list fstring) :
  _shared_dir o = Some dir ->
  acquire env o w = (w1, Ok first) ->
  spawned w1 = spawned w ++ [(pid, cmd)] ->
  exists h p pr,
    files w1 (state_path dir) = Some (Doc (owner_record pid h p pr 1))
    /\ first = {| host := PStr h; port := PInt p; project := PStr pr |}.
Proof.
  intros Hdir Hrun Hgrew.
  rewrite (acquire_shared o dir w Hdir) in Hrun.
  destruct (start_shared_steps o dir w Hdir)
    as [(e0 & _ & _ & Heq)|(state & _ & _ & Heq)]; rewrite Heq in Hrun;
    [discriminate Hrun|].
  unfold bind at 1 in Hrun.
  destruct (live_owner env _ (o, w)) as [[o1 w0] [[|]|e|]] eqn:El;
    apply live_owner_frame in El;
    destruct El as (-> & Hf0 & Hs0 & _ & _);
    try discriminate Hrun.
  - (* a join starts nothing *)
    destruct (join_existing _ _ (o, w0)) as [[o2 w2] r2] eqn:Ej.
    apply join_existing_writes in Ej. destruct Ej as (_ & Hs2 & _).
    cbn [snd] in Hrun. injection Hrun as <- ->.
    rewrite Hs2, Hs0 in Hgrew.
    apply (f_equal (@List.length _)) in Hgrew.
    rewrite length_app in Hgrew. cbn [List.length] in Hgrew. lia.
  - rewrite start_new_cases in Hrun. cbv zeta in Hrun.
    destruct (sys_spawn env _ _) as [e|pid'] eqn:Esp; [discriminate Hrun|].
    destruct (_wait_for_port env _ _ _ _) as [w3 [[]|e|]] eqn:Ew;
      try discriminate Hrun.
    apply (proj2 (wait_for_port_frame env _ _ _)) in Ew.
    cbn [snd] in Hrun. injection Hrun as <- <-.
    cbn [write_text fst with_files spawned] in Hgrew.
    rewrite Ew in Hgrew. cbn [spawned log_spawn] in Hgrew.
    assert (Hs1 : spawned (step env (if _port o =? 0 then step env w0
                                     else w0)) = spawned w).
    { destruct (_port o =? 0); cbn [spawned step]; exact Hs0. }
    rewrite Hs1 in Hgrew.
    apply app_inv_head in Hgrew. injection Hgrew as -> _.
    eexists _, _, _. split; [|reflexivity].
    cbn. rewrite String.eqb_refl. reflexivity.
Qed.

(** Workers that arrive while the owner is alive all join. *)
Lemma acquire_all_join (dir : string) (pid : Z) (h : string) (p : Z)
    (pr : string) (os : list PubSubEmulator) :
  stays_alive env pid ->
  Forall (fun o => _shared_dir o = Some dir) os ->
  forall (w : World) (n : Z),
    files w (state_path dir) = Some (Doc (owner_record pid h p pr n)) ->
    exists wN,
      acquire_all env os w
      = (wN, repeat (Ok {| host := PStr h; port := PInt p;
                           project := PStr pr |}) (List.length os))
      /\ spawned wN = spawned w
      /\ files wN (state_path dir)
         = Some (Doc (owner_record pid h p pr (n + Z.of_nat (List.length os)))).
Proof.
  intros [Hfit Halive] Hall.
  induction Hall as [|o os Hdir _ IH]; intros w n Hfile.
  - exists w. cbn [acquire_all repeat List.length]. repeat split.
    rewrite Hfile. replace (n + Z.of_nat 0) with n by lia. reflexivity.
  - assert (Hprobe : exists w1, _is_pid_alive env pid w = (w1, Ok true)).
    { rewrite is_pid_alive_cases, Hfit. specialize (Halive (events w)).
      destruct (sys_kill env (events w) pid SIG0);
        try congruence; eexists; reflexivity. }
    destruct Hprobe as [w1 Hprobe].
    pose proof (proj2 (is_pid_alive_frame env pid) _ _ _ Hprobe) as Hs1.
    pose proof (start_shared_join_run o dir w w1 _ pid n _ _ _ Hdir Hfile
                  eq_refl eq_refl eq_refl eq_refl eq_refl Hprobe) as Hjoin.
    cbv zeta in Hjoin.
    cbn [acquire_all]. rewrite (acquire_shared o dir w Hdir), Hjoin.
    cbn [snd].
    destruct (IH (fst (write_text (state_path dir)
                    (Doc (owner_record pid h p pr (n + 1))) w1)) (n + 1))
      as (wN & Hrest & HsN & HfN).
    { cbn. rewrite String.eqb_refl. reflexivity. }
    exists wN. 
    change (dict_set "worker_count" (PInt (n + 1))
              [("pid"%string, PInt pid); ("host"%string, PStr h);
               ("port"%string, PInt p); ("project"%string, PStr pr);
               ("worker_count"%string, PInt n)])
      with [("pid"%string, PInt pid); ("host"%string, PStr h);
            ("port"%string, PInt p); ("project"%string, PStr pr);
            ("worker_count"%string, PInt (n + 1))].
    fold (owner_record pid h p pr (n + 1)).
    rewrite Hrest. repeat split.
    + rewrite HsN. cbn. exact Hs1.
    + replace (n + Z.of_nat (List.length (o :: os)))
        with (n + 1 + Z.of_nat (List.length os))
        by (cbn [List.length]; lia).
      exact HfN.
Qed.

(** C1.  Workers call [start()] one after the other on the same
    coordination directory.  If the first call returned and launched a
    process (the first worker is the owner), and that process is there
    whenever it is probed, then every later call joins: all calls
    return the connection info of the first, and the one process of
    the first call is the only one launched. *)
Theorem single_owner
    (o : PubSubEmulator) (os : list PubSubEmulator) (dir : string)
    (w w1 : World) (first : EmulatorInfo) (pid : Z) (cmd : list fstring) :
  _shared_dir o = Some dir ->
  Forall (fun o' => _shared_dir o' = Some dir) os ->
  acquire env o w = (w1, Ok first) ->
  spawned w1 = spawned w ++ [(pid, cmd)] ->
  stays_alive env pid ->
  exists wN,
    acquire_all env (o :: os) w = (wN, repeat (Ok first) (S (List.length os)))
    /\ spawned wN = spawned w ++ [(pid, cmd)].
Proof.
  intros Hdir Hall Hfirst Hgrew Halive.
  destruct (acquire_launched o dir w w1 first pid cmd Hdir Hfirst Hgrew)
    as (h & p & pr & Hfile & ->).
  destruct (acquire_all_join dir pid h p pr os Halive Hall w1 1 Hfile)
    as (wN & Hrest & HsN & _).
  exists wN. cbn [acquire_all repeat]. rewrite Hfirst, Hrest.
  split; [reflexivity|]. rewrite HsN. exact Hgrew.
Qed.

(** *** The calls always come back *)

Lemma start_shared_total (o : PubSubEmulator) (w : World) :
  snd (_start_shared env (o, w)) <> Diverge.
Proof.
  destruct (_shared_dir o) as [dir|] eqn:Hdir.
  2: { unfold _start_shared, bind at 1, self. cbn [fst].
       rewrite Hdir. discriminate. }
  destruct (start_shared_steps o dir w Hdir)
    as [(e0 & _ & _ & Heq)|(state & _ & _ & Heq)]; rewrite Heq;
    [discriminate|].
  unfold bind at 1.
  destruct (live_owner env _ (o, w)) as [[o1 w1] [[|]|e|]] eqn:El;
    apply live_owner_frame in El;
    destruct El as (-> & _ & _ & _ & Hnd); try discriminate;
    try congruence.
  - destruct (join_existing _ _ (o, w1)) as [[o2 w2] r2] eqn:Ej.
    apply join_existing_writes in Ej. destruct Ej as [Hplain _].
    cbn [snd]. intros ->. exact Hplain.
  - rewrite start_new_cases. cbv zeta.
    destruct (sys_spawn env _ _) as [e|pid]; [discriminate|].
    match goal with
    | |- context [_wait_for_port env ?h ?p ?t ?w0] =>
        pose proof (wait_for_port_total env h p t w0) as Hw;
        destruct (_wait_for_port env h p t w0) as [w3 [[]|e|]]
    end; cbn [snd] in *; try discriminate; congruence.
Qed.

Lemma stop_shared_total (o : PubSubEmulator) (w : World) :
  snd (_stop_shared env (o, w)) <> Diverge.
Proof.
  destruct (_shared_dir o) as [dir|] eqn:Hdir.
  2: { unfold _stop_shared, bind at 1, self. cbn [fst].
       rewrite Hdir. discriminate. }
  rewrite (stop_shared_parts o dir w Hdir).
  match goal with
  | |- snd (bind _ ?k _) <> _ =>
      destruct (bind_read_state (state_path dir) k o w)
        as [(e0 & _ & _ & Heq)|(state & _ & _ & Heq)]
  end; rewrite Heq; cbv beta; [discriminate|].
  destruct (is_none _); [discriminate|].
  unfold bind at 1, lift_result at 1.
  match goal with
  | |- context [getitem ?s "worker_count"] =>
      pose proof (getitem_plain s "worker_count") as Hg;
      destruct (getitem s "worker_count") as [v|e|] eqn:Eg;
      cbn [plain] in Hg; [|discriminate|contradiction];
      destruct s as [| | | | |d]; try discriminate Eg
  end.
  unfold bind at 1, lift_result at 1.
  pose proof (py_add_plain v (-1)) as Ha.
  destruct (py_add v (-1)) as [v1|e|]; cbn [plain] in Ha;
    [|discriminate|contradiction].
  cbn [setitem].
  unfold bind at 1, lift_result at 1.
  unfold bind at 1, lift_result at 1.
  cbn [getitem]. rewrite dict_get_set_same.
  unfold bind at 1, lift_result at 1.
  pose proof (py_le0_plain v1) as Hl.
  destruct (py_le0 v1) as [[|]|e|]; cbn [plain] in Hl;
    [| |discriminate|contradiction].
  - unfold bind at 1, lift_result at 1.
    destruct (dict_get "pid" _) as [pv|]; [|discriminate].
    unfold bind at 1, lift_result at 1.
    pose proof (as_int_plain pv) as Hi.
    destruct (as_int pv) as [pid|e|]; cbn [plain] in Hi;
      [|discriminate|contradiction].
    unfold bind at 1, in_world at 1. cbn [fst snd].
    pose proof (terminate_process_total env pid TERMINATE_TIMEOUT w) as Ht.
    destruct (_terminate_process env pid TERMINATE_TIMEOUT w)
      as [w1 [[]|e|]]; cbn [snd] in *; try discriminate; congruence.
  - discriminate.
Qed.

Lemma start_standalone_total (o : PubSubEmulator) (w : World) :
  snd (_start_standalone env (o, w)) <> Diverge.
Proof.
  unfold _start_standalone, bind at 1, self. cbn [fst].
  destruct (_port o =? 0);
    [unfold bind at 1, in_world at 1, _find_free_port; cbn [fst snd]
    |unfold bind at 1, ret at 1];
    unfold bind at 1, in_world at 1, _launch, popen; cbn [fst snd];
    (destruct (sys_spawn env _ _) as [e|pid]; [discriminate|]);
    unfold bind, assign, in_world, ret; cbn [fst snd];
    match goal with
    | |- context [_wait_for_port env ?h ?p ?t ?w0] =>
        pose proof (wait_for_port_total env h p t w0) as Hw;
        destruct (_wait_for_port env h p t w0) as [w3 [[]|e|]]
    end; cbn [snd] in *; try discriminate; congruence.
Qed.

Lemma stop_standalone_total (o : PubSubEmulator) (w : World) :
  snd (_stop_standalone env (o, w)) <> Diverge.
Proof.
  unfold _stop_standalone, bind at 1, self. cbn [fst].
  destruct (_process o) as [pid|]; [|discriminate].
  unfold bind, in_world, assign. cbn [fst snd].
  pose proof (terminate_process_total env pid TERMINATE_TIMEOUT w) as Ht.
  destruct (_terminate_process env pid TERMINATE_TIMEOUT w)
    as [w1 [[]|e|]]; cbn [snd] in *; try discriminate; congruence.
Qed.

(** [start()] and [stop()] in shared mode are [_start_shared] and
    [_stop_shared]; in either mode they come back. *)
Lemma start_in_shared_mode (o : PubSubEmulator) (dir : string) (w : World) :
  _shared_dir o = Some dir -> start env (o, w) = _start_shared env (o, w).
Proof.
  intros Hdir. unfold start, bind at 1, self. cbn [fst].
  rewrite Hdir. reflexivity.
Qed.

Lemma stop_in_shared_mode (o : PubSubEmulator) (dir : string) (w : World) :
  _shared_dir o = Some dir -> stop env (o, w) = _stop_shared env (o, w).
Proof.
  intros Hdir. unfold stop, bind at 1, self. cbn [fst].
  rewrite Hdir. reflexivity.
Qed.

Lemma start_total (o : PubSubEmulator) (w : World) :
  snd (start env (o, w)) <> Diverge.
Proof.
  unfold start, bind at 1, self. cbn [fst].
  destruct (_shared_dir o);
    [apply start_shared_total|apply start_standalone_total].
Qed.

Lemma stop_total (o : PubSubEmulator) (w : World) :
  snd (stop env (o, w)) <> Diverge.
Proof.
  unfold stop, bind at 1, self. cbn [fst].
  destruct (_shared_dir o);
    [apply stop_shared_total|apply stop_standalone_total].
Qed.

End Coordination.

(* ================================================================= *)
(** ** The code on concrete machines *)

(** The scenario of two workers: [worker_a] launches and the record
    counts 1; [worker_b], configured otherwise, gets the same
    connection info and the record counts 2; [worker_a] leaves and the
    record counts 1; [worker_b] leaves, the emulator is signalled and
    the file is gone. *)
Example two_workers_start :
  snd (acquire good_env worker_a empty_world) = Ok info_a
  /\ files world_1 (state_path "/tmp/x")
     = Some (Doc (owner_record 4242 "localhost" 40123 "test-project" 1))
  /\ snd (acquire good_env worker_b world_1) = Ok info_a
  /\ files world_2 (state_path "/tmp/x")
     = Some (Doc (owner_record 4242 "localhost" 40123 "test-project" 2))
  /\ List.length (spawned world_2) = 1%nat.
Proof.
  split; [vm_compute; reflexivity|].
  split; [vm_compute; reflexivity|].
  split; [vm_compute; reflexivity|].
  split; vm_compute; reflexivity.
Qed.

Example two_workers_stop :
  let w3 := fst (release good_env worker_a world_2) in
  let w4 := fst (release good_env worker_b w3) in
  files w3 (state_path "/tmp/x")
  = Some (Doc (owner_record 4242 "localhost" 40123 "test-project" 1))
  /\ signalled w3 = signalled world_2
  /\ files w4 (state_path "/tmp/x") = None
  /\ In (4242, SIGTERM) (signalled w4).
Proof.
  cbv zeta.
  split; [vm_compute; reflexivity|].
  split; [vm_compute; reflexivity|].
  split; [vm_compute; reflexivity|].
  vm_compute. right. left. reflexivity.
Qed.

(** An emulator that never listens: the worker's timeout of one second
    lets it try five times, then [start()] raises. *)
Example deaf_emulator :
  let r := acquire deaf_env worker_b empty_world in
  snd r = Raise (TimeoutError (timeout_msg 1000 "elsewhere" 9999))
  /\ dialled (fst r) = repeat ("elsewhere"%string, 9999) 5
  /\ files (fst r) (state_path "/tmp/x") = None.
Proof.
  cbv zeta.
  split; [vm_compute; reflexivity|].
  split; vm_compute; reflexivity.
Qed.

(** *** The theorems at work *)

(** Three workers on a machine where the emulator starts: one launch,
    one and the same connection info. *)
Lemma single_owner_witness :
  exists wN,
    acquire_all good_env [worker_a; worker_b; worker_a] empty_world
    = (wN, repeat (Ok info_a) 3)
    /\ spawned wN
       = spawned empty_world
         ++ [(4242, launch_cmd "localhost" 40123 "test-project")].
Proof.
  apply (single_owner good_env worker_a [worker_b; worker_a] "/tmp/x"
           empty_world world_1 info_a 4242
           (launch_cmd "localhost" 40123 "test-project")).
  - reflexivity.
  - repeat constructor.
  - reflexivity.
  - reflexivity.
  - split; [reflexivity|]. intros n. simpl. discriminate.
Defined.

(** [worker_b], configured with another host, port and project,
    joins the emulator of [worker_a]. *)
Lemma start_shared_joins_witness :
  exists w2,
    _start_shared good_env (worker_b, world_1)
    = ((set_info (Some info_a) worker_b, w2), Ok info_a)
    /\ files w2 (state_path "/tmp/x")
       = Some (Doc (owner_record 4242 "localhost" 40123 "test-project" 2))
    /\ spawned w2 = spawned world_1
    /\ dialled w2 = dialled world_1.
Proof.
  destruct (start_shared_joins good_env worker_b "/tmp/x" world_1
              (fst (_is_pid_alive good_env 4242 world_1))
              [("pid", PInt 4242); ("host", PStr "localhost");
               ("port", PInt 40123); ("project", PStr "test-project");
               ("worker_count", PInt 1)]%string
              4242 1 (PStr "localhost") (PInt 40123) (PStr "test-project")
              eq_refl eq_refl eq_refl eq_refl eq_refl eq_refl eq_refl
              eq_refl)
    as (w2 & Hrun & Hfile & _ & _ & _ & Hsp & Hdl).
  exists w2. repeat split; assumption.
Defined.

(** A stale record of a dead owner is replaced by the record of the
    new owner, after one connection to the new emulator was attempted
    and accepted. *)
Lemma start_shared_becomes_owner_witness :
  exists o' w4,
    _start_shared good_env (worker_a, stale_world) = ((o', w4), Ok info_a)
    /\ files w4 (state_path "/tmp/x")
       = Some (Doc (owner_record 4242 "localhost" 40123 "test-project" 1))
    /\ (exists k,
          dialled w4
          = dialled stale_world ++ repeat ("localhost"%string, 40123) (S k))
    /\ tcp_accepts good_env (pred (events w4)) "localhost" 40123 = true
    /\ _is_owner o' = true.
Proof.
  destruct (start_shared_becomes_owner good_env worker_a "/tmp/x"
              stale_world (fst (_is_pid_alive good_env 777 stale_world))
              (fst (_wait_for_port good_env "localhost" 40123 15000
                      (log_spawn 4242
                         (launch_cmd "localhost" 40123 "test-project")
                         (step good_env
                            (step good_env
                               (fst (_is_pid_alive good_env 777
                                       stale_world)))))))
              4242)
    as (o' & w4 & Hrun & _ & Hfile & _ & _ & Hdial & Hacc & _ & Howner & _).
  - reflexivity.
  - right.
    exists [("pid", PInt 777); ("host", PStr "old-host"); ("port", PInt 1);
            ("project", PStr "old-project");
            ("worker_count", PInt 3)]%string, 777.
    repeat split; reflexivity.
  - reflexivity.
  - vm_compute. reflexivity.
  - exists o', w4.
    split; [exact Hrun|]. split; [exact Hfile|]. split; [exact Hdial|].
    split; [exact Hacc|exact Howner].
Defined.

(** The first worker to leave lowers the count; the last one signals
    the emulator and deletes the file. *)
Lemma stop_shared_outcomes_witness :
  (exists w3,
     _stop_shared good_env (worker_a, world_2) = ((worker_a, w3), Ok tt)
     /\ files w3 (state_path "/tmp/x")
        = Some (Doc (owner_record 4242 "localhost" 40123 "test-project" 1)))
  /\ (exists w4,
        _stop_shared good_env (worker_b, world_3) = ((worker_b, w4), Ok tt)
        /\ files w4 (state_path "/tmp/x") = None
        /\ In (4242, SIGTERM) (signalled w4)).
Proof.
  split.
  - destruct (stop_shared_outcomes good_env worker_a "/tmp/x" world_2 eq_refl)
      as (_ & _ & Hmore).
    destruct (Hmore
                [("pid", PInt 4242); ("host", PStr "localhost");
                 ("port", PInt 40123); ("project", PStr "test-project");
                 ("worker_count", PInt 2)]%string
                2 eq_refl eq_refl ltac:(lia))
      as (w3 & Hrun & Hfile & _).
    exists w3. split; assumption.
  - destruct (stop_shared_outcomes good_env worker_b "/tmp/x" world_3 eq_refl)
      as (_ & Hlast & _).
    destruct (Hlast
                [("pid", PInt 4242); ("host", PStr "localhost");
                 ("port", PInt 40123); ("project", PStr "test-project");
                 ("worker_count", PInt 1)]%string
                1 4242
                (fst (_terminate_process good_env 4242 TERMINATE_TIMEOUT
                        world_3))
                ltac:(vm_compute; reflexivity) eq_refl ltac:(lia) eq_refl
                ltac:(vm_compute; reflexivity))
      as (w4 & Hrun & _ & Hfile & _ & Hsig).
    exists w4. split; [exact Hrun|]. split; [exact Hfile|].
    destruct Hsig as [[Hgone _]|[k [Hs|Hs]]].
    + vm_compute in Hgone. discriminate Hgone.
    + rewrite Hs. apply in_or_app. right. left. reflexivity.
    + rewrite Hs. apply in_or_app. right. left. reflexivity.
Defined.

(** The emulator never listens: [start()] times out and no file is
    written. *)
Lemma start_shared_timeout_witness :
  let s := fst (_start_shared deaf_env (worker_b, empty_world)) in
  files (snd s) = files empty_world
  /\ (forall dir, files empty_world (state_path dir) = None ->
                  files (snd s) (state_path dir) = None).
Proof.
  apply (start_shared_timeout_writes_nothing deaf_env worker_b
           (fst (fst (_start_shared deaf_env (worker_b, empty_world))))
           empty_world
           (snd (fst (_start_shared deaf_env (worker_b, empty_world))))
           (timeout_msg 1000 "elsewhere" 9999)).
  vm_compute. reflexivity.
Defined.

(** Terminating pid 7, which no process has, twice. *)
Lemma terminate_process_idempotent_witness :
  exists w1 w2,
    _terminate_process good_env 7 5000 empty_world = (w1, Ok tt)
    /\ _terminate_process good_env 7 5000 w1 = (w2, Ok tt).
Proof.
  apply (terminate_process_idempotent good_env 7 5000 5000 empty_world).
  - lia.
  - reflexivity.
  - intros n sig. cbn. discriminate.
Defined.

(** Waiting one second for a port nothing listens on. *)
Lemma wait_for_port_times_out_witness :
  exists w',
    _wait_for_port deaf_env "localhost" 8085 1000 empty_world
    = (w', Raise (TimeoutError
                    [Lit "Emulator did not start within "; FSeconds 1000;
                     Lit "s on "; FStr "localhost"; Lit ":"; FInt 8085])).
Proof.
  apply (wait_for_port_times_out deaf_env "localhost" 8085 1000 empty_world).
  - vm_compute. reflexivity.
  - reflexivity.
  - intros n. reflexivity.
Defined.

(** Two workers come and go, and one leaves once too often. *)
Lemma stored_count_witness :
  all_counted
    (run_calls good_env
       [Acquire worker_a; Acquire worker_b; Release worker_a;
        Release worker_b; Release worker_b]
       empty_world).
Proof.
  apply (stored_count_at_least_one good_env
           [Acquire worker_a; Acquire worker_b; Release worker_a;
            Release worker_b; Release worker_b]
           empty_world).
  intros path. exact I.
Defined.

(* ================================================================= *)
(** ** More on the port prober *)

Section Probing.
Variable env : Env.

(** X1.  Whatever its outcome, [_wait_for_port] attempts connections
    to the given host and port only, and 200 ms apart at least: it
    makes no attempt at all, or fewer than [timeout / 200 + 1]. *)
Theorem wait_for_port_attempts
    (host : string) (port timeout : Z) (w w' : World) (r : result unit) :
  _wait_for_port env host port timeout w = (w', r) ->
  exists k,
    dialled w' = dialled w ++ repeat (host, port) k
    /\ (k = 0%nat \/ 200 * (Z.of_nat k - 1) < timeout).
Proof.
  unfold _wait_for_port, bind at 1, monotonic. cbv zeta. unfold bind.
  destruct (poll_connect env host port (clock (step env w) + timeout)
              (poll_budget timeout) (step env w)) as [w1 r1] eqn:Eloop.
  apply poll_connect_shape in Eloop. destruct Eloop as (k & Hd & Hk & _).
  intros Hrun. exists k.
  assert (w' = w1) as ->
    by (destruct r1 as [[|]|e|]; injection Hrun as <- _; reflexivity).
  split; [exact Hd|]. unfold POLL in Hk. destruct Hk; [auto|right; lia].
Qed.

(** X2.  With a timeout of zero or less [_wait_for_port] raises
    [TimeoutError] without a single connection attempt, whether or not
    something listens. *)
Theorem wait_for_port_nonpositive_timeout
    (host : string) (port timeout : Z) (w : World) :
  timeout <= 0 ->
  exists w',
    _wait_for_port env host port timeout w
    = (w', Raise (TimeoutError (timeout_msg timeout host port)))
    /\ dialled w' = dialled w.
Proof.
  intros Hto.
  unfold _wait_for_port, bind at 1, monotonic. cbv zeta.
  unfold bind, poll_budget. rewrite poll_connect_S. cbv zeta.
  assert (Hexit : (clock (step env (step env w))
                   <? clock (step env w) + timeout) = false).
  { apply Z.ltb_ge. pose proof (clock_step env (step env w)). lia. }
  rewrite Hexit. eexists. split; reflexivity.
Qed.

(** X3.  [_wait_for_port] returns normally only when a connection to
    the given host and port was accepted; the accepted attempt is the
    last thing it did, and the timeout was positive. *)
Theorem wait_for_port_returns_when_accepted
    (host : string) (port timeout : Z) (w w' : World) :
  _wait_for_port env host port timeout w = (w', Ok tt) ->
  (events w < pred (events w'))%nat
  /\ tcp_accepts env (pred (events w')) host port = true
  /\ 0 < timeout.
Proof.
  unfold _wait_for_port, bind at 1, monotonic. cbv zeta. unfold bind.
  destruct (poll_connect env host port (clock (step env w) + timeout)
              (poll_budget timeout) (step env w)) as [w1 r1] eqn:Eloop.
  apply poll_connect_shape in Eloop. destruct Eloop as (k & _ & _ & Hr).
  destruct r1 as [[|]|e|]; try discriminate.
  intros [= <-]. destruct Hr as (He & Ha & Hc & _).
  cbn [events step] in He. repeat split; [lia|exact Ha|lia].
Qed.

(** X4.  [_wait_for_port] does not raise its [TimeoutError] before the
    timeout has passed on the monotonic clock.  The only other
    exceptions it raises are the two that the conversion of the host
    and the port raises, neither of them an [OSError]: [UnicodeError]
    for a host name that the idna codec rejects and [OverflowError]
    for a port that fits no C [long]; they are raised as they are,
    before any connection is attempted. *)
Theorem wait_for_port_gives_up_late
    (host : string) (port timeout : Z) (w w' : World) (e : exn) :
  _wait_for_port env host port timeout w = (w', Raise e) ->
  (e = TimeoutError (timeout_msg timeout host port)
   /\ clock w + timeout <= clock w')
  \/ (dialled w' = dialled w
      /\ isinstance_OSError e = false
      /\ ((idna_refuses env host = true /\ e = UnicodeError)
          \/ (idna_refuses env host = false
              /\ fits_c_long port = false /\ e = OverflowError))).
Proof.
  intros Hrun. apply wait_for_port_shape in Hrun.
  destruct Hrun as (k & Hd & _ & [Hlate|(-> & Hconv)]).
  - left. exact Hlate.
  - right. cbn [repeat] in Hd. rewrite app_nil_r in Hd.
    split; [exact Hd|]. split; [|exact Hconv].
    destruct Hconv as [(_ & ->)|(_ & _ & ->)]; reflexivity.
Qed.

End Probing.

(* ================================================================= *)
(** ** More on the process handle *)

Section Signalling.
Variable env : Env.

(** X5.  Every [os.kill] call of [_terminate_process] that succeeds
    has the given [pid] as its pid argument, and the calls come in this
    order: none at all, or [SIGTERM] first, then existence probes
    (signal 0), then at most one [SIGKILL]; the [SIGKILL] is not sent
    before the timeout has passed. *)
Theorem terminate_process_signals (pid timeout : Z) (w w' : World)
    (r : result unit) :
  _terminate_process env pid timeout w = (w', r) ->
  signalled w' = signalled w
  \/ exists k,
       signalled w' = signalled w ++ (pid, SIGTERM) :: repeat (pid, SIG0) k
       \/ (signalled w'
           = signalled w ++ (pid, SIGTERM) :: repeat (pid, SIG0) k
                         ++ [(pid, SIGKILL)]
           /\ clock w + timeout <= clock w').
Proof.
  intros Hrun. apply terminate_process_ways in Hrun.
  destruct Hrun as [(_ & -> & _)|(_ & [(_ & Hs & _)|[(_ & -> & _)|
                     [(k & Hs & _)|(k & Hs & Hc & _)]]])].
  - left. reflexivity.
  - left. exact Hs.
  - left. reflexivity.
  - right. exists k. left. exact Hs.
  - right. exists k. right. split; assumption.
Qed.

(** X6.  [_terminate_process] raises in two cases only:
    [OverflowError], at once, for a pid that is no C [int]; and
    [PermissionError] when the system refuses the [SIGTERM] or the
    [SIGKILL].  A refused existence probe does not make it raise. *)
Theorem terminate_process_errors (pid timeout : Z) (w w' : World) (e : exn) :
  _terminate_process env pid timeout w = (w', Raise e) ->
  (e = OverflowError /\ fits_c_int pid = false /\ w' = w)
  \/ (e = PermissionError
      /\ (sys_kill env (events w) pid SIGTERM = EPERM
          \/ sys_kill env (pred (events w')) pid SIGKILL = EPERM)).
Proof.
  intros Hrun. apply terminate_process_ways in Hrun.
  destruct Hrun as [(Hfit & -> & [= <-])|(_ & [(_ & _ & [=])|[(Ht & _ & [= <-])|
                     [(k & _ & [[=]|([= <-] & _ & Hk)])|(k & _ & _ & [=])]]])].
  - left. auto.
  - right. auto.
  - right. auto.
Qed.

End Signalling.

(* ================================================================= *)
(** ** The standalone mode, and what [start()] leaves behind *)

Section Standalone.
Variable env : Env.

Lemma start_standalone_cases (o : PubSubEmulator) (w : World) :
  _start_standalone env (o, w) =
    let w1 := if _port o =? 0 then step env w else w in
    let port := if _port o =? 0 then ephemeral_port env (events w)
                else _port o in
    let cmd := launch_cmd (_host o) port (_project o) in
    match sys_spawn env (events w1) cmd with
    | inl e => ((o, step env w1), Raise e)
    | inr pid =>
        let o1 := set_is_owner true (set_process (Some pid) o) in
        let info := {| host := PStr (_host o); port := PInt port;
                       project := PStr (_project o) |} in
        match _wait_for_port env (_host o) port (_timeout o)
                (log_spawn pid cmd (step env w1)) with
        | (w3, Ok _) => ((set_info (Some info) o1, w3), Ok info)
        | (w3, Raise e) => ((o1, w3), Raise e)
        | (w3, Diverge) => ((o1, w3), Diverge)
        end
    end.
Proof.
  unfold _start_standalone, bind at 1, self. cbn [fst]. cbv zeta.
  destruct (_port o =? 0).
  - unfold bind at 1, in_world at 1, _find_free_port. cbn [fst snd].
    unfold bind at 1, in_world at 1, _launch, popen. cbn [fst snd events].
    destruct (sys_spawn env _ _) as [e|pid]; [reflexivity|].
    unfold bind, assign, in_world, ret. cbn [fst snd].
    destruct (_wait_for_port env (_host o) (ephemeral_port env (events w))
                (_timeout o) _) as [w3 [[]|e|]]; reflexivity.
  - unfold bind at 1, ret at 1.
    unfold bind at 1, in_world at 1, _launch, popen. cbn [fst snd events].
    destruct (sys_spawn env _ _) as [e|pid]; [reflexivity|].
    unfold bind, assign, in_world, ret. cbn [fst snd].
    destruct (_wait_for_port env (_host o) (_port o) (_timeout o) _)
      as [w3 [[]|e|]]; reflexivity.
Qed.

(** X7.  [_start_standalone], when the launch and the readiness wait
    succeed: the port is the configured one, or the probed free port
    when the configured port is 0; exactly one process is started, with
    that port; the instance becomes the owner and keeps the pid; no
    file is written; the result names the caller's host and project
    and that port. *)
Theorem start_standalone_launches
    (o : PubSubEmulator) (w w3 : World) (pid : Z) :
  let new_port := if _port o =? 0 then ephemeral_port env (events w)
                  else _port o in
  let w1 := if _port o =? 0 then step env w else w in
  let cmd := launch_cmd (_host o) new_port (_project o) in
  sys_spawn env (events w1) cmd = inr pid ->
  _wait_for_port env (_host o) new_port (_timeout o)
    (log_spawn pid cmd (step env w1)) = (w3, Ok tt) ->
  let fresh := {| host := PStr (_host o); port := PInt new_port;
                  project := PStr (_project o) |} in
  exists o',
    _start_standalone env (o, w) = ((o', w3), Ok fresh)
    /\ _process o' = Some pid /\ _is_owner o' = true /\ _info o' = Some fresh
    /\ spawned w3 = spawned w ++ [(pid, cmd)]
    /\ files w3 = files w.
Proof.
  intros new_port w1 cmd Hspawn Hwait fresh.
  exists (set_info (Some fresh)
            (set_is_owner true (set_process (Some pid) o))).
  split; [|repeat split].
  - rewrite start_standalone_cases. cbv zeta.
    fold new_port w1 cmd. rewrite Hspawn, Hwait. reflexivity.
  - apply (proj2 (wait_for_port_frame env _ _ _)) in Hwait.
    rewrite Hwait. cbn [spawned log_spawn]. unfold w1.
    destruct (_port o =? 0); reflexivity.
  - apply (proj1 (wait_for_port_frame env _ _ _)) in Hwait.
    rewrite Hwait. cbn [files log_spawn]. unfold w1.
    destruct (_port o =? 0); reflexivity.
Qed.

(** X8.  Once [_start_standalone] has launched a process, however the
    call ended (also by a timeout), [_stop_standalone] runs
    [_terminate_process] on that process and forgets it, and a further
    [_stop_standalone] does nothing. *)
Theorem stop_standalone_after_start
    (o o' : PubSubEmulator) (w w' w2 : World) (r : result EmulatorInfo)
    (pid : Z) :
  let new_port := if _port o =? 0 then ephemeral_port env (events w)
                  else _port o in
  let w1 := if _port o =? 0 then step env w else w in
  sys_spawn env (events w1) (launch_cmd (_host o) new_port (_project o))
  = inr pid ->
  _start_standalone env (o, w) = ((o', w'), r) ->
  _terminate_process env pid TERMINATE_TIMEOUT w' = (w2, Ok tt) ->
  _stop_standalone env (o', w') = ((set_process None o', w2), Ok tt)
  /\ _stop_standalone env (set_process None o', w2)
     = ((set_process None o', w2), Ok tt).
Proof.
  intros new_port w1 Hspawn Hstart Hterm.
  assert (Hproc : _process o' = Some pid).
  { rewrite start_standalone_cases in Hstart. cbv zeta in Hstart.
    fold new_port w1 in Hstart. rewrite Hspawn in Hstart.
    destruct (_wait_for_port env _ _ _ _) as [w3 [[]|e|]];
      injection Hstart as <- _ _; reflexivity. }
  split.
  - unfold _stop_standalone, bind at 1, self. cbn [fst]. rewrite Hproc.
    unfold bind, in_world, assign. cbn [fst snd]. rewrite Hterm.
    reflexivity.
  - reflexivity.
Qed.

(** X9.  In standalone mode neither [start()] nor [stop()] changes a
    file, whatever happens: every file is afterwards as it was
    before. *)
Theorem standalone_touches_no_file (o : PubSubEmulator) (w : World) :
  _shared_dir o = None ->
  files (snd (fst (start env (o, w)))) = files w
  /\ files (snd (fst (stop env (o, w)))) = files w.
Proof.
  intros Hdir. split.
  - unfold start, bind at 1, self. cbn [fst]. rewrite Hdir.
    destruct (_start_standalone env (o, w)) as [[o' w'] r] eqn:E.
    exact (start_standalone_files env _ _ _ _ _ E).
  - unfold stop, bind at 1, self. cbn [fst]. rewrite Hdir.
    destruct (_stop_standalone env (o, w)) as [[o' w'] r] eqn:E.
    exact (stop_standalone_files env _ _ _ _ _ E).
Qed.

(** The joining branch, when it returns, has stored its result in the
    instance. *)
Lemma join_existing_ok (path : string) (state : pyval)
    (o o' : PubSubEmulator) (w w' : World) (i : EmulatorInfo) :
  join_existing path state (o, w) = ((o', w'), Ok i) ->
  o' = set_info (Some i) o.
Proof.
  unfold join_existing.
  unfold bind at 1, lift_result at 1.
  destruct (getitem state "worker_count") as [v|e|]; try discriminate.
  unfold bind at 1, lift_result at 1.
  destruct (py_add v 1) as [v1|e|]; try discriminate.
  unfold bind at 1, lift_result at 1.
  destruct (setitem state "worker_count" v1) as [s1|e|]; try discriminate.
  unfold bind at 1, in_world at 1, _write_state. cbn [fst snd].
  destruct (write_text path (json_dumps s1) w) as [w1 [[]|e|]] eqn:Ew;
    try discriminate.
  unfold bind at 1, lift_result at 1.
  destruct (getitem s1 "host") as [h|e|]; try discriminate.
  unfold bind at 1, lift_result at 1.
  destruct (getitem s1 "port") as [p|e|]; try discriminate.
  unfold bind at 1, lift_result at 1.
  destruct (getitem s1 "project") as [pr|e|]; try discriminate.
  unfold bind, assign, ret. cbn [fst snd].
  intros [= <- _ <-]. reflexivity.
Qed.

(** X10.  After a [start()] that returned, in either mode and whether
    it launched or joined, the [info] property returns what [start()]
    returned. *)
Theorem info_after_start (o o' : PubSubEmulator) (w w' : World)
    (i : EmulatorInfo) :
  start env (o, w) = ((o', w'), Ok i) ->
  info (o', w') = ((o', w'), Ok i).
Proof.
  intros Hstart.
  enough (Hinfo : _info o' = Some i).
  { unfold info, bind, self. cbn [fst]. rewrite Hinfo. reflexivity. }
  unfold start, bind at 1, self in Hstart. cbn [fst] in Hstart.
  destruct (_shared_dir o) as [dir|] eqn:Hdir.
  - destruct (start_shared_steps env o dir w Hdir)
      as [(e0 & _ & _ & Heq)|(state & _ & _ & Heq)]; rewrite Heq in Hstart;
      [discriminate Hstart|].
    unfold bind at 1 in Hstart.
    destruct (live_owner env _ (o, w)) as [[o1 w1] [[|]|e|]] eqn:El;
      apply live_owner_frame in El;
      destruct El as (-> & _); try discriminate Hstart.
    + apply join_existing_ok in Hstart. subst o'. reflexivity.
    + rewrite start_new_cases in Hstart. cbv zeta in Hstart.
      destruct (sys_spawn env _ _) as [e|pid]; [discriminate Hstart|].
      destruct (_wait_for_port env _ _ _ _) as [w3 [[]|e|]];
        try discriminate Hstart.
      injection Hstart as <- _ <-. reflexivity.
  - rewrite start_standalone_cases in Hstart. cbv zeta in Hstart.
    destruct (sys_spawn env _ _) as [e|pid]; [discriminate Hstart|].
    destruct (_wait_for_port env _ _ _ _) as [w3 [[]|e|]];
      try discriminate Hstart.
    injection Hstart as <- _ <-. reflexivity.
Qed.

End Standalone.

(* ================================================================= *)
(** ** More on the shared mode *)

Section Sharing.
Variable env : Env.

Lemma no_live_owner_check (o : PubSubEmulator) (dir : string)
    (w w0 : World) :
  no_live_owner env dir w w0 ->
  (state <- in_world (_read_state (state_path dir)) ;;
   live_owner env state) (o, w) = ((o, w0), Ok false)
  /\ files w0 = files w /\ spawned w0 = spawned w
  /\ signalled w0 = signalled w.
Proof.
  intros [[Habsent ->]|(d & opid & Hfile & Hpid & Hprobe)].
  - unfold bind, in_world. cbn [fst snd]. rewrite Habsent. auto.
  - unfold bind, in_world. cbn [fst snd].
    rewrite read_state_cases, Hfile.
    rewrite (live_owner_record env o w d opid Hpid), Hprobe.
    pose proof (proj1 (is_pid_alive_frame env opid) _ _ _ Hprobe).
    pose proof (proj2 (is_pid_alive_frame env opid) _ _ _ Hprobe).
    repeat split; try assumption.
    rewrite is_pid_alive_cases in Hprobe.
    destruct (fits_c_int opid);
      [destruct (sys_kill env (events w) opid SIG0)|];
      inversion Hprobe; reflexivity.
Qed.

Lemma start_shared_launch_run (o : PubSubEmulator) (dir : string)
    (w w0 : World) :
  _shared_dir o = Some dir ->
  no_live_owner env dir w w0 ->
  _start_shared env (o, w) = start_new env o (state_path dir) (o, w0).
Proof.
  intros Hdir Hdead.
  destruct (no_live_owner_check o dir w w0 Hdead) as (Hcheck & _).
  rewrite (start_shared_parts env o dir w Hdir).
  unfold bind at 1. unfold bind in Hcheck.
  destruct (in_world (_read_state (state_path dir)) (o, w))
    as [s1 [state| |]]; try discriminate Hcheck.
  unfold bind at 1. rewrite Hcheck. reflexivity.
Qed.

(** X11.  When [_start_shared] finds no live owner and the launch
    fails, the launcher's exception reaches the caller as it is; no
    process is recorded as started, the state file is as it was and so
    is every other file but the lock file, and the instance is as
    before: it has not become an owner. *)
Theorem start_shared_launch_failure
    (o : PubSubEmulator) (dir : string) (w w0 : World) (e : exn) :
  _shared_dir o = Some dir ->
  no_live_owner env dir w w0 ->
  let new_port := if _port o =? 0 then ephemeral_port env (events w0)
                  else _port o in
  let w1 := if _port o =? 0 then step env w0 else w0 in
  sys_spawn env (events w1) (launch_cmd (_host o) new_port (_project o))
  = inl e ->
  exists w',
    _start_shared env (o, w) = ((o, w'), Raise e)
    /\ files w' (state_path dir) = files w (state_path dir)
    /\ (forall path, path <> lock_path dir -> files w' path = files w path)
    /\ spawned w' = spawned w.
Proof.
  intros Hdir Hdead new_port w1 Hspawn.
  destruct (no_live_owner_check o dir w w0 Hdead) as (_ & Hf0 & Hs0 & _).
  exists (step env w1).
  rewrite (start_shared_launch_run o dir w w0 Hdir Hdead).
  rewrite start_new_cases. cbv zeta. fold new_port w1. rewrite Hspawn.
  assert (Hfiles : files (step env w1) = files w).
  { unfold w1. destruct (_port o =? 0); cbn [files step]; exact Hf0. }
  split; [reflexivity|]. split; [rewrite Hfiles; reflexivity|].
  split; [intros path _; rewrite Hfiles; reflexivity|].
  unfold w1. destruct (_port o =? 0); cbn [spawned step]; exact Hs0.
Qed.

(** X12.  When [_start_shared] has launched on an empty coordination
    directory and the readiness wait fails, the launched process is
    left behind: it has been started, it has been sent no signal, no
    record names it, and [stop()] on the same instance, which knows
    the pid, does nothing. *)
Theorem start_shared_timeout_leaves_process
    (o : PubSubEmulator) (dir : string) (w w3 : World) (pid : Z) (e : exn) :
  _shared_dir o = Some dir ->
  files w (state_path dir) = None ->
  let new_port := if _port o =? 0 then ephemeral_port env (events w)
                  else _port o in
  let w1 := if _port o =? 0 then step env w else w in
  let cmd := launch_cmd (_host o) new_port (_project o) in
  sys_spawn env (events w1) cmd = inr pid ->
  _wait_for_port env (_host o) new_port (_timeout o)
    (log_spawn pid cmd (step env w1)) = (w3, Raise e) ->
  exists o',
    _start_shared env (o, w) = ((o', w3), Raise e)
    /\ _process o' = Some pid /\ _is_owner o' = true
    /\ spawned w3 = spawned w ++ [(pid, cmd)]
    /\ signalled w3 = signalled w
    /\ files w3 = files w
    /\ stop env (o', w3) = ((o', w3), Ok tt).
Proof.
  intros Hdir Hnone new_port w1 cmd Hspawn Hwait.
  assert (Hdead : no_live_owner env dir w w).
  { left. split; [|reflexivity]. rewrite read_state_cases, Hnone.
    reflexivity. }
  pose proof (proj1 (wait_for_port_frame env _ _ _) _ _ _ Hwait) as Hf3.
  pose proof (proj2 (wait_for_port_frame env _ _ _) _ _ _ Hwait) as Hs3.
  pose proof (wait_for_port_signalled env _ _ _ _ _ _ Hwait) as Hg3.
  assert (Hfiles : files w3 = files w).
  { rewrite Hf3. cbn [files log_spawn]. unfold w1.
    destruct (_port o =? 0); reflexivity. }
  exists (set_is_owner true (set_process (Some pid) o)).
  split; [|repeat split].
  - rewrite (start_shared_launch_run o dir w w Hdir Hdead).
    rewrite start_new_cases. cbv zeta. fold new_port w1 cmd.
    rewrite Hspawn, Hwait. reflexivity.
  - rewrite Hs3. cbn [spawned log_spawn]. unfold w1.
    destruct (_port o =? 0); reflexivity.
  - rewrite Hg3. cbn [signalled log_spawn]. unfold w1.
    destruct (_port o =? 0); reflexivity.
  - exact Hfiles.
  - rewrite (stop_in_shared_mode env _ dir w3) by exact Hdir.
    rewrite (stop_shared_parts env _ dir w3) by exact Hdir.
    unfold bind, in_world. cbn [fst snd].
    rewrite read_state_cases, Hfiles, Hnone. reflexivity.
Qed.

(** X13.  A state file that holds valid JSON which is not an object
    (a number, a string, a list, a boolean) is never repaired: both
    [_start_shared] and [_stop_shared] raise [TypeError]; they leave
    the state file as it is, and every other file but the lock file,
    they leave the instance as it is, and they start, signal and dial
    nothing.  So every later call does the same. *)
Theorem non_object_state_is_stuck
    (o : PubSubEmulator) (dir : string) (w : World) (v : pyval) :
  _shared_dir o = Some dir ->
  files w (state_path dir) = Some (Doc v) ->
  match v with PNone | PDict _ => False | _ => True end ->
  exists w1 w2,
    _start_shared env (o, w) = ((o, w1), Raise TypeError)
    /\ _stop_shared env (o, w) = ((o, w2), Raise TypeError)
    /\ forall w', w' = w1 \/ w' = w2 ->
         files w' (state_path dir) = Some (Doc v)
         /\ (forall path, path <> lock_path dir ->
                          files w' path = files w path)
         /\ spawned w' = spawned w
         /\ signalled w' = signalled w
         /\ dialled w' = dialled w.
Proof.
  intros Hdir Hfile Hshape. exists w, w.
  split; [|split].
  - rewrite (start_shared_parts env o dir w Hdir).
    unfold bind at 1, in_world at 1. cbn [fst snd].
    rewrite read_state_cases, Hfile.
    destruct v; try contradiction; reflexivity.
  - rewrite (stop_shared_parts env o dir w Hdir).
    unfold bind at 1, in_world at 1. cbn [fst snd].
    rewrite read_state_cases, Hfile.
    destruct v; try contradiction; reflexivity.
  - intros w' [->| ->]; repeat split; exact Hfile.
Qed.

(** *** [_stop_shared] does not look at the instance *)

Lemma blind_in_world {A} (m : M World A) : instance_blind (in_world m).
Proof.
  exists m. intros o w. unfold in_world. cbn [fst snd].
  destruct (m w); reflexivity.
Qed.

Lemma blind_ret {A} (a : A) : instance_blind (ret a).
Proof. exists (ret a). reflexivity. Qed.

Lemma blind_lift_result {A} (r : result A) : instance_blind (lift_result r).
Proof. exists (lift_result r). reflexivity. Qed.

Lemma blind_bind {A B} (m : Method A) (k : A -> Method B) :
  instance_blind m -> (forall a, instance_blind (k a)) ->
  instance_blind (bind m k).
Proof.
  intros [mw Hm] Hk.
  exists (bind mw (fun a => proj1_sig (Hk a))).
  intros o w. unfold bind. rewrite Hm.
  destruct (mw w) as [w1 [a|e|]]; cbn [fst snd]; try reflexivity.
  exact (proj2_sig (Hk a) o w1).
Qed.

Lemma stop_shared_blind (dir : string) :
  instance_blind
    (state <- in_world (_read_state (state_path dir)) ;;
     if is_none state then ret tt
     else
       n <- lift_result (getitem state "worker_count") ;;
       n <- lift_result (py_add n (-1)) ;;
       state <- lift_result (setitem state "worker_count" n) ;;
       n <- lift_result (getitem state "worker_count") ;;
       last <- lift_result (py_le0 n) ;;
       if last : bool then
         pid <- lift_result (getitem state "pid") ;;
         pid <- lift_result (as_int pid) ;;
         in_world (_terminate_process env pid TERMINATE_TIMEOUT) ;;;
         in_world (unlink (state_path dir))
       else in_world (_write_state (state_path dir) state)).
Proof.
  apply blind_bind; [apply blind_in_world|]. intros state.
  destruct (is_none state); [apply blind_ret|].
  apply blind_bind; [apply blind_lift_result|]. intros n.
  apply blind_bind; [apply blind_lift_result|]. intros n1.
  apply blind_bind; [apply blind_lift_result|]. intros state1.
  apply blind_bind; [apply blind_lift_result|]. intros n2.
  apply blind_bind; [apply blind_lift_result|]. intros last.
  destruct last; [|apply blind_in_world].
  apply blind_bind; [apply blind_lift_result|]. intros pv.
  apply blind_bind; [apply blind_lift_result|]. intros pid.
  apply blind_bind; [apply blind_in_world|]. intros _.
  apply blind_in_world.
Qed.

(** X14.  What [_stop_shared] does depends on the coordination
    directory and the world only: any instance on that directory,
    owner or joiner, started or not, gets the same outcome and causes
    the same effects, and the instance itself is left as it was. *)
Theorem stop_shared_ignores_instance (dir : string) (w : World) :
  exists w' r,
    forall o, _shared_dir o = Some dir ->
              _stop_shared env (o, w) = ((o, w'), r).
Proof.
  destruct (stop_shared_blind dir) as [mw Hmw].
  exists (fst (mw w)), (snd (mw w)). intros o Hdir.
  rewrite (stop_shared_parts env o dir w Hdir). apply Hmw.
Qed.

End Sharing.

(* ================================================================= *)
(** ** Counting the users *)

Lemma dict_set_set (k : string) (v v' : pyval) (d : list (string * pyval)) :
  dict_set k v (dict_set k v' d) = dict_set k v d.
Proof.
  induction d as [|[k0 v0] d IH]; cbn [dict_set].
  - rewrite String.eqb_refl. reflexivity.
  - destruct (String.eqb k k0) eqn:E; cbn [dict_set]; rewrite E.
    + reflexivity.
    + rewrite IH. reflexivity.
Qed.

Lemma dict_set_stored (k : string) (v : pyval) (d : list (string * pyval)) :
  dict_get k d = Some v -> dict_set k v d = d.
Proof.
  induction d as [|[k0 v0] d IH]; cbn [dict_get dict_set].
  - discriminate.
  - destruct (String.eqb k k0) eqn:E.
    + intros [= ->]. reflexivity.
    + intros H. rewrite (IH H). reflexivity.
Qed.

Section Counting.
Variable env : Env.

Lemma release_shared (o : PubSubEmulator) (dir : string) (w : World) :
  _shared_dir o = Some dir ->
  release env o w = let (s, r) := _stop_shared env (o, w) in (snd s, r).
Proof.
  intros Hdir. unfold release, stop, bind, self. cbn [fst].
  rewrite Hdir. reflexivity.
Qed.

(** The run of [_stop_shared] that leaves users behind. *)
Lemma stop_shared_leave_run (o : PubSubEmulator) (dir : string) (w : World)
    (d : list (string * pyval)) (n : Z) :
  _shared_dir o = Some dir ->
  files w (state_path dir) = Some (Doc (PDict d)) ->
  dict_get "worker_count" d = Some (PInt n) ->
  0 < n - 1 ->
  _stop_shared env (o, w)
  = ((o, fst (write_text (state_path dir)
                (Doc (PDict (dict_set "worker_count" (PInt (n - 1)) d))) w)),
     Ok tt).
Proof.
  intros Hdir Hfile Hn Hmore.
  rewrite (stop_shared_parts env o dir w Hdir).
  unfold bind at 1, in_world at 1. cbn [fst snd].
  rewrite read_state_cases, Hfile. cbn [is_none].
  unfold bind at 1, lift_result at 1. cbn [getitem]. rewrite Hn.
  unfold bind at 1, lift_result at 1. cbn [py_add].
  unfold bind at 1, lift_result at 1. cbn [setitem].
  unfold bind at 1, lift_result at 1. cbn [getitem].
  rewrite dict_get_set_same.
  unfold bind at 1, lift_result at 1. cbn [py_le0].
  replace (n + -1 <=? 0) with false by (symmetry; apply Z.leb_gt; lia).
  replace (n + -1) with (n - 1) by lia.
  reflexivity.
Qed.

(** The run of [_stop_shared] of the last user. *)
Lemma stop_shared_last_run (o : PubSubEmulator) (dir : string)
    (w w1 : World) (d : list (string * pyval)) (n pid : Z) :
  _shared_dir o = Some dir ->
  files w (state_path dir) = Some (Doc (PDict d)) ->
  dict_get "worker_count" d = Some (PInt n) ->
  n - 1 <= 0 ->
  dict_get "pid" d = Some (PInt pid) ->
  _terminate_process env pid TERMINATE_TIMEOUT w = (w1, Ok tt) ->
  _stop_shared env (o, w) = ((o, fst (unlink (state_path dir) w1)), Ok tt).
Proof.
  intros Hdir Hfile Hn Hlast Hpid Hterm.
  rewrite (stop_shared_parts env o dir w Hdir).
  unfold bind at 1, in_world at 1. cbn [fst snd].
  rewrite read_state_cases, Hfile. cbn [is_none].
  unfold bind at 1, lift_result at 1. cbn [getitem]. rewrite Hn.
  unfold bind at 1, lift_result at 1. cbn [py_add].
  unfold bind at 1, lift_result at 1. cbn [setitem].
  unfold bind at 1, lift_result at 1. cbn [getitem].
  rewrite dict_get_set_same.
  unfold bind at 1, lift_result at 1. cbn [py_le0].
  replace (n + -1 <=? 0) with true by (symmetry; apply Z.leb_le; lia).
  unfold bind at 1, lift_result at 1. cbn [getitem].
  rewrite dict_get_set_other by discriminate. rewrite Hpid.
  unfold bind at 1, lift_result at 1. cbn [as_int].
  unfold bind at 1, in_world at 1. cbn [fst snd]. rewrite Hterm.
  reflexivity.
Qed.

(** X15.  Joining and then leaving puts the stored record back as it
    was: after a [start()] that joined and a [stop()] by any worker of
    the directory, the state file holds exactly the record it held
    before, and no process was started. *)
Theorem join_then_leave_restores
    (o o2 : PubSubEmulator) (dir : string) (w w1 : World)
    (d : list (string * pyval)) (pid n : Z) (h p pr : pyval) :
  _shared_dir o = Some dir ->
  _shared_dir o2 = Some dir ->
  files w (state_path dir) = Some (Doc (PDict d)) ->
  dict_get "pid" d = Some (PInt pid) ->
  dict_get "worker_count" d = Some (PInt n) ->
  1 <= n ->
  dict_get "host" d = Some h ->
  dict_get "port" d = Some p ->
  dict_get "project" d = Some pr ->
  _is_pid_alive env pid w = (w1, Ok true) ->
  exists o' w2 w3,
    _start_shared env (o, w)
    = ((o', w2), Ok {| host := h; port := p; project := pr |})
    /\ _stop_shared env (o2, w2) = ((o2, w3), Ok tt)
    /\ files w3 (state_path dir) = files w (state_path dir)
    /\ spawned w3 = spawned w.
Proof.
  intros Hdir Hdir2 Hfile Hpid Hn Hpos Hh Hp Hpr Halive.
  pose proof (start_shared_join_run env o dir w w1 d pid n h p pr
                Hdir Hfile Hpid Hn Hh Hp Hpr Halive) as Hjoin.
  cbv zeta in Hjoin.
  set (d' := dict_set "worker_count" (PInt (n + 1)) d) in *.
  set (w2 := fst (write_text (state_path dir) (Doc (PDict d')) w1)) in *.
  assert (Hfile2 : files w2 (state_path dir) = Some (Doc (PDict d'))).
  { unfold w2. cbn. rewrite String.eqb_refl. reflexivity. }
  pose proof (stop_shared_leave_run o2 dir w2 d' (n + 1) Hdir2 Hfile2
                (dict_get_set_same _ _ _) ltac:(lia)) as Hleave.
  eexists _, w2, _. split; [exact Hjoin|]. split; [exact Hleave|].
  split.
  - cbn. rewrite String.eqb_refl. rewrite Hfile.
    unfold d'. rewrite dict_set_set.
    replace (n + 1 - 1) with n by lia.
    rewrite (dict_set_stored _ _ _ Hn). reflexivity.
  - cbn [write_text fst with_files spawned]. unfold w2.
    cbn [write_text fst with_files spawned].
    exact (proj2 (is_pid_alive_frame env pid) _ _ _ Halive).
Qed.

Lemma run_calls_cons (c : call) (cs : list call) (w : World) :
  run_calls env (c :: cs) w = run_calls env cs (run_call env c w).
Proof. reflexivity. Qed.

(** A probe of a process that stays alive. *)
Lemma probe_alive (pid : Z) (w : World) :
  stays_alive env pid ->
  exists w1 k,
    _is_pid_alive env pid w = (w1, Ok true)
    /\ spawned w1 = spawned w /\ dialled w1 = dialled w
    /\ signalled w1 = signalled w ++ repeat (pid, SIG0) k.
Proof.
  intros [Hfit Halive]. rewrite is_pid_alive_cases, Hfit.
  specialize (Halive (events w)).
  destruct (sys_kill env (events w) pid SIG0); try congruence.
  - exists (log_signal pid SIG0 (step env w)), 1%nat. repeat split.
  - exists (step env w), 0%nat. repeat split.
    cbn [signalled step repeat]. rewrite app_nil_r. reflexivity.
Qed.

(** One acquire, one release, on the owner's record. *)
Lemma acquire_on_record (o : PubSubEmulator) (dir : string) (w : World)
    (pid : Z) (h : string) (p : Z) (pr : string) (n : Z) :
  stays_alive env pid ->
  _shared_dir o = Some dir ->
  files w (state_path dir) = Some (Doc (owner_record pid h p pr n)) ->
  exists w' k,
    acquire env o w
    = (w', Ok {| host := PStr h; port := PInt p; project := PStr pr |})
    /\ files w' (state_path dir)
       = Some (Doc (owner_record pid h p pr (n + 1)))
    /\ spawned w' = spawned w /\ dialled w' = dialled w
    /\ signalled w' = signalled w ++ repeat (pid, SIG0) k.
Proof.
  intros Halive Hdir Hfile.
  destruct (probe_alive pid w Halive) as (w1 & k & Hprobe & Hs & Hd & Hg).
  pose proof (start_shared_join_run env o dir w w1 _ pid n _ _ _ Hdir Hfile
                eq_refl eq_refl eq_refl eq_refl eq_refl Hprobe) as Hjoin.
  cbv zeta in Hjoin.
  change (dict_set "worker_count" (PInt (n + 1))
            [("pid"%string, PInt pid); ("host"%string, PStr h);
             ("port"%string, PInt p); ("project"%string, PStr pr);
             ("worker_count"%string, PInt n)])
    with [("pid"%string, PInt pid); ("host"%string, PStr h);
          ("port"%string, PInt p); ("project"%string, PStr pr);
          ("worker_count"%string, PInt (n + 1))] in Hjoin.
  fold (owner_record pid h p pr (n + 1)) in Hjoin.
  eexists _, k. rewrite (acquire_shared env o dir w Hdir), Hjoin.
  cbn [snd]. split; [reflexivity|]. repeat split; try assumption.
  cbn. rewrite String.eqb_refl. reflexivity.
Qed.

Lemma release_on_record (o : PubSubEmulator) (dir : string) (w : World)
    (pid : Z) (h : string) (p : Z) (pr : string) (n : Z) :
  _shared_dir o = Some dir ->
  files w (state_path dir) = Some (Doc (owner_record pid h p pr n)) ->
  1 <= n - 1 ->
  exists w',
    release env o w = (w', Ok tt)
    /\ files w' (state_path dir)
       = Some (Doc (owner_record pid h p pr (n - 1)))
    /\ spawned w' = spawned w /\ dialled w' = dialled w
    /\ signalled w' = signalled w.
Proof.
  intros Hdir Hfile Hmore.
  pose proof (stop_shared_leave_run o dir w _ n Hdir Hfile eq_refl
                ltac:(lia)) as Hleave.
  change (dict_set "worker_count" (PInt (n - 1))
            [("pid"%string, PInt pid); ("host"%string, PStr h);
             ("port"%string, PInt p); ("project"%string, PStr pr);
             ("worker_count"%string, PInt n)])
    with [("pid"%string, PInt pid); ("host"%string, PStr h);
          ("port"%string, PInt p); ("project"%string, PStr pr);
          ("worker_count"%string, PInt (n - 1))] in Hleave.
  fold (owner_record pid h p pr (n - 1)) in Hleave.
  eexists. rewrite (release_shared o dir w Hdir), Hleave.
  cbn [snd]. split; [reflexivity|]. repeat split.
  cbn. rewrite String.eqb_refl. reflexivity.
Qed.

(** X16.  While the owner's process is alive, the stored count keeps
    the balance of the calls: after any interleaving of [start()] and
    [stop()] calls by workers of the directory in which the count
    never falls below 1, the record holds the old count plus the
    acquires minus the releases, with the owner's pid, host, port and
    project unchanged; no process was started, no connection was
    attempted and nothing but existence probes was sent to the
    owner. *)
Theorem refcount_balance
    (dir : string) (pid : Z) (h : string) (p : Z) (pr : string)
    (cs : list call) (w : World) (n : Z) :
  stays_alive env pid ->
  Forall (on_dir dir) cs ->
  stays_held cs n ->
  files w (state_path dir) = Some (Doc (owner_record pid h p pr n)) ->
  let w' := run_calls env cs w in
  files w' (state_path dir)
  = Some (Doc (owner_record pid h p pr (balance cs n)))
  /\ spawned w' = spawned w
  /\ dialled w' = dialled w
  /\ exists k, signalled w' = signalled w ++ repeat (pid, SIG0) k.
Proof.
  intros Halive Hall. revert w n.
  induction Hall as [|c cs Hc _ IH]; intros w n Hheld Hfile; cbv zeta.
  - cbn. split; [exact Hfile|]. split; [reflexivity|].
    split; [reflexivity|].
    exists 0%nat. cbn [repeat]. rewrite app_nil_r. reflexivity.
  - rewrite run_calls_cons.
    destruct c as [o|o]; unfold on_dir in Hc; cbn [caller] in Hc;
      cbn [stays_held] in Hheld; cbn [balance run_call].
    + destruct (acquire_on_record o dir w pid h p pr n Halive Hc Hfile)
        as (w1 & k1 & Hrun & Hf1 & Hs1 & Hd1 & Hg1).
      rewrite Hrun. cbn [fst].
      destruct (IH w1 (n + 1) Hheld Hf1) as (Hf & Hs & Hd & k & Hg).
      split; [exact Hf|]. split; [congruence|]. split; [congruence|].
      exists (k1 + k)%nat. rewrite Hg, Hg1, <- app_assoc, repeat_app.
      reflexivity.
    + destruct Hheld as [Hmore Hheld].
      destruct (release_on_record o dir w pid h p pr n Hc Hfile Hmore)
        as (w1 & Hrun & Hf1 & Hs1 & Hd1 & Hg1).
      rewrite Hrun. cbn [fst].
      destruct (IH w1 (n - 1) Hheld Hf1) as (Hf & Hs & Hd & k & Hg).
      split; [exact Hf|]. split; [congruence|]. split; [congruence|].
      exists k. rewrite Hg, Hg1. reflexivity.
Qed.

(** As many releases as the count: the last one tears down. *)
Lemma release_all (dir : string) (pid : Z) (h : string) (p : Z)
    (pr : string) (rs : list PubSubEmulator) :
  never_refused env pid ->
  Forall (fun o => _shared_dir o = Some dir) rs ->
  rs <> [] ->
  forall w,
    files w (state_path dir)
    = Some (Doc (owner_record pid h p pr (Z.of_nat (List.length rs)))) ->
    let w' := run_calls env (map Release rs) w in
    files w' (state_path dir) = None /\ spawned w' = spawned w.
Proof.
  intros [Hfit Hperm] Hall.
  induction Hall as [|o rs Hdir Hrest IH]; intros Hne w Hfile; cbv zeta.
  - contradiction.
  - cbn [map]. rewrite run_calls_cons. cbn [run_call].
    destruct rs as [|o2 rs].
    + (* the last user *)
      destruct (terminate_process_returns env pid TERMINATE_TIMEOUT w
                  Hfit Hperm) as [w1 Hterm].
      pose proof (stop_shared_last_run o dir w w1 _ 1 pid Hdir Hfile
                    eq_refl ltac:(lia) eq_refl Hterm) as Hlast.
      rewrite (release_shared o dir w Hdir), Hlast. cbn [snd fst].
      cbn [map]. unfold run_calls. cbn [fold_left].
      split.
      * cbn. rewrite String.eqb_refl. reflexivity.
      * cbn [unlink fst with_files spawned].
        exact (proj2 (terminate_process_frame env _ _) _ _ _ Hterm).
    + destruct (release_on_record o dir w pid h p pr _ Hdir Hfile)
        as (w1 & Hrun & Hf1 & Hs1 & _).
      { cbn [List.length]. lia. }
      rewrite Hrun. cbn [fst].
      destruct (IH ltac:(discriminate) w1) as [Hf Hs].
      { rewrite Hf1. do 3 f_equal. cbn [List.length]. lia. }
      split; [exact Hf|congruence].
Qed.

(** X17.  The whole life of a shared emulator.  Workers start one
    after the other, the first one launching; the emulator's process
    stays alive and may be signalled.  When as many [stop()] calls
    have been made as [start()] calls, by workers of the directory in
    any order, the state file is gone, and the one process of the
    first worker is the only one that was ever started. *)
Theorem shared_emulator_lifecycle
    (o : PubSubEmulator) (os rs : list PubSubEmulator) (dir : string)
    (w w1 : World) (first : EmulatorInfo) (pid : Z) (cmd : list fstring) :
  _shared_dir o = Some dir ->
  Forall (fun o' => _shared_dir o' = Some dir) os ->
  Forall (fun o' => _shared_dir o' = Some dir) rs ->
  List.length rs = S (List.length os) ->
  acquire env o w = (w1, Ok first) ->
  spawned w1 = spawned w ++ [(pid, cmd)] ->
  stays_alive env pid ->
  never_refused env pid ->
  let wN := fst (acquire_all env (o :: os) w) in
  let wE := run_calls env (map Release rs) wN in
  files wN (state_path dir) <> None
  /\ files wE (state_path dir) = None
  /\ spawned wE = spawned w ++ [(pid, cmd)].
Proof.
  intros Hdir Hos Hrs Hlen Hfirst Hgrew Halive Hkill.
  destruct (acquire_launched env o dir w w1 first pid cmd Hdir Hfirst Hgrew)
    as (h & p & pr & Hfile & ->).
  destruct (acquire_all_join env dir pid h p pr os Halive Hos w1 1 Hfile)
    as (wN & Hrest & HsN & HfN).
  cbn [acquire_all]. rewrite Hfirst, Hrest. cbn [fst].
  assert (Hne : rs <> []) by (destruct rs; [discriminate Hlen|discriminate]).
  destruct (release_all dir pid h p pr rs Hkill Hrs Hne wN) as [Hf Hs].
  { rewrite HfN. do 3 f_equal. lia. }
  split; [rewrite HfN; discriminate|].
  split; [exact Hf|]. rewrite Hs, HsN. exact Hgrew.
Qed.

End Counting.

(* ================================================================= *)
(** ** Calls that fail half-way *)

Section HalfWay.
Variable env : Env.

(** X18.  The joining branch stores the incremented count before it
    reads the connection fields: on a record of a live owner that
    lacks ["host"], [_start_shared] raises [KeyError] for that key,
    and the state file already counts the caller. *)
Theorem start_shared_counts_before_failing
    (o : PubSubEmulator) (dir : string) (w w1 : World)
    (d : list (string * pyval)) (pid n : Z) :
  _shared_dir o = Some dir ->
  files w (state_path dir) = Some (Doc (PDict d)) ->
  dict_get "pid" d = Some (PInt pid) ->
  dict_get "worker_count" d = Some (PInt n) ->
  dict_get "host" d = None ->
  _is_pid_alive env pid w = (w1, Ok true) ->
  exists w2,
    _start_shared env (o, w) = ((o, w2), Raise (KeyError "host"))
    /\ files w2 (state_path dir)
       = Some (Doc (PDict (dict_set "worker_count" (PInt (n + 1)) d))).
Proof.
  intros Hdir Hfile Hpid Hn Hh Halive.
  set (d' := dict_set "worker_count" (PInt (n + 1)) d).
  exists (fst (write_text (state_path dir) (Doc (PDict d')) w1)).
  split.
  - rewrite (start_shared_parts env o dir w Hdir).
    unfold bind at 1, in_world at 1. cbn [fst snd].
    rewrite read_state_cases, Hfile.
    unfold bind at 1. rewrite (live_owner_record env o w d pid Hpid).
    rewrite Halive.
    unfold join_existing.
    unfold bind at 1, lift_result at 1. cbn [getitem]. rewrite Hn.
    unfold bind at 1, lift_result at 1. cbn [py_add].
    unfold bind at 1, lift_result at 1. cbn [setitem].
    unfold bind at 1, in_world at 1, _write_state, json_dumps. cbn [fst snd].
    fold d'.
    change (write_text (state_path dir) (Doc (PDict d')) w1)
      with (fst (write_text (state_path dir) (Doc (PDict d')) w1),
            @Ok unit tt).
    cbn iota.
    unfold bind at 1, lift_result at 1. cbn [getitem].
    unfold d' at 1. rewrite dict_get_set_other by discriminate. rewrite Hh.
    reflexivity.
  - cbn. rewrite String.eqb_refl. reflexivity.
Qed.

(** X19.  When the last user leaves and the system refuses the
    [SIGTERM] for lack of permission, [_stop_shared] raises
    [PermissionError]; the state file is neither deleted nor
    rewritten, so the count taken off in memory is lost and the record
    stays as it was. *)
Theorem stop_shared_refused_keeps_record
    (o : PubSubEmulator) (dir : string) (w : World)
    (d : list (string * pyval)) (pid n : Z) :
  _shared_dir o = Some dir ->
  files w (state_path dir) = Some (Doc (PDict d)) ->
  dict_get "worker_count" d = Some (PInt n) ->
  n - 1 <= 0 ->
  dict_get "pid" d = Some (PInt pid) ->
  fits_c_int pid = true ->
  sys_kill env (events w) pid SIGTERM = EPERM ->
  exists w',
    _stop_shared env (o, w) = ((o, w'), Raise PermissionError)
    /\ files w' = files w
    /\ signalled w' = signalled w.
Proof.
  intros Hdir Hfile Hn Hlast Hpid Hfit Hperm.
  exists (step env w). split; [|split; reflexivity].
  rewrite (stop_shared_parts env o dir w Hdir).
  unfold bind at 1, in_world at 1. cbn [fst snd].
  rewrite read_state_cases, Hfile. cbn [is_none].
  unfold bind at 1, lift_result at 1. cbn [getitem]. rewrite Hn.
  unfold bind at 1, lift_result at 1. cbn [py_add].
  unfold bind at 1, lift_result at 1. cbn [setitem].
  unfold bind at 1, lift_result at 1. cbn [getitem].
  rewrite dict_get_set_same.
  unfold bind at 1, lift_result at 1. cbn [py_le0].
  replace (n + -1 <=? 0) with true by (symmetry; apply Z.leb_le; lia).
  unfold bind at 1, lift_result at 1. cbn [getitem].
  rewrite dict_get_set_other by discriminate. rewrite Hpid.
  unfold bind at 1, lift_result at 1. cbn [as_int].
  unfold bind at 1, in_world at 1. cbn [fst snd].
  assert (Hterm : _terminate_process env pid TERMINATE_TIMEOUT w
                  = (step env w, Raise PermissionError)).
  { unfold _terminate_process, bind at 1, try_except, bind at 1.
    rewrite os_kill_cases, Hfit, Hperm. reflexivity. }
  rewrite Hterm. reflexivity.
Qed.

End HalfWay.

(* ================================================================= *)
(** ** The further theorems at work *)

(** One second of waiting on a machine where nothing listens. *)
Lemma wait_for_port_attempts_witness :
  exists k,
    dialled (fst (_wait_for_port deaf_env "localhost" 8085 1000 empty_world))
    = dialled empty_world ++ repeat ("localhost"%string, 8085) k
    /\ (k = 0%nat \/ 200 * (Z.of_nat k - 1) < 1000).
Proof.
  apply (wait_for_port_attempts deaf_env "localhost" 8085 1000 empty_world
           (fst (_wait_for_port deaf_env "localhost" 8085 1000 empty_world))
           (snd (_wait_for_port deaf_env "localhost" 8085 1000 empty_world))).
  apply surjective_pairing.
Defined.

(** No time to wait, on a machine where the port is open. *)
Lemma wait_for_port_nonpositive_timeout_witness :
  exists w',
    _wait_for_port good_env "localhost" 8085 0 empty_world
    = (w', Raise (TimeoutError (timeout_msg 0 "localhost" 8085)))
    /\ dialled w' = dialled empty_world.
Proof.
  apply (wait_for_port_nonpositive_timeout good_env "localhost" 8085 0
           empty_world).
  lia.
Defined.

Lemma wait_for_port_returns_when_accepted_witness :
  let w' := fst (_wait_for_port good_env "localhost" 8085 1000 empty_world) in
  (events empty_world < pred (events w'))%nat
  /\ tcp_accepts good_env (pred (events w')) "localhost" 8085 = true
  /\ 0 < 1000.
Proof.
  apply (wait_for_port_returns_when_accepted good_env "localhost" 8085 1000
           empty_world).
  vm_compute. reflexivity.
Defined.

(** One second of waiting in vain ends with the [TimeoutError], a
    second or more after the call. *)
Lemma wait_for_port_gives_up_late_witness :
  (TimeoutError (timeout_msg 1000 "localhost" 8085)
   = TimeoutError (timeout_msg 1000 "localhost" 8085)
   /\ clock empty_world + 1000
      <= clock (fst (_wait_for_port deaf_env "localhost" 8085 1000
                       empty_world)))
  \/ (dialled (fst (_wait_for_port deaf_env "localhost" 8085 1000
                      empty_world))
      = dialled empty_world
      /\ isinstance_OSError (TimeoutError (timeout_msg 1000 "localhost" 8085))
         = false
      /\ ((idna_refuses deaf_env "localhost" = true
           /\ TimeoutError (timeout_msg 1000 "localhost" 8085) = UnicodeError)
          \/ (idna_refuses deaf_env "localhost" = false
              /\ fits_c_long 8085 = false
              /\ TimeoutError (timeout_msg 1000 "localhost" 8085)
                 = OverflowError))).
Proof.
  apply (wait_for_port_gives_up_late deaf_env "localhost" 8085 1000
           empty_world).
  vm_compute. reflexivity.
Defined.

(** The emulator of [good_env] ignores [SIGTERM]: one second later it
    is killed. *)
Lemma terminate_process_signals_witness :
  let w' := fst (_terminate_process good_env 4242 1000 empty_world) in
  signalled w' = signalled empty_world
  \/ exists k,
       signalled w'
       = signalled empty_world ++ (4242, SIGTERM) :: repeat (4242, SIG0) k
       \/ (signalled w'
           = signalled empty_world
             ++ (4242, SIGTERM) :: repeat (4242, SIG0) k
             ++ [(4242, SIGKILL)]
           /\ clock empty_world + 1000 <= clock w').
Proof.
  apply (terminate_process_signals good_env 4242 1000 empty_world
           (fst (_terminate_process good_env 4242 1000 empty_world))
           (snd (_terminate_process good_env 4242 1000 empty_world))).
  apply surjective_pairing.
Defined.

(** Process 1 of [guarded_env] may not be signalled. *)
Lemma terminate_process_errors_witness :
  (PermissionError = OverflowError /\ fits_c_int 1 = false
   /\ step guarded_env empty_world = empty_world)
  \/ (PermissionError = PermissionError
      /\ (sys_kill guarded_env (events empty_world) 1 SIGTERM = EPERM
          \/ sys_kill guarded_env
               (pred (events (step guarded_env empty_world))) 1 SIGKILL
             = EPERM)).
Proof.
  apply (terminate_process_errors guarded_env 1 5000 empty_world
           (step guarded_env empty_world) PermissionError).
  reflexivity.
Defined.

Lemma start_standalone_launches_witness :
  exists o',
    _start_standalone good_env (loner, empty_world)
    = ((o', fst (_wait_for_port good_env "localhost" 40123 15000
                   (log_spawn 4242
                      (launch_cmd "localhost" 40123 "test-project")
                      (step good_env (step good_env empty_world))))),
       Ok info_a)
    /\ _process o' = Some 4242 /\ _is_owner o' = true.
Proof.
  destruct (start_standalone_launches good_env loner empty_world
              (fst (_wait_for_port good_env "localhost" 40123 15000
                      (log_spawn 4242
                         (launch_cmd "localhost" 40123 "test-project")
                         (step good_env (step good_env empty_world)))))
              4242 eq_refl ltac:(vm_compute; reflexivity))
    as (o' & Hrun & Hp & Ho & _).
  exists o'. split; [exact Hrun|]. split; [exact Hp|exact Ho].
Defined.

(** A lone worker whose emulator never listens can still stop it. *)
Lemma stop_standalone_after_start_witness :
  let s := fst (_start_standalone deaf_env (loner, empty_world)) in
  let w2 := fst (_terminate_process deaf_env 4242 TERMINATE_TIMEOUT (snd s)) in
  _stop_standalone deaf_env (fst s, snd s)
  = ((set_process None (fst s), w2), Ok tt)
  /\ _stop_standalone deaf_env (set_process None (fst s), w2)
     = ((set_process None (fst s), w2), Ok tt).
Proof.
  apply (stop_standalone_after_start deaf_env loner
           (fst (fst (_start_standalone deaf_env (loner, empty_world))))
           empty_world
           (snd (fst (_start_standalone deaf_env (loner, empty_world))))
           (fst (_terminate_process deaf_env 4242 TERMINATE_TIMEOUT
                   (snd (fst (_start_standalone deaf_env
                                (loner, empty_world))))))
           (snd (_start_standalone deaf_env (loner, empty_world)))
           4242).
  - reflexivity.
  - vm_compute. reflexivity.
  - vm_compute. reflexivity.
Defined.

Lemma standalone_touches_no_file_witness :
  files (snd (fst (start good_env (loner, world_2)))) = files world_2
  /\ files (snd (fst (stop good_env (loner, world_2)))) = files world_2.
Proof.
  apply (standalone_touches_no_file good_env loner world_2). reflexivity.
Defined.

Lemma info_after_start_witness :
  let s := fst (start good_env (worker_b, world_1)) in
  info (fst s, snd s) = ((fst s, snd s), Ok info_a).
Proof.
  apply (info_after_start good_env worker_b
           (fst (fst (start good_env (worker_b, world_1))))
           world_1
           (snd (fst (start good_env (worker_b, world_1))))
           info_a).
  vm_compute. reflexivity.
Defined.

(** [gcloud] is not installed. *)
Lemma start_shared_launch_failure_witness :
  exists w',
    _start_shared guarded_env (worker_a, empty_world)
    = ((worker_a, w'), Raise FileNotFoundError)
    /\ files w' (state_path "/tmp/x") = files empty_world (state_path "/tmp/x")
    /\ (forall path, path <> lock_path "/tmp/x" ->
                     files w' path = files empty_world path)
    /\ spawned w' = spawned empty_world.
Proof.
  apply (start_shared_launch_failure guarded_env worker_a "/tmp/x"
           empty_world empty_world FileNotFoundError).
  - reflexivity.
  - left. split; reflexivity.
  - reflexivity.
Defined.

Lemma start_shared_timeout_leaves_process_witness :
  exists o',
    _start_shared deaf_env (worker_b, empty_world)
    = ((o', fst (_wait_for_port deaf_env "elsewhere" 9999 1000
                   (log_spawn 4242
                      (launch_cmd "elsewhere" 9999 "other-project")
                      (step deaf_env empty_world)))),
       Raise (TimeoutError (timeout_msg 1000 "elsewhere" 9999)))
    /\ _process o' = Some 4242
    /\ signalled (fst (_wait_for_port deaf_env "elsewhere" 9999 1000
                         (log_spawn 4242
                            (launch_cmd "elsewhere" 9999 "other-project")
                            (step deaf_env empty_world))))
       = signalled empty_world.
Proof.
  destruct (start_shared_timeout_leaves_process deaf_env worker_b "/tmp/x"
              empty_world
              (fst (_wait_for_port deaf_env "elsewhere" 9999 1000
                      (log_spawn 4242
                         (launch_cmd "elsewhere" 9999 "other-project")
                         (step deaf_env empty_world))))
              4242 (TimeoutError (timeout_msg 1000 "elsewhere" 9999))
              eq_refl eq_refl eq_refl ltac:(vm_compute; reflexivity))
    as (o' & Hrun & Hp & _ & _ & Hsig & _).
  exists o'. split; [exact Hrun|]. split; [exact Hp|exact Hsig].
Defined.

(** A state file that holds the number 5. *)
Lemma non_object_state_is_stuck_witness :
  let w := with_state_file "/tmp/x" (Doc (PInt 5)) empty_world in
  exists w1 w2,
    _start_shared good_env (worker_a, w) = ((worker_a, w1), Raise TypeError)
    /\ _stop_shared good_env (worker_a, w) = ((worker_a, w2), Raise TypeError)
    /\ files w1 (state_path "/tmp/x") = Some (Doc (PInt 5))
    /\ files w2 (state_path "/tmp/x") = Some (Doc (PInt 5)).
Proof.
  cbv zeta.
  destruct (non_object_state_is_stuck good_env worker_a "/tmp/x"
              (with_state_file "/tmp/x" (Doc (PInt 5)) empty_world) (PInt 5)
              eq_refl eq_refl I)
    as (w1 & w2 & Hstart & Hstop & Hkept).
  exists w1, w2.
  split; [exact Hstart|]. split; [exact Hstop|].
  split; [exact (proj1 (Hkept w1 (or_introl eq_refl)))
         |exact (proj1 (Hkept w2 (or_intror eq_refl)))].
Defined.

Lemma join_then_leave_restores_witness :
  exists o' w2 w3,
    _start_shared good_env (worker_b, world_1) = ((o', w2), Ok info_a)
    /\ _stop_shared good_env (worker_a, w2) = ((worker_a, w3), Ok tt)
    /\ files w3 (state_path "/tmp/x") = files world_1 (state_path "/tmp/x")
    /\ spawned w3 = spawned world_1.
Proof.
  apply (join_then_leave_restores good_env worker_b worker_a "/tmp/x"
           world_1 (fst (_is_pid_alive good_env 4242 world_1))
           [("pid", PInt 4242); ("host", PStr "localhost");
            ("port", PInt 40123); ("project", PStr "test-project");
            ("worker_count", PInt 1)]%string
           4242 1 (PStr "localhost") (PInt 40123) (PStr "test-project"));
    try reflexivity; try lia.
Defined.

Lemma alive_4242 : stays_alive good_env 4242.
Proof. split; [reflexivity|]. intros n. simpl. discriminate. Defined.

Lemma signalable_4242 : never_refused good_env 4242.
Proof. split; [reflexivity|]. intros n sig. simpl. discriminate. Defined.

Lemma refcount_balance_witness :
  let w' := run_calls good_env
              [Acquire worker_b; Acquire worker_a; Release worker_b]
              world_1 in
  files w' (state_path "/tmp/x")
  = Some (Doc (owner_record 4242 "localhost" 40123 "test-project" 2))
  /\ spawned w' = spawned world_1
  /\ dialled w' = dialled world_1
  /\ exists k, signalled w' = signalled world_1 ++ repeat (4242, SIG0) k.
Proof.
  apply (refcount_balance good_env "/tmp/x" 4242 "localhost" 40123
           "test-project"
           [Acquire worker_b; Acquire worker_a; Release worker_b]
           world_1 1).
  - exact alive_4242.
  - repeat constructor.
  - cbn [stays_held]. split; [lia|exact I].
  - reflexivity.
Defined.

Lemma shared_emulator_lifecycle_witness :
  let wN := fst (acquire_all good_env [worker_a; worker_b] empty_world) in
  let wE := run_calls good_env (map Release [worker_b; worker_a]) wN in
  files wN (state_path "/tmp/x") <> None
  /\ files wE (state_path "/tmp/x") = None
  /\ spawned wE
     = spawned empty_world
       ++ [(4242, launch_cmd "localhost" 40123 "test-project")].
Proof.
  apply (shared_emulator_lifecycle good_env worker_a [worker_b]
           [worker_b; worker_a] "/tmp/x" empty_world world_1 info_a 4242
           (launch_cmd "localhost" 40123 "test-project")).
  - reflexivity.
  - repeat constructor.
  - repeat constructor.
  - reflexivity.
  - reflexivity.
  - reflexivity.
  - exact alive_4242.
  - exact signalable_4242.
Defined.

Lemma start_shared_counts_before_failing_witness :
  exists w2,
    _start_shared good_env (worker_a, hostless_world)
    = ((worker_a, w2), Raise (KeyError "host"))
    /\ files w2 (state_path "/tmp/x")
       = Some (Doc (PDict (dict_set "worker_count" (PInt (1 + 1))
                             [("pid", PInt 4242);
                              ("worker_count", PInt 1)]%string))).
Proof.
  apply (start_shared_counts_before_failing good_env worker_a "/tmp/x"
           hostless_world (fst (_is_pid_alive good_env 4242 hostless_world))
           [("pid", PInt 4242); ("worker_count", PInt 1)]%string 4242 1);
    reflexivity.
Defined.

Lemma stop_shared_refused_keeps_record_witness :
  exists w',
    _stop_shared guarded_env (worker_a, guarded_world)
    = ((worker_a, w'), Raise PermissionError)
    /\ files w' = files guarded_world
    /\ signalled w' = signalled guarded_world.
Proof.
  apply (stop_shared_refused_keeps_record guarded_env worker_a "/tmp/x"
           guarded_world
           [("pid", PInt 1); ("host", PStr "localhost");
            ("port", PInt 8085); ("project", PStr "test-project");
            ("worker_count", PInt 1)]%string 1 1);
    try reflexivity; try lia.
Defined.
